(** * MDMS device layer: devices, session store and per-device monitor loops

    A shallow embedding of the device classes
    ([src/device_communication/*.py]), of [DeviceService]
    ([src/business_logic/device_service.py]) and of the four monitor loops
    ([src/business_logic/*_manager.py]), with the properties the
    specification states about them.

    Conventions of the embedding.
    - A Python method that mutates [self] and may raise becomes a function
      [self -> result A * self]: the outcome together with the object as the
      call leaves it.
    - Python [float] values are idealised as rationals ([Q]); the IEEE special
      values are outside the model.  Integers are [Z].
    - A [dict] with string keys is a [gmap string _]; [str(device_id)] on an
      [int] is the decimal rendering [pretty].
    - [datetime] values are microsecond counts ([Z]); [timedelta(minutes=5)]
      is [five_minutes].
    - [datetime.utcnow()], [uuid.uuid4()] and the answers of the collaborators
      a loop polls are inputs of the step that reads them. *)

From Stdlib Require Import ZArith QArith Qabs Lqa Lia.
From stdpp Require Import base option list gmap strings pretty.

Local Open Scope Z_scope.

(** ** Python values, exceptions, outcomes *)

Module Py.

(** The text of an exception; the two formatted messages keep their
    arguments. *)
Inductive message : Type :=
| Msg (s : string)
| MsgTemperatureRange (lo hi : Q)
| MsgUnknownDeviceType (device_type : string).

Inductive exn : Type :=
| RuntimeError (m : message)
| ValueError (m : message)
| TypeError
| KeyError (key : string)
| AttributeError (attr : string)
| NotImplementedError
| OverflowError.

Inductive result (A : Type) : Type :=
| Return (a : A)
| Raise (e : exn).
Arguments Return {A} a.
Arguments Raise {A} e.

Definition is_return {A} (r : result A) : bool :=
  match r with Return _ => true | Raise _ => false end.

(** Comparisons on numbers, as booleans. *)
Definition Qleb (a b : Q) : bool := Qle_bool a b.
Definition Qltb (a b : Q) : bool := negb (Qle_bool b a).

(** A Python [float] where the special values matter: a finite value (the
    rational it denotes), an infinity, or NaN.  A comparison with NaN is
    false, whichever side it is on. *)
Inductive float : Type :=
| Finite (q : Q)
| PosInf
| NegInf
| NaN.

Definition float_ltb (a b : float) : bool :=
  match a, b with
  | NaN, _ | _, NaN => false
  | Finite x, Finite y => Qltb x y
  | Finite _, PosInf => true
  | Finite _, NegInf => false
  | PosInf, _ => false
  | NegInf, NegInf => false
  | NegInf, _ => true
  end.

Definition float_leb (a b : float) : bool :=
  match a, b with
  | NaN, _ | _, NaN => false
  | Finite x, Finite y => Qleb x y
  | Finite _, PosInf => true
  | Finite _, NegInf => false
  | PosInf, PosInf => true
  | PosInf, _ => false
  | NegInf, _ => true
  end.

Definition float_neg (a : float) : float :=
  match a with
  | Finite x => Finite (- x)
  | PosInf => NegInf
  | NegInf => PosInf
  | NaN => NaN
  end.

Definition float_add (a b : float) : float :=
  match a, b with
  | NaN, _ | _, NaN => NaN
  | Finite x, Finite y => Finite (x + y)
  | PosInf, NegInf | NegInf, PosInf => NaN
  | PosInf, _ | _, PosInf => PosInf
  | NegInf, _ | _, NegInf => NegInf
  end.

Definition float_sub (a b : float) : float := float_add a (float_neg b).

(** What the literals [0.2] and [0.3] denote: the doubles nearest to them,
    [0x3FC999999999999A] and [0x3FD3333333333333]. *)
Definition float_0_2 : Q := 3602879701896397 # 18014398509481984.
Definition float_0_3 : Q := 5404319552844595 # 18014398509481984.

(** The values a caller can hand to a parameter typed [Any]. *)
Inductive value : Type :=
| VNone
| VBool (b : bool)
| VInt (z : Z)
| VFloat (q : Q)
| VStr (s : string)
| VList (l : list Z).

(** [bool(value)]: truthiness. *)
Definition truthy (v : value) : bool :=
  match v with
  | VNone => false
  | VBool b => b
  | VInt z => negb (z =? 0)
  | VFloat q => negb (Qeq_bool q 0)
  | VStr s => negb (String.eqb s "")
  | VList l => match l with [] => false | _ => true end
  end.

(** The largest magnitude [float(int)] converts; beyond it the conversion
    raises [OverflowError]. *)
Definition float_int_limit : Z := 2 ^ 1024 - 2 ^ 970.

End Py.

Export Py.

(** ** base_device.py *)

Module BaseDevice.

Inductive DeviceStatus : Type :=
| DISCONNECTED | CONNECTING | CONNECTED | ERROR | IDLE.

Inductive ConnectionType : Type :=
| SERIAL | USB | ETHERNET | BLUETOOTH | WIFI | TCP.

Definition status_eqb (a b : DeviceStatus) : bool :=
  match a, b with
  | DISCONNECTED, DISCONNECTED | CONNECTING, CONNECTING
  | CONNECTED, CONNECTED | ERROR, ERROR | IDLE, IDLE => true
  | _, _ => false
  end.

(** [DeviceStatus.X.value]: [auto()] numbers the members from 1. *)
Definition status_value (s : DeviceStatus) : Z :=
  match s with
  | DISCONNECTED => 1 | CONNECTING => 2 | CONNECTED => 3
  | ERROR => 4 | IDLE => 5
  end.

End BaseDevice.

Export BaseDevice.

(** ** heating_bed.py *)

Module HeatingBed.

Record t : Type := mk {
  device_id : string;
  connection_type : ConnectionType;
  status : DeviceStatus;
  location : string;
  target_temperature : float;
  current_temperature : float;
  is_heating : bool;
  timestamp : Z;
  (* self._safety_limits *)
  min_temp : Q;
  max_temp : Q
}.

(** [HeatingBed.__init__]; [now] is [datetime.now(UTC)]. *)
Definition init (device_id location : string)
    (connection_type : ConnectionType) (now : Z) : t :=
  {| device_id := device_id; connection_type := connection_type;
     status := DISCONNECTED; location := location;
     target_temperature := Finite 37; current_temperature := Finite 37;
     is_heating := false; timestamp := now;
     min_temp := 20; max_temp := 42 |}.

Definition set_status (s : DeviceStatus) (self : t) : t :=
  {| device_id := device_id self; connection_type := connection_type self;
     status := s; location := location self;
     target_temperature := target_temperature self;
     current_temperature := current_temperature self;
     is_heating := is_heating self; timestamp := timestamp self;
     min_temp := min_temp self; max_temp := max_temp self |}.

Definition set_target (temp : float) (self : t) : t :=
  {| device_id := device_id self; connection_type := connection_type self;
     status := status self; location := location self;
     target_temperature := temp;
     current_temperature := current_temperature self;
     is_heating := is_heating self; timestamp := timestamp self;
     min_temp := min_temp self; max_temp := max_temp self |}.

Definition connect (self : t) : result bool * t :=
  (Return true, set_status CONNECTED self).

Definition get_temperature (self : t) : result float * t :=
  if negb (status_eqb (status self) CONNECTED)
  then (Raise (RuntimeError (Msg "Device not connected")), self)
  else (Return (current_temperature self), self).

(** [set_temperature]: the range check against [_safety_limits], written
    as [temp < min or temp > max], then the assignment. *)
Definition set_temperature (temp : float) (self : t) : result unit * t :=
  if float_ltb temp (Finite (min_temp self))
     || float_ltb (Finite (max_temp self)) temp
  then (Raise (ValueError (MsgTemperatureRange (min_temp self) (max_temp self))),
        self)
  else (Return tt, set_target temp self).

Definition reset (self : t) : result unit * t :=
  (Return tt,
   {| device_id := device_id self; connection_type := connection_type self;
      status := IDLE; location := location self;
      target_temperature := Finite 37; current_temperature := Finite 37;
      is_heating := false; timestamp := timestamp self;
      min_temp := min_temp self; max_temp := max_temp self |}).

(** The failure the specification calls [OutOfRange]. *)
Definition OutOfRange (self : t) : exn :=
  ValueError (MsgTemperatureRange (min_temp self) (max_temp self)).

(** The limits as [__init__] sets them. *)
Definition limits_as_built (self : t) : Prop :=
  min_temp self = 20%Q /\ max_temp self = 42%Q.

(** [BaseDevice.initialize], inherited. *)
Definition initialize (self : t) : result bool * t :=
  (Return true, set_status IDLE self).

Definition set_current (temp : float) (self : t) : t :=
  {| device_id := device_id self; connection_type := connection_type self;
     status := status self; location := location self;
     target_temperature := target_temperature self;
     current_temperature := temp;
     is_heating := is_heating self; timestamp := timestamp self;
     min_temp := min_temp self; max_temp := max_temp self |}.

(** [_monitor_loop].  When the status is not [ERROR] the body of the [while]
    adjusts the simulated temperature once and then evaluates
    [self._sleep(1)], an attribute no class defines; with status [ERROR] the
    loop is not entered and the call returns. *)
Definition monitor_loop (self : t) : result unit * t :=
  if negb (status_eqb (status self) ERROR) then
    let self :=
      if is_heating self
         && float_ltb (current_temperature self) (target_temperature self)
      then set_current (float_add (current_temperature self) (Finite 0.1)) self
      else if float_ltb (target_temperature self) (current_temperature self)
      then set_current (float_sub (current_temperature self) (Finite 0.1)) self
      else self in
    (Raise (AttributeError "_sleep"), self)
  else (Return tt, self).

(** The calls a client can make on a bed. *)
Inductive call : Type :=
| Initialize
| Connect
| GetTemperature
| SetTemperature (temp : float)
| Reset
| MonitorLoop.

(** The bed as a call leaves it, whether the call returns or raises. *)
Definition exec (c : call) (self : t) : t :=
  match c with
  | Initialize => snd (initialize self)
  | Connect => snd (connect self)
  | GetTemperature => snd (get_temperature self)
  | SetTemperature temp => snd (set_temperature temp self)
  | Reset => snd (reset self)
  | MonitorLoop => snd (monitor_loop self)
  end.

Definition run (cs : list call) (self : t) : t :=
  foldl (fun d c => exec c d) self cs.

(** The chained comparison [20.0 <= t <= 42.0], as Python evaluates it:
    false for NaN. *)
Definition in_safe_range (temp : float) : bool :=
  float_leb (Finite 20) temp && float_leb temp (Finite 42).

(** A finite value between two bounds. *)
Definition finite_between (lo hi : Q) (x : float) : Prop :=
  exists q, x = Finite q /\ (lo <= q)%Q /\ (q <= hi)%Q.

(** The state every bed built by [__init__] stays in: the target is within
    the limits or NaN. *)
Definition within_limits (self : t) : Prop :=
  limits_as_built self
  /\ is_heating self = false
  /\ (target_temperature self = NaN
      \/ finite_between 20 42 (target_temperature self))
  /\ finite_between 19.9 37 (current_temperature self).

End HeatingBed.

(** ** phototherapy_light.py *)

Module PhototherapyLight.

(** A value of [active_sessions]: the dict literal [start_session] stores. *)
Record Session : Type := mkSession {
  duration : Z;
  intensity : Z;
  start_time : Z;
  session_status : string
}.

Record t : Type := mk {
  device_id : string;
  connection_type : ConnectionType;
  status : DeviceStatus;
  location : string;
  active_sessions : gmap string Session;
  (* self._intensity_limits *)
  intensity_min : Z;
  intensity_max : Z
}.

Definition init (device_id location : string)
    (connection_type : ConnectionType) : t :=
  {| device_id := device_id; connection_type := connection_type;
     status := DISCONNECTED; location := location;
     active_sessions := ∅; intensity_min := 0; intensity_max := 100 |}.

Definition set_status (s : DeviceStatus) (self : t) : t :=
  {| device_id := device_id self; connection_type := connection_type self;
     status := s; location := location self;
     active_sessions := active_sessions self;
     intensity_min := intensity_min self;
     intensity_max := intensity_max self |}.

Definition set_sessions (m : gmap string Session) (self : t) : t :=
  {| device_id := device_id self; connection_type := connection_type self;
     status := status self; location := location self;
     active_sessions := m;
     intensity_min := intensity_min self;
     intensity_max := intensity_max self |}.

(** [BaseDevice.initialize], inherited. *)
Definition initialize (self : t) : result bool * t :=
  (Return true, set_status IDLE self).

Definition connect (self : t) : result bool * t :=
  (Return true, set_status CONNECTED self).

Definition NotConnected : exn := RuntimeError (Msg "Device not connected").
Definition OutOfRange : exn :=
  ValueError (Msg "Intensity must be between 0 and 100").
Definition NotFound : exn := ValueError (Msg "Invalid session ID").

(** [start_session]; [uuid] is [str(uuid.uuid4())] and [now] is
    [datetime.now(UTC)]. *)
Definition start_session (uuid : string) (now : Z)
    (duration intensity : Z) (self : t) : result string * t :=
  if negb (status_eqb (status self) CONNECTED)
  then (Raise NotConnected, self)
  else if negb ((0 <=? intensity) && (intensity <=? 100))
  then (Raise OutOfRange, self)
  else
    (Return uuid,
     set_sessions
       (<[uuid := {| duration := duration; intensity := intensity;
                     start_time := now; session_status := "running" |}]>
          (active_sessions self))
       self).

Definition get_session (session_id : string) (self : t)
    : result Session * t :=
  match active_sessions self !! session_id with
  | None => (Raise NotFound, self)
  | Some s => (Return s, self)
  end.

Definition stop_session (session_id : string) (self : t)
    : result unit * t :=
  match active_sessions self !! session_id with
  | None => (Raise NotFound, self)
  | Some s =>
      (Return tt,
       set_sessions
         (<[session_id := {| duration := duration s;
                             intensity := intensity s;
                             start_time := start_time s;
                             session_status := "completed" |}]>
            (active_sessions self))
         self)
  end.

(** The calls a client can make on a light, and a history of them. *)
Inductive call : Type :=
| Initialize
| Connect
| StartSession (uuid : string) (now : Z) (duration intensity : Z)
| GetSession (session_id : string)
| StopSession (session_id : string).

Definition exec (c : call) (self : t) : t :=
  match c with
  | Initialize => snd (initialize self)
  | Connect => snd (connect self)
  | StartSession uuid now d i => snd (start_session uuid now d i self)
  | GetSession sid => snd (get_session sid self)
  | StopSession sid => snd (stop_session sid self)
  end.

(** What a call hands back when it is a [start_session] that succeeds:
    the id, with the arguments it was given. *)
Definition started (c : call) (self : t) : option (string * (Z * Z)) :=
  match c with
  | StartSession uuid now d i =>
      match fst (start_session uuid now d i self) with
      | Return sid => Some (sid, (d, i))
      | Raise _ => None
      end
  | _ => None
  end.

(** Runs a history; yields the light and the successful starts, oldest
    first. *)
Fixpoint run (cs : list call) (self : t)
    : t * list (string * (Z * Z)) :=
  match cs with
  | [] => (self, [])
  | c :: cs' =>
      let '(self', log) := run cs' (exec c self) in
      (self', match started c self with
              | Some e => e :: log
              | None => log
              end)
  end.

(** The ids [uuid4] produced along a history. *)
Fixpoint uuids (cs : list call) : list string :=
  match cs with
  | [] => []
  | StartSession uuid _ _ _ :: cs' => uuid :: uuids cs'
  | _ :: cs' => uuids cs'
  end.

End PhototherapyLight.

(** ** sterilizer.py *)

Module Sterilizer.

(** [cycle_params]: a dict with at most the keys ['temp'] and
    ['duration']. *)
Record CycleParams : Type := mkParams {
  temp : option Q;
  duration : option Z
}.

Definition no_params : CycleParams := {| temp := None; duration := None |}.

Definition params_empty (p : CycleParams) : bool :=
  match temp p, duration p with
  | None, None => true
  | _, _ => false
  end.

Record Cycle : Type := mkCycle {
  cycle_type : string;
  temperature : Q;
  cycle_duration : Z;
  start_time : Z;
  cycle_status : string
}.

Record t : Type := mk {
  device_id : string;
  connection_type : ConnectionType;
  status : DeviceStatus;
  location : string;
  active_cycles : gmap string Cycle;
  (* self._cycle_types *)
  cycle_types : gmap string CycleParams
}.

Definition preset_table : gmap string CycleParams :=
  <["standard" := {| temp := Some 134%Q; duration := Some 20 |}]>
  (<["quick" := {| temp := Some 134%Q; duration := Some 10 |}]>
  (<["delicate" := {| temp := Some 121%Q; duration := Some 30 |}]> ∅)).

Definition init (device_id location : string)
    (connection_type : ConnectionType) : t :=
  {| device_id := device_id; connection_type := connection_type;
     status := DISCONNECTED; location := location;
     active_cycles := ∅; cycle_types := preset_table |}.

Definition set_status (s : DeviceStatus) (self : t) : t :=
  {| device_id := device_id self; connection_type := connection_type self;
     status := s; location := location self;
     active_cycles := active_cycles self;
     cycle_types := cycle_types self |}.

Definition set_cycles (m : gmap string Cycle) (self : t) : t :=
  {| device_id := device_id self; connection_type := connection_type self;
     status := status self; location := location self;
     active_cycles := m; cycle_types := cycle_types self |}.

Definition connect (self : t) : result bool * t :=
  (Return true, set_status CONNECTED self).

Definition NotConnected : exn := RuntimeError (Msg "Device not connected").
Definition InvalidCycle : exn :=
  ValueError (Msg "Invalid cycle type and no parameters provided").
Definition NotFound : exn := ValueError (Msg "Invalid cycle ID").

(** The parameters [start_cycle] resolves: the preset of [cycle_type] (or
    the empty dict), with each explicit argument written over it. *)
Definition resolve (self : t) (temperature : option Q)
    (duration : option Z) (cycle_type : string) : CycleParams :=
  let cycle_params := default no_params (cycle_types self !! cycle_type) in
  let cycle_params :=
    match temperature with
    | Some x => {| temp := Some x; duration := Sterilizer.duration cycle_params |}
    | None => cycle_params
    end in
  match duration with
  | Some d => {| temp := temp cycle_params; duration := Some d |}
  | None => cycle_params
  end.

(** [start_cycle]; [uuid] is [str(uuid.uuid4())] and [now] is
    [datetime.now(UTC)].  The two subscripts of the record literal raise
    [KeyError] on a key the resolved dict lacks. *)
Definition start_cycle (uuid : string) (now : Z)
    (temperature : option Q) (duration : option Z) (cycle_type : string)
    (self : t) : result string * t :=
  if negb (status_eqb (status self) CONNECTED)
  then (Raise NotConnected, self)
  else
    let cycle_params := resolve self temperature duration cycle_type in
    if params_empty cycle_params then (Raise InvalidCycle, self)
    else
      match temp cycle_params with
      | None => (Raise (KeyError "temp"), self)
      | Some tv =>
          match Sterilizer.duration cycle_params with
          | None => (Raise (KeyError "duration"), self)
          | Some dv =>
              (Return uuid,
               set_cycles
                 (<[uuid := {| cycle_type := cycle_type;
                               temperature := tv;
                               cycle_duration := dv;
                               start_time := now;
                               cycle_status := "running" |}]>
                    (active_cycles self))
                 self)
          end
      end.

Definition get_cycle_status (cycle_id : string) (self : t)
    : result string * t :=
  match active_cycles self !! cycle_id with
  | None => (Raise NotFound, self)
  | Some c => (Return (cycle_status c), self)
  end.

(** [BaseDevice.initialize], inherited. *)
Definition initialize (self : t) : result bool * t :=
  (Return true, set_status IDLE self).

Definition abort_cycle (cycle_id : string) (self : t) : result unit * t :=
  match active_cycles self !! cycle_id with
  | None => (Raise NotFound, self)
  | Some c =>
      (Return tt,
       set_cycles
         (<[cycle_id := {| cycle_type := cycle_type c;
                           temperature := temperature c;
                           cycle_duration := cycle_duration c;
                           start_time := start_time c;
                           cycle_status := "aborted" |}]>
            (active_cycles self))
         self)
  end.

(** The calls a client can make on a sterilizer. *)
Inductive call : Type :=
| Initialize
| Connect
| StartCycle (uuid : string) (now : Z) (temperature : option Q)
    (duration : option Z) (cycle_type : string)
| GetCycleStatus (cycle_id : string)
| AbortCycle (cycle_id : string).

(** The sterilizer as a call leaves it, whether the call returns or raises. *)
Definition exec (c : call) (self : t) : t :=
  match c with
  | Initialize => snd (initialize self)
  | Connect => snd (connect self)
  | StartCycle uuid now temperature duration cycle_type =>
      snd (start_cycle uuid now temperature duration cycle_type self)
  | GetCycleStatus cycle_id => snd (get_cycle_status cycle_id self)
  | AbortCycle cycle_id => snd (abort_cycle cycle_id self)
  end.

Definition run (cs : list call) (self : t) : t :=
  foldl (fun d c => exec c d) self cs.

(** The ids [uuid4] produced along a history. *)
Fixpoint uuids (cs : list call) : list string :=
  match cs with
  | [] => []
  | StartCycle uuid _ _ _ _ :: cs' => uuid :: uuids cs'
  | _ :: cs' => uuids cs'
  end.

End Sterilizer.

(** ** surgical_light.py *)

Module SurgicalLight.

Record t : Type := mk {
  device_id : string;
  connection_type : ConnectionType;
  status : DeviceStatus;
  light_intensity : Q;
  focus_position : Q;
  camera_active : bool;
  (* self._supported_parameters *)
  supported_parameters : gmap string (value * value)
}.

Definition supported_as_built : gmap string (value * value) :=
  <["light_intensity" := (VInt 0, VInt 100)]>
  (<["focus_position" := (VInt 0, VInt 100)]>
  (<["camera_active" := (VBool false, VBool true)]> ∅)).

Definition init (device_id : string) (connection_type : ConnectionType) : t :=
  {| device_id := device_id; connection_type := connection_type;
     status := DISCONNECTED;
     light_intensity := 0; focus_position := 0; camera_active := false;
     supported_parameters := supported_as_built |}.

Definition set_status (s : DeviceStatus) (self : t) : t :=
  {| device_id := device_id self; connection_type := connection_type self;
     status := s;
     light_intensity := light_intensity self;
     focus_position := focus_position self;
     camera_active := camera_active self;
     supported_parameters := supported_parameters self |}.

Definition set_light_intensity (q : Q) (self : t) : t :=
  {| device_id := device_id self; connection_type := connection_type self;
     status := status self;
     light_intensity := q;
     focus_position := focus_position self;
     camera_active := camera_active self;
     supported_parameters := supported_parameters self |}.

Definition set_focus_position (q : Q) (self : t) : t :=
  {| device_id := device_id self; connection_type := connection_type self;
     status := status self;
     light_intensity := light_intensity self;
     focus_position := q;
     camera_active := camera_active self;
     supported_parameters := supported_parameters self |}.

Definition set_camera_active (b : bool) (self : t) : t :=
  {| device_id := device_id self; connection_type := connection_type self;
     status := status self;
     light_intensity := light_intensity self;
     focus_position := focus_position self;
     camera_active := b;
     supported_parameters := supported_parameters self |}.

(** The simulated transport: [asyncio.sleep] returns, so the [try] body of
    [connect] and of [disconnect] runs to its end. *)
Definition connect (self : t) : result bool * t :=
  (Return true, set_status CONNECTED self).

Definition disconnect (self : t) : result bool * t :=
  (Return true, set_status DISCONNECTED self).

Definition get_status (self : t) : result DeviceStatus * t :=
  (Return (status self), self).

(** The dict [get_parameters] builds.  The two percentages are reported as
    numbers by their value: the [0] of the constructor, an [int], reads as
    the float it equals. *)
Definition get_parameters (self : t) : result (gmap string value) * t :=
  (Return (<["light_intensity" := VFloat (light_intensity self)]>
          (<["focus_position" := VFloat (focus_position self)]>
          (<["camera_active" := VBool (camera_active self)]> ∅))),
   self).

Section SetParameter.

(** [float(s)] on a string is Python's own parser: [None] where it raises
    [ValueError].  A string it reads as [nan] or an infinity fails both
    range checks below exactly as a rejected one does, and is sent to
    [None] as well. *)
Variable float_of_string : string -> option Q.

(** [float(value)].  An [int] that converts is taken at its exact value:
    the conversion rounds only above [2 ^ 53], far from the bounds the result
    is compared with. *)
Definition to_float (v : value) : result Q :=
  match v with
  | VNone => Raise TypeError
  | VBool b => Return (if b then 1 else 0)%Q
  | VInt z =>
      if float_int_limit <=? Z.abs z then Raise OverflowError
      else Return (inject_Z z)
  | VFloat q => Return q
  | VStr s =>
      match float_of_string s with
      | Some q => Return q
      | None => Raise (ValueError (Msg "could not convert string to float"))
      end
  | VList _ => Raise TypeError
  end.

(** [except (ValueError, TypeError): return False]; anything else
    leaves the method. *)
Definition handled (e : exn) : bool :=
  match e with
  | ValueError _ | TypeError => true
  | _ => false
  end.

Definition in_percent_range (f : Q) : bool := Qleb 0 f && Qleb f 100.

Definition set_parameter (parameter : string) (v : value) (self : t)
    : result bool * t :=
  match supported_parameters self !! parameter with
  | None => (Return false, self)
  | Some (min_val, max_val) =>
      if String.eqb parameter "light_intensity" then
        match to_float v with
        | Return f =>
            if in_percent_range f
            then (Return true, set_light_intensity f self)
            else (Return false, self)
        | Raise e =>
            if handled e then (Return false, self) else (Raise e, self)
        end
      else if String.eqb parameter "focus_position" then
        match to_float v with
        | Return f =>
            if in_percent_range f
            then (Return true, set_focus_position f self)
            else (Return false, self)
        | Raise e =>
            if handled e then (Return false, self) else (Raise e, self)
        end
      else if String.eqb parameter "camera_active" then
        (Return true, set_camera_active (truthy v) self)
      else (Return false, self)
  end.

End SetParameter.

(** Whether a value has the type the parameter table declares for the
    name: a number for the two percentages, a boolean for the camera. *)
Definition type_matches (parameter : string) (v : value) : bool :=
  if String.eqb parameter "camera_active"
  then match v with VBool _ => true | _ => false end
  else match v with VInt _ | VFloat _ => true | _ => false end.

Definition as_built (self : t) : Prop :=
  supported_parameters self = supported_as_built.

(** The calls a client can make on a surgical light. *)
Inductive call : Type :=
| Connect
| Disconnect
| GetStatus
| GetParameters
| SetParameter (parameter : string) (v : value).

(** The light as a call leaves it, whether the call returns or raises. *)
Definition exec (float_of_string : string -> option Q) (c : call) (self : t)
    : t :=
  match c with
  | Connect => snd (connect self)
  | Disconnect => snd (disconnect self)
  | GetStatus => snd (get_status self)
  | GetParameters => snd (get_parameters self)
  | SetParameter parameter v => snd (set_parameter float_of_string parameter v self)
  end.

Definition run (float_of_string : string -> option Q) (cs : list call)
    (self : t) : t :=
  foldl (fun d c => exec float_of_string c d) self cs.

(** The state every light built by [__init__] stays in. *)
Definition within_percent (self : t) : Prop :=
  as_built self
  /\ (0 <= light_intensity self)%Q /\ (light_intensity self <= 100)%Q
  /\ (0 <= focus_position self)%Q /\ (focus_position self <= 100)%Q.

End SurgicalLight.

(** ** device_service.py *)

Module DeviceService.

(** A live device instance: one of the four classes. *)
Inductive device : Type :=
| DevHeatingBed (d : HeatingBed.t)
| DevPhototherapyLight (d : PhototherapyLight.t)
| DevSterilizer (d : Sterilizer.t)
| DevSurgicalLight (d : SurgicalLight.t).

(** The classes, as the values a factory registry holds. *)
Inductive device_class : Type :=
| ClsHeatingBed | ClsPhototherapyLight | ClsSterilizer | ClsSurgicalLight.

(** A device id as a caller passes it: the annotation says [int], the store
    keys are [str]. *)
Inductive ident : Type :=
| IdInt (z : Z)
| IdStr (s : string).

(** [str(device_id)]. *)
Definition str (device_id : ident) : string :=
  match device_id with
  | IdInt z => pretty z
  | IdStr s => s
  end.

(** [device_id in self._active_devices]: the keys are strings, and an [int]
    equals no string. *)
Definition id_in {V} (device_id : ident) (store : gmap string V) : bool :=
  match device_id with
  | IdInt _ => false
  | IdStr s => bool_decide (is_Some (store !! s))
  end.

(** Method dispatch.  [connect] is overridden by every class; [disconnect],
    [get_status] and [get_parameters] only by [SurgicalLight], the other
    classes inherit the [BaseDevice] bodies, which raise. *)
Definition connect (d : device) : result bool * device :=
  match d with
  | DevHeatingBed x =>
      let '(r, x') := HeatingBed.connect x in (r, DevHeatingBed x')
  | DevPhototherapyLight x =>
      let '(r, x') := PhototherapyLight.connect x in (r, DevPhototherapyLight x')
  | DevSterilizer x =>
      let '(r, x') := Sterilizer.connect x in (r, DevSterilizer x')
  | DevSurgicalLight x =>
      let '(r, x') := SurgicalLight.connect x in (r, DevSurgicalLight x')
  end.

Definition get_status (d : device) : result DeviceStatus :=
  match d with
  | DevSurgicalLight x => fst (SurgicalLight.get_status x)
  | _ => Raise NotImplementedError
  end.

Definition get_parameters (d : device) : result (gmap string value) :=
  match d with
  | DevSurgicalLight x => fst (SurgicalLight.get_parameters x)
  | _ => Raise NotImplementedError
  end.

(** [device.last_update]: no class and no constructor sets the attribute. *)
Definition last_update (d : device) : result Z :=
  Raise (AttributeError "last_update").

(** [device_instance.start_monitoring()]: no class defines the method. *)
Definition start_monitoring (d : device) : result unit :=
  Raise (AttributeError "start_monitoring").

(** *** DeviceFactory *)

(** What [self] is bound to in a call of [create_device]: a factory with its
    registry, or, when the function is called through the class, whatever
    the first argument is. *)
Inductive receiver : Type :=
| RcvFactory (device_types : gmap string device_class)
| RcvStr (s : string)
| RcvNone.

(** A positional argument of a constructor call. *)
Inductive arg : Type :=
| ArgStr (s : string)
| ArgConnection (c : ConnectionType).

(** The constructor call [cls] applied to [args].  A call with too few or too many arguments raises
    [TypeError]; so does, in this typed embedding, one whose arguments are
    not of the annotated types. *)
Definition construct (now : Z) (cls : device_class) (args : list arg)
    : result device :=
  match cls, args with
  | ClsSurgicalLight, [ArgStr i; ArgConnection c] =>
      Return (DevSurgicalLight (SurgicalLight.init i c))
  | ClsHeatingBed, [ArgStr i; ArgStr l] =>
      Return (DevHeatingBed (HeatingBed.init i l TCP now))
  | ClsHeatingBed, [ArgStr i; ArgStr l; ArgConnection c] =>
      Return (DevHeatingBed (HeatingBed.init i l c now))
  | ClsPhototherapyLight, [ArgStr i; ArgStr l] =>
      Return (DevPhototherapyLight (PhototherapyLight.init i l TCP))
  | ClsPhototherapyLight, [ArgStr i; ArgStr l; ArgConnection c] =>
      Return (DevPhototherapyLight (PhototherapyLight.init i l c))
  | ClsSterilizer, [ArgStr i; ArgStr l] =>
      Return (DevSterilizer (Sterilizer.init i l TCP))
  | ClsSterilizer, [ArgStr i; ArgStr l; ArgConnection c] =>
      Return (DevSterilizer (Sterilizer.init i l c))
  | _, _ => Raise TypeError
  end.

(** [DeviceFactory.create_device], with its positional arguments: reads
    [self._device_types], which a string (or [None]) does not have. *)
Definition create_device (now : Z) (self : receiver) (device_type : string)
    (args : list arg) : result device :=
  match self with
  | RcvFactory device_types =>
      match device_types !! device_type with
      | None => Raise (ValueError (MsgUnknownDeviceType device_type))
      | Some cls => construct now cls args
      end
  | RcvStr _ | RcvNone => Raise (AttributeError "_device_types")
  end.

(** *** The service *)

(** A row of the device directory, as far as the service reads it. *)
Record DeviceRecord : Type := mkRecord {
  name : string;
  model : option string
}.

(** What the service does to its collaborators. *)
Inductive effect : Type :=
| Constructed (d : device)
| DbUpdate (device_id : ident) (status : Z).

Record t : Type := mk {
  active_devices : gmap string device;
  effects : list effect
}.

Definition set_devices (m : gmap string device) (self : t) : t :=
  {| active_devices := m; effects := effects self |}.

Definition log (e : effect) (self : t) : t :=
  {| active_devices := active_devices self; effects := effects self ++ [e] |}.

Definition receiver_of (model : option string) : receiver :=
  match model with
  | Some s => RcvStr s
  | None => RcvNone
  end.

Section Service.

(** Modelled from the spec: [self.db.get_by_id(Device, device_id)], which
    [DatabaseManager] does not define.  The device directory maps a device
    id to its declared record, or to nothing; the core only reads it. *)
Variable get_by_id : ident -> option DeviceRecord.

(** [connect_device].  [now] is the clock a constructor may read.
    [self.db.update] (also absent from [DatabaseManager]) is recorded as the
    [DbUpdate] effect.  Every exception of the [try] body ends in
    [return False], with the service as the body left it. *)
Definition connect_device (now : Z) (device_id : ident)
    (connection_type : ConnectionType) (self : t) : result bool * t :=
  match get_by_id device_id with
  | None => (Return false, self)
  | Some device_record =>
      if negb (id_in device_id (active_devices self)) then
        match create_device now (receiver_of (model device_record))
                (str device_id) [ArgConnection connection_type] with
        | Raise _ => (Return false, self)
        | Return device_instance =>
            let self := log (Constructed device_instance) self in
            match connect device_instance with
            | (Raise _, _) => (Return false, self)
            | (Return connected, device_instance) =>
                if connected then
                  let self :=
                    set_devices (<[str device_id := device_instance]>
                                   (active_devices self)) self in
                  let self :=
                    log (DbUpdate device_id (status_value CONNECTED)) self in
                  match start_monitoring device_instance with
                  | Raise _ => (Return false, self)
                  | Return _ => (Return true, self)
                  end
                else (Return false, self)
            end
        end
      else (Return false, self)
  end.

End Service.

(** The dict [get_device_status] returns. *)
Record StatusReport : Type := mkReport {
  report_status : Z;
  report_parameters : gmap string value;
  report_last_update : Z
}.

(** [get_device_status]: the three reads happen in this order, and the first
    that raises ends the call. *)
Definition get_device_status (device_id : ident) (self : t)
    : result (option StatusReport) :=
  match active_devices self !! str device_id with
  | Some device =>
      match get_status device with
      | Raise e => Raise e
      | Return status =>
          match get_parameters device with
          | Raise e => Raise e
          | Return parameters =>
              match last_update device with
              | Raise e => Raise e
              | Return u =>
                  Return (Some {| report_status := status_value status;
                                  report_parameters := parameters;
                                  report_last_update := u |})
              end
          end
      end
  | None => Return None
  end.

(** *** The rest of the factory and of the service *)

(** [DeviceFactory()] and [register]. *)
Definition new_factory : receiver := RcvFactory ∅.

Definition register (device_type : string) (cls : device_class)
    (self : receiver) : result unit * receiver :=
  match self with
  | RcvFactory device_types =>
      (Return tt, RcvFactory (<[device_type := cls]> device_types))
  | RcvStr _ | RcvNone => (Raise (AttributeError "_device_types"), self)
  end.

(** The module-level [device_factory], once [surgical_light.py] is imported:
    the only [register] call of the repository. *)
Definition device_factory : receiver :=
  snd (register "SurgicalLight" ClsSurgicalLight new_factory).

(** [device.stop_monitoring()]: no class defines the method. *)
Definition stop_monitoring (d : device) : result unit :=
  Raise (AttributeError "stop_monitoring").

(** [disconnect] and [set_parameter] are overridden by [SurgicalLight] only. *)
Definition disconnect (d : device) : result bool * device :=
  match d with
  | DevSurgicalLight x =>
      let '(r, x') := SurgicalLight.disconnect x in (r, DevSurgicalLight x')
  | _ => (Raise NotImplementedError, d)
  end.

Definition set_parameter (float_of_string : string -> option Q)
    (parameter : string) (v : value) (d : device) : result bool * device :=
  match d with
  | DevSurgicalLight x =>
      let '(r, x') := SurgicalLight.set_parameter float_of_string parameter v x in
      (r, DevSurgicalLight x')
  | _ => (Raise NotImplementedError, d)
  end.

Section Disconnect.

(** Modelled from the spec: [self.db.get_by_id], as in [connect_device]. *)
Variable get_by_id : ident -> option DeviceRecord.

(** [disconnect_device].  The store holds the instance itself, so what a
    method does to the device is seen in the store. *)
Definition disconnect_device (device_id : ident) (self : t) : result bool * t :=
  let device_str_id := str device_id in
  match active_devices self !! device_str_id with
  | Some device =>
      match stop_monitoring device with
      | Raise e => (Raise e, self)
      | Return _ =>
          match disconnect device with
          | (Raise e, device) =>
              (Raise e,
               set_devices (<[device_str_id := device]> (active_devices self)) self)
          | (Return disconnected, device) =>
              let self :=
                set_devices (<[device_str_id := device]> (active_devices self))
                            self in
              if disconnected then
                let self :=
                  set_devices (delete device_str_id (active_devices self)) self in
                let self :=
                  match get_by_id device_id with
                  | Some _ =>
                      log (DbUpdate device_id (status_value DISCONNECTED)) self
                  | None => self
                  end in
                (Return true, self)
              else (Return false, self)
          end
      end
  | None => (Return false, self)
  end.

End Disconnect.

(** [set_device_parameter]. *)
Definition set_device_parameter (float_of_string : string -> option Q)
    (device_id : ident) (parameter : string) (v : value) (self : t)
    : result bool * t :=
  let device_str_id := str device_id in
  match active_devices self !! device_str_id with
  | Some device =>
      let '(r, device) := set_parameter float_of_string parameter v device in
      (r, set_devices (<[device_str_id := device]> (active_devices self)) self)
  | None => (Return false, self)
  end.

(** What [status.get(key)] gives on the dict [get_device_status] returns:
    the dict has the three keys of the literal and no other. *)
Inductive report_field : Type :=
| FieldStatus (z : Z)
| FieldParameters (m : gmap string value)
| FieldLastUpdate (u : Z).

Definition report_get (r : StatusReport) (key : string) : option report_field :=
  if String.eqb key "status" then Some (FieldStatus (report_status r))
  else if String.eqb key "parameters"
  then Some (FieldParameters (report_parameters r))
  else if String.eqb key "last_update"
  then Some (FieldLastUpdate (report_last_update r))
  else None.

(** [isinstance(x, cls)] for a device class [cls], on what [.get] returns:
    [None], a number or a dict is an instance of no device class. *)
Definition isinstance_device (x : option report_field) : bool :=
  match x with
  | None => false
  | Some (FieldStatus _) | Some (FieldParameters _) | Some (FieldLastUpdate _) =>
      false
  end.

(** *** The due lists *)

(** A row of the device table with what the due lists read, and a row of
    the spare-part table. *)
Record DeviceRow : Type := mkRow {
  row_id : Z;
  row_name : string;
  next_maintenance_due : option Z;
  warranty_expiry : option Z
}.

Record SparePart : Type := mkPart {
  part_id : Z;
  part_name : string;
  quantity : Z;
  minimum_quantity : Z
}.

(** [timedelta(days=1)], in microseconds. *)
Definition day : Z := 86400 * 1000000.

(** The range of [datetime] ([datetime.min] and [datetime.max]), in
    microseconds from the Unix epoch, and the largest number of days a
    [timedelta] takes. *)
Definition datetime_min : Z := -62135596800000000.
Definition datetime_max : Z := 253402300799999999.
Definition timedelta_max_days : Z := 999999999.

(** [datetime.utcnow() + timedelta(days=days_threshold)], the first line of
    the two due lists: [timedelta] raises [OverflowError] beyond 999999999
    days either way, and the sum raises it outside the range of
    [datetime]. *)
Definition threshold_date (now days_threshold : Z) : result Z :=
  if timedelta_max_days <? Z.abs days_threshold then Raise OverflowError
  else if (now + days_threshold * day <? datetime_min)
          || (datetime_max <? now + days_threshold * day)
  then Raise OverflowError
  else Return (now + days_threshold * day).

(** [get_devices_due_maintenance], [get_warranty_expiring_devices] and
    [get_low_stock_parts]: the list each returns, for the first two when
    [threshold_date] returns (otherwise the call raises what it raises).
    Modelled from the spec: [self.db.get_all], which [DatabaseManager] does
    not define, is the table read as a list of rows; [now] is
    [datetime.utcnow()]. *)
Definition get_devices_due_maintenance (devices : list DeviceRow) (now : Z)
    (days_threshold : Z) : list DeviceRow :=
  let threshold_date := now + days_threshold * day in
  filter (fun device =>
            match next_maintenance_due device with
            | Some due => due <=? threshold_date
            | None => false
            end = true) devices.

Definition get_warranty_expiring_devices (devices : list DeviceRow) (now : Z)
    (days_threshold : Z) : list DeviceRow :=
  let threshold_date := now + days_threshold * day in
  filter (fun device =>
            match warranty_expiry device with
            | Some expiry => expiry <=? threshold_date
            | None => false
            end = true) devices.

Definition get_low_stock_parts (parts : list SparePart) : list SparePart :=
  filter (fun part => (quantity part <=? minimum_quantity part) = true) parts.

End DeviceService.

(** ** The monitor loops: what a poll reads and what it emits *)

Module Monitoring.

(** A value of an [alert_details] dict. *)
Inductive detail : Type :=
| DNum (q : Q)
| DInt (z : Z)
| DStr (s : string)
| DNone.

(** One call of the alert sink: the device, the alert kind and the details
    dict, its keys in the order the literal lists them. *)
Record alert : Type := mkAlert {
  alert_device_id : Z;
  alert_kind : string;
  alert_details : list (string * detail)
}.

(** Modelled from the spec: [DeviceService.record_device_alert], which the
    managers call and [DeviceService] does not define.  The alert sink is
    write-only and fire-and-forget; the monitor treats the call as always
    succeeding.  The call is rendered as the alert record it hands over. *)
Definition record_device_alert (device_id : Z) (kind : string)
    (details : list (string * detail)) : list alert :=
  [mkAlert device_id kind details].

(** What [await self.device_service.get_device_status(device_id)] gives a
    poll: an exception, nothing ([None], or a dict that is empty), or a
    status dict, with or without the key ['parameters']. *)
Inductive fetched (P : Type) : Type :=
| FetchRaised (e : exn)
| FetchNothing
| FetchStatus (parameters : option P).
Arguments FetchRaised {P} e.
Arguments FetchNothing {P}.
Arguments FetchStatus {P} parameters.

(** Durations in microseconds. *)
Definition second : Z := 1000000.
Definition minute : Z := 60 * second.
Definition five_minutes : Z := 5 * minute.

(** The truth value of [x] in [if x and ...] for an optional number: [None]
    and zero are false. *)
Definition truthy_num (x : option Q) : bool :=
  match x with
  | Some q => negb (Qeq_bool q 0)
  | None => false
  end.

(** [alert_details[key]], by the first entry under the key. *)
Fixpoint lookup_detail (key : string) (details : list (string * detail))
    : option detail :=
  match details with
  | [] => None
  | (k, v) :: rest => if String.eqb k key then Some v else lookup_detail key rest
  end.

Definition alert_detail (key : string) (a : alert) : option detail :=
  lookup_detail key (alert_details a).

End Monitoring.

Export Monitoring.

(** ** heating_bed_manager.py *)

Module HeatingBedManager.

(** A value of [_temperature_alerts]. *)
Record AlertEntry : Type := mkEntry {
  first_detected : Z;
  alert_sent : bool
}.

Record t : Type := mk {
  device_service : DeviceService.t;
  (* the keys of self._monitoring_tasks: one task handle per key *)
  monitoring_tasks : gset string;
  temperature_alerts : gmap string AlertEntry
}.

Definition init : t :=
  {| device_service := DeviceService.mk ∅ [];
     monitoring_tasks := ∅; temperature_alerts := ∅ |}.

(** The ['parameters'] dict as the loop reads it: the two [params.get]. *)
Record Params : Type := mkParams {
  current_temperature : option Q;
  target_temperature : option Q
}.

(** What one iteration of the loop reads from outside: the fetched status,
    the directory row [get_device_by_id] returns, and the three readings of
    [datetime.utcnow()] (when the entry is created, when the elapsed time is
    compared, when the alert is stamped). *)
Record observation : Type := mkObs {
  fetch : fetched Params;
  row : option DeviceService.DeviceRecord;
  t_detect : Z;
  t_check : Z;
  t_stamp : Z
}.

Definition key (device_id : Z) : string := pretty device_id.

(** [_start_temperature_monitoring]. *)
Definition start_temperature_monitoring (device_id : Z) (self : t) : t :=
  if bool_decide (key device_id ∈ monitoring_tasks self) then self
  else {| device_service := device_service self;
          monitoring_tasks := {[key device_id]} ∪ monitoring_tasks self;
          temperature_alerts := temperature_alerts self |}.

(** [connect_bed]. *)
Definition connect_bed
    (get_by_id : DeviceService.ident -> option DeviceService.DeviceRecord)
    (now : Z) (device_id : Z) (self : t) : result bool * t :=
  match DeviceService.connect_device get_by_id now
          (DeviceService.IdInt device_id) SERIAL (device_service self) with
  | (Raise e, svc) =>
      (Raise e, {| device_service := svc;
                   monitoring_tasks := monitoring_tasks self;
                   temperature_alerts := temperature_alerts self |})
  | (Return connected, svc) =>
      let self := {| device_service := svc;
                     monitoring_tasks := monitoring_tasks self;
                     temperature_alerts := temperature_alerts self |} in
      (Return connected,
       if connected then start_temperature_monitoring device_id self else self)
  end.

(** [_handle_temperature_alert]: nothing is recorded when the directory has
    no row for the device. *)
Definition handle_temperature_alert (device_id : Z) (current_temp target_temp : Q)
    (row : option DeviceService.DeviceRecord) (stamp : Z) : list alert :=
  match row with
  | Some device =>
      record_device_alert device_id "temperature_deviation"
        [("device_id", DInt device_id);
         ("device_name", DStr (DeviceService.name device));
         ("current_temperature", DNum current_temp);
         ("target_temperature", DNum target_temp);
         ("deviation", DNum (Qabs (current_temp - target_temp)));
         ("timestamp", DInt stamp);
         ("severity",
          DStr (if Qltb 2 (Qabs (current_temp - target_temp))
                then "high" else "medium"))]
  | None => []
  end.

(** One iteration of [_monitor_temperature], from the fetch to the sleep:
    the alert table it leaves, the alerts it hands to the sink, and the
    seconds it then sleeps. *)
Definition monitor_temperature_iter (device_id : Z) (obs : observation)
    (alerts : gmap string AlertEntry)
    : gmap string AlertEntry * list alert * Z :=
  match fetch obs with
  | FetchRaised _ => (alerts, [], 60)
  | FetchNothing | FetchStatus None => (alerts, [], 30)
  | FetchStatus (Some params) =>
      match current_temperature params, target_temperature params with
      | Some current_temp, Some target_temp =>
          if Qltb 1 (Qabs (current_temp - target_temp)) then
            let alerts :=
              match alerts !! key device_id with
              | None =>
                  <[key device_id := {| first_detected := t_detect obs;
                                        alert_sent := false |}]> alerts
              | Some _ => alerts
              end in
            match alerts !! key device_id with
            | Some alert =>
                if negb (alert_sent alert)
                   && (five_minutes <? t_check obs - first_detected alert)
                then
                  (<[key device_id := {| first_detected := first_detected alert;
                                         alert_sent := true |}]> alerts,
                   handle_temperature_alert device_id current_temp target_temp
                     (row obs) (t_stamp obs),
                   30)
                else (alerts, [], 30)
            | None => (alerts, [], 60)
            end
          else (delete (key device_id) alerts, [], 30)
      | _, _ => (alerts, [], 30)
      end
  end.

(** The loop over a finite prefix of what it observes: the table after the
    last iteration and, for each iteration in turn, the alerts it emitted. *)
Fixpoint monitor_temperature (device_id : Z) (os : list observation)
    (alerts : gmap string AlertEntry)
    : gmap string AlertEntry * list (list alert) :=
  match os with
  | [] => (alerts, [])
  | o :: os' =>
      let '(alerts1, emitted, _) := monitor_temperature_iter device_id o alerts in
      let '(alerts2, rest) := monitor_temperature device_id os' alerts1 in
      (alerts2, emitted :: rest)
  end.

(** [stop_monitoring]. *)
Definition stop_monitoring (device_id : Z) (self : t) : t :=
  if bool_decide (key device_id ∈ monitoring_tasks self) then
    {| device_service := device_service self;
       monitoring_tasks := monitoring_tasks self ∖ {[key device_id]};
       temperature_alerts := delete (key device_id) (temperature_alerts self) |}
  else self.

(** The poll observes the deviation: both temperatures are there and differ
    by more than one degree. *)
Definition deviating (o : observation) : Prop :=
  exists c t, fetch o = FetchStatus (Some (mkParams (Some c) (Some t)))
              /\ (1 < Qabs (c - t))%Q.

(** The poll observes the deviation gone. *)
Definition clear (o : observation) : Prop :=
  exists c t, fetch o = FetchStatus (Some (mkParams (Some c) (Some t)))
              /\ (Qabs (c - t) <= 1)%Q.

(** *** The manager with its tasks, as a transition system *)

(** What can happen to a manager: a monitor task is started for a bed, the
    task of a bed runs one iteration, monitoring of a bed is stopped. *)
Inductive event : Type :=
| Start (device_id : Z)
| Poll (device_id : Z) (obs : observation)
| Stop (device_id : Z).

(** Only a task that exists runs: a poll for a bed without a task is no
    step. *)
Definition step (ev : event) (self : t) : t :=
  match ev with
  | Start d => start_temperature_monitoring d self
  | Poll d obs =>
      if bool_decide (key d ∈ monitoring_tasks self) then
        {| device_service := device_service self;
           monitoring_tasks := monitoring_tasks self;
           temperature_alerts :=
             (monitor_temperature_iter d obs (temperature_alerts self)).1.1 |}
      else self
  | Stop d => stop_monitoring d self
  end.

Definition run (evs : list event) (self : t) : t :=
  foldl (fun m ev => step ev m) self evs.

(** Every entry of the table belongs to a bed that has a monitor task. *)
Definition tracked_only_monitored (m : t) : Prop :=
  forall k e, temperature_alerts m !! k = Some e ->
              k ∈ monitoring_tasks m /\ exists d, k = key d.

(** A poll that does not get to compare the two temperatures: the fetch
    raised or gave nothing, or a temperature is missing. *)
Definition blind (o : observation) : bool :=
  match fetch o with
  | FetchRaised _ | FetchNothing | FetchStatus None => true
  | FetchStatus (Some params) =>
      match current_temperature params, target_temperature params with
      | Some _, Some _ => false
      | _, _ => true
      end
  end.

Definition raised (o : observation) : bool :=
  match fetch o with
  | FetchRaised _ => true
  | _ => false
  end.

(** *** The rest of the manager *)

Definition with_service (svc : DeviceService.t) (self : t) : t :=
  {| device_service := svc;
     monitoring_tasks := monitoring_tasks self;
     temperature_alerts := temperature_alerts self |}.

(** [set_target_temperature]. *)
Definition set_target_temperature (float_of_string : string -> option Q)
    (device_id : Z) (temperature : Q) (self : t) : result bool * t :=
  let '(r, svc) :=
    DeviceService.set_device_parameter float_of_string
      (DeviceService.IdInt device_id) "target_temperature" (VFloat temperature)
      (device_service self) in
  (r, with_service svc self).

(** [reset_alarm], [check_safety_status] and [get_temperature_history]: each
    fetches the status dict and goes on only if its ['device'] entry is a
    [HeatingBed]; the method it would then call is defined by no class. *)
Definition reset_alarm (device_id : Z) (self : t) : result bool :=
  match DeviceService.get_device_status (DeviceService.IdInt device_id)
          (device_service self) with
  | Raise e => Raise e
  | Return None => Return false
  | Return (Some device) =>
      if DeviceService.isinstance_device (DeviceService.report_get device "device")
      then Raise (AttributeError "reset_alarm")
      else Return false
  end.

Definition check_safety_status (device_id : Z) (self : t)
    : result (gmap string value) :=
  match DeviceService.get_device_status (DeviceService.IdInt device_id)
          (device_service self) with
  | Raise e => Raise e
  | Return None => Return ∅
  | Return (Some device) =>
      if DeviceService.isinstance_device (DeviceService.report_get device "device")
      then Raise (AttributeError "check_safety_status")
      else Return ∅
  end.

Definition get_temperature_history (device_id : Z) (hours : Z) (self : t)
    : result (list value) :=
  match DeviceService.get_device_status (DeviceService.IdInt device_id)
          (device_service self) with
  | Raise e => Raise e
  | Return None => Return []
  | Return (Some device) =>
      if DeviceService.isinstance_device (DeviceService.report_get device "device")
      then Raise (AttributeError "get_temperature_history")
      else Return []
  end.

(** [disconnect_bed]: monitoring is stopped first, then the service is asked
    to disconnect. *)
Definition disconnect_bed
    (get_by_id : DeviceService.ident -> option DeviceService.DeviceRecord)
    (device_id : Z) (self : t) : result bool * t :=
  let self := stop_monitoring device_id self in
  let '(r, svc) :=
    DeviceService.disconnect_device get_by_id (DeviceService.IdInt device_id)
      (device_service self) in
  (r, with_service svc self).

(** The calls of the manager that can change it, and what each returns
    ([stop_monitoring] returns [None]). *)
Inductive api_call : Type :=
| ConnectBed (device_id : Z) (now : Z)
| DisconnectBed (device_id : Z)
| StopMonitoring (device_id : Z)
| SetTargetTemperature (device_id : Z) (temperature : Q).

Definition api_exec
    (get_by_id : DeviceService.ident -> option DeviceService.DeviceRecord)
    (float_of_string : string -> option Q) (c : api_call) (self : t)
    : result (option bool) * t :=
  match c with
  | ConnectBed d now =>
      match connect_bed get_by_id now d self with
      | (Return b, m) => (Return (Some b), m)
      | (Raise e, m) => (Raise e, m)
      end
  | DisconnectBed d =>
      match disconnect_bed get_by_id d self with
      | (Return b, m) => (Return (Some b), m)
      | (Raise e, m) => (Raise e, m)
      end
  | StopMonitoring d => (Return None, stop_monitoring d self)
  | SetTargetTemperature d temp =>
      match set_target_temperature float_of_string d temp self with
      | (Return b, m) => (Return (Some b), m)
      | (Raise e, m) => (Raise e, m)
      end
  end.

(** A history of such calls: the manager it leaves and what each call gave,
    oldest first. *)
Fixpoint api_run
    (get_by_id : DeviceService.ident -> option DeviceService.DeviceRecord)
    (float_of_string : string -> option Q) (cs : list api_call) (self : t)
    : t * list (result (option bool)) :=
  match cs with
  | [] => (self, [])
  | c :: cs' =>
      let '(r, self1) := api_exec get_by_id float_of_string c self in
      let '(self2, rs) := api_run get_by_id float_of_string cs' self1 in
      (self2, r :: rs)
  end.

(** What a call gives when it changes nothing and reports no success. *)
Definition refused (c : api_call) : result (option bool) :=
  match c with
  | StopMonitoring _ => Return None
  | _ => Return (Some false)
  end.

End HeatingBedManager.

(** ** phototherapy_manager.py *)

Module PhototherapyManager.

(** The ['session_info'] dict: a key that is absent is [None]. *)
Record SessionInfo : Type := mkInfo {
  (* the instant [datetime.fromisoformat] reads and [utcnow() -] can
     subtract; [None] when the loop raises on it: the key is absent, the
     text does not parse, or it carries a UTC offset ([TypeError] at the
     subtraction) *)
  start_time : option Z;
  (* [None] when the loop raises on it: the key is absent or [timedelta]
     refuses the value ([OverflowError]) *)
  planned_duration_minutes : option Z;
  light_intensity : option Q
}.

Definition no_info : SessionInfo :=
  {| start_time := None; planned_duration_minutes := None;
     light_intensity := None |}.

Record Params : Type := mkParams {
  session_active : bool;
  session_info : option SessionInfo;
  current_intensity : option Q
}.

Record observation : Type := mkObs {
  fetch : fetched Params;
  row : option DeviceService.DeviceRecord;
  t_now : Z;
  t_stamp : Z
}.

Definition session_alert_threshold : Z := 15 * minute.

(** [_handle_session_alert]. *)
Definition handle_session_alert (device_id : Z) (alert_type : string)
    (v : Q) (row : option DeviceService.DeviceRecord) (stamp : Z)
    : list alert :=
  match row with
  | Some device =>
      record_device_alert device_id alert_type
        ([("device_id", DInt device_id);
          ("device_name", DStr (DeviceService.name device));
          ("alert_type", DStr alert_type);
          ("value", DNum v);
          ("timestamp", DInt stamp)]
         ++ (if String.eqb alert_type "session_ending"
             then [("minutes_remaining", DNum v); ("severity", DStr "low")]
             else if String.eqb alert_type "intensity_deviation"
             then [("current_intensity", DNum v); ("severity", DStr "medium")]
             else []))
  | None => []
  end.

(** One iteration of [_monitor_session]: the alerts handed to the sink and
    the seconds slept.  A missing ['start_time'] or
    ['planned_duration_minutes'] raises inside the [try]. *)
Definition monitor_session_iter (device_id : Z) (obs : observation)
    : list alert * Z :=
  match fetch obs with
  | FetchRaised _ => ([], 60)
  | FetchNothing | FetchStatus None => ([], 30)
  | FetchStatus (Some params) =>
      if session_active params then
        let session_info := default no_info (session_info params) in
        match start_time session_info, planned_duration_minutes session_info with
        | Some start, Some mins =>
            let elapsed_time := t_now obs - start in
            let remaining_time := mins * minute - elapsed_time in
            let ending :=
              if remaining_time <=? session_alert_threshold
              then handle_session_alert device_id "session_ending"
                     (inject_Z remaining_time / inject_Z minute)%Q
                     (row obs) (t_stamp obs)
              else [] in
            let deviation :=
              match current_intensity params with
              | Some current =>
                  let target_intensity :=
                    default 100%Q (light_intensity session_info) in
                  if Qltb 5 (Qabs (current - target_intensity))
                  then handle_session_alert device_id "intensity_deviation"
                         current (row obs) (t_stamp obs)
                  else []
              | None => []
              end in
            (ending ++ deviation, 30)
        | _, _ => ([], 60)
        end
      else ([], 30)
  end.

Definition monitor_session (device_id : Z) (os : list observation)
    : list (list alert) :=
  map (fun o => (monitor_session_iter device_id o).1) os.

(** The poll observes a running session whose intensity is off target by
    more than five points. *)
Definition deviating (o : observation) : Prop :=
  exists info start mins current,
    fetch o = FetchStatus (Some (mkParams true (Some info) (Some current)))
    /\ start_time info = Some start
    /\ planned_duration_minutes info = Some mins
    /\ (5 < Qabs (current - default 100%Q (light_intensity info)))%Q.

End PhototherapyManager.

(** ** sterilizer_manager.py *)

Module SterilizerManager.

(** The ['cycle_info'] dict: a key that is absent is [None].  A reading is
    the rational its double denotes. *)
Record CycleInfo : Type := mkInfo {
  id : option string;
  current_temperature : option Q;
  target_temperature : option Q;
  current_pressure : option Q;
  target_pressure : option Q
}.

Definition no_info : CycleInfo :=
  {| id := None; current_temperature := None; target_temperature := None;
     current_pressure := None; target_pressure := None |}.

(** The ['parameters'] dict.  [cycle_info] is [None] when the key is absent
    (the loop then reads an empty dict); a key that holds [None], on which
    the loop raises, is not among the statuses modelled. *)
Record Params : Type := mkParams {
  cycle_active : bool;
  cycle_info : option CycleInfo
}.

Record observation : Type := mkObs {
  fetch : fetched Params;
  row : option DeviceService.DeviceRecord;
  t_stamp : Z
}.

(** [_handle_cycle_alert]; the literal [0.3] is [float_0_3]. *)
Definition handle_cycle_alert (device_id : Z)
    (temp_deviation pressure_deviation : Q) (info : CycleInfo)
    (row : option DeviceService.DeviceRecord) (stamp : Z) : list alert :=
  match row with
  | Some device =>
      record_device_alert device_id "cycle_deviation"
        [("device_id", DInt device_id);
         ("device_name", DStr (DeviceService.name device));
         ("cycle_id", match id info with Some i => DStr i | None => DNone end);
         ("temperature_deviation", DNum temp_deviation);
         ("pressure_deviation", DNum pressure_deviation);
         ("timestamp", DInt stamp);
         ("severity",
          DStr (if Qltb 3 temp_deviation || Qltb float_0_3 pressure_deviation
                then "high" else "medium"))]
  | None => []
  end.

(** One iteration of [_monitor_cycle].  The thresholds are what the literals
    denote: [2.0] is 2, [0.2] is [float_0_2].  The two differences are
    taken exactly, as the subtraction of two doubles within a factor of two
    of each other is. *)
Definition monitor_cycle_iter (device_id : Z) (obs : observation)
    : list alert * Z :=
  match fetch obs with
  | FetchRaised _ => ([], 30)
  | FetchNothing | FetchStatus None => ([], 10)
  | FetchStatus (Some params) =>
      if cycle_active params then
        let cycle_info := default no_info (cycle_info params) in
        let current_temp := current_temperature cycle_info in
        let target_temp := target_temperature cycle_info in
        let current_pressure := current_pressure cycle_info in
        let target_pressure := target_pressure cycle_info in
        if truthy_num current_temp && truthy_num target_temp
           && truthy_num current_pressure && truthy_num target_pressure
        then
          match current_temp, target_temp, current_pressure, target_pressure with
          | Some tc, Some tg, Some pc, Some pg =>
              let temp_deviation := Qabs (tc - tg) in
              let pressure_deviation := Qabs (pc - pg) in
              if Qltb 2 temp_deviation || Qltb float_0_2 pressure_deviation
              then (handle_cycle_alert device_id temp_deviation
                      pressure_deviation cycle_info (row obs) (t_stamp obs),
                    10)
              else ([], 10)
          | _, _, _, _ => ([], 10)
          end
        else ([], 10)
      else ([], 10)
  end.

Definition monitor_cycle (device_id : Z) (os : list observation)
    : list (list alert) :=
  map (fun o => (monitor_cycle_iter device_id o).1) os.

(** The readings of a poll, when it fetched a status with parameters. *)
Definition readings (o : observation) : CycleInfo :=
  match fetch o with
  | FetchStatus (Some params) => default no_info (cycle_info params)
  | _ => no_info
  end.

(** The poll observes an active cycle with the four readings present and
    non-zero and one of them off target beyond its threshold. *)
Definition deviating (o : observation) : Prop :=
  exists info tc tg pc pg,
    fetch o = FetchStatus (Some (mkParams true (Some info)))
    /\ current_temperature info = Some tc /\ target_temperature info = Some tg
    /\ current_pressure info = Some pc /\ target_pressure info = Some pg
    /\ ~ (tc == 0)%Q /\ ~ (tg == 0)%Q /\ ~ (pc == 0)%Q /\ ~ (pg == 0)%Q
    /\ ((2 < Qabs (tc - tg))%Q \/ (float_0_2 < Qabs (pc - pg))%Q).

(** *** Parameter writes of the manager *)

(** [set_cycle_parameters]: [success] starts true and is and-ed with what
    each write that is asked for returns. *)
Definition set_cycle_parameters (float_of_string : string -> option Q)
    (device_id : Z) (temperature pressure : option Q) (svc : DeviceService.t)
    : result bool * DeviceService.t :=
  let success := true in
  let first :=
    match temperature with
    | Some x =>
        match DeviceService.set_device_parameter float_of_string
                (DeviceService.IdInt device_id) "target_temperature" (VFloat x)
                svc with
        | (Return r, svc) => (Return (success && r), svc)
        | (Raise e, svc) => (Raise e, svc)
        end
    | None => (Return success, svc)
    end in
  match first with
  | (Raise e, svc) => (Raise e, svc)
  | (Return success, svc) =>
      match pressure with
      | Some p =>
          match DeviceService.set_device_parameter float_of_string
                  (DeviceService.IdInt device_id) "target_pressure" (VFloat p)
                  svc with
          | (Return r, svc) => (Return (success && r), svc)
          | (Raise e, svc) => (Raise e, svc)
          end
      | None => (Return success, svc)
      end
  end.

(** [lock_door]. *)
Definition lock_door (float_of_string : string -> option Q)
    (device_id : Z) (lock : bool) (svc : DeviceService.t)
    : result bool * DeviceService.t :=
  DeviceService.set_device_parameter float_of_string
    (DeviceService.IdInt device_id) "door_lock" (VBool lock) svc.

End SterilizerManager.

(** ** surgical_light_manager.py *)

Module SurgicalLightManager.

Record Params : Type := mkParams {
  light_intensity : option Q
}.

Record observation : Type := mkObs {
  fetch : fetched Params
}.

(** A line [_handle_alert] prints. *)
Record printed : Type := mkPrinted {
  printed_device_id : Z;
  printed_alert_type : string;
  printed_value : Q
}.

(** [_handle_alert]: prints, and calls no alert sink. *)
Definition handle_alert (device_id : Z) (alert_type : string) (v : Q)
    : list alert * list printed :=
  ([], [mkPrinted device_id alert_type v]).

(** One iteration of [_monitor_light]: the alert records, the printed lines,
    the seconds slept. *)
Definition monitor_light_iter (device_id : Z) (obs : observation)
    : list alert * list printed * Z :=
  match fetch obs with
  | FetchRaised _ => ([], [], 30)
  | FetchNothing | FetchStatus None => ([], [], 5)
  | FetchStatus (Some params) =>
      match light_intensity params with
      | Some current_intensity =>
          if Qltb current_intensity 10
          then (handle_alert device_id "low_intensity" current_intensity, 5)
          else ([], [], 5)
      | None => ([], [], 5)
      end
  end.

Definition monitor_light (device_id : Z) (os : list observation)
    : list (list alert) * list (list printed) :=
  (map (fun o => (monitor_light_iter device_id o).1.1) os,
   map (fun o => (monitor_light_iter device_id o).1.2) os).

End SurgicalLightManager.

(** ** The monitor-task table of a manager *)

Module MonitorTasks.

(** The four managers keep their monitor tasks the same way:
    [_start_..._monitoring] creates a task unless the device has one, and
    [stop_monitoring] cancels and forgets the task of the device.  A task is
    the handle [asyncio.create_task] returns; handles are numbered in the
    order they are created. *)
Record t : Type := mk {
  (* self._monitoring_tasks *)
  monitoring_tasks : gmap string nat;
  (* how many tasks were created so far *)
  created : nat;
  (* the tasks [cancel()] was called on *)
  cancelled : gset nat
}.

Definition init : t :=
  {| monitoring_tasks := ∅; created := 0; cancelled := ∅ |}.

(** [_start_temperature_monitoring], [_start_session_monitoring],
    [_start_cycle_monitoring], [_start_monitoring]. *)
Definition start_monitoring (device_id : Z) (self : t) : t :=
  if bool_decide (is_Some (monitoring_tasks self !! pretty device_id))
  then self
  else {| monitoring_tasks :=
            <[pretty device_id := created self]> (monitoring_tasks self);
          created := S (created self);
          cancelled := cancelled self |}.

(** The task part of [stop_monitoring]. *)
Definition stop_monitoring (device_id : Z) (self : t) : t :=
  match monitoring_tasks self !! pretty device_id with
  | Some task =>
      {| monitoring_tasks := delete (pretty device_id) (monitoring_tasks self);
         created := created self;
         cancelled := {[task]} ∪ cancelled self |}
  | None => self
  end.

Inductive event : Type :=
| Start (device_id : Z)
| Stop (device_id : Z).

Definition step (ev : event) (self : t) : t :=
  match ev with
  | Start d => start_monitoring d self
  | Stop d => stop_monitoring d self
  end.

Definition run (evs : list event) (self : t) : t :=
  foldl (fun m ev => step ev m) self evs.

(** A task that was created and not cancelled. *)
Definition running (self : t) (task : nat) : Prop :=
  (task < created self)%nat /\ task ∉ cancelled self.

(** The table and the tasks agree. *)
Definition consistent (self : t) : Prop :=
  (forall k task, monitoring_tasks self !! k = Some task ->
                  running self task /\ exists d : Z, k = pretty d)
  /\ (forall k1 k2 task, monitoring_tasks self !! k1 = Some task ->
                         monitoring_tasks self !! k2 = Some task -> k1 = k2)
  /\ (forall task, running self task ->
                   exists k, monitoring_tasks self !! k = Some task)
  /\ (forall task, task ∈ cancelled self -> (task < created self)%nat).

End MonitorTasks.

(** ** alert_service.py *)

Module AlertService.

Record Metrics : Type := mkMetrics {
  cpu_usage : Q;
  memory_usage : Q;
  disk_usage : Q
}.

(** An entry of the slow-operation list, as far as the alerts read it. *)
Record SlowOperation : Type := mkSlow {
  operation : string;
  slow_duration : Q
}.

(** What an alert entry carries besides type, time and severity. *)
Inductive payload : Type :=
| Details (metrics : Metrics)
| SlowOperations (ops : list SlowOperation)
| DeviceId (device_id : Z)
| PartId (part_id : Z).

(** A value of [_active_alerts]. *)
Record Alert : Type := mkAlertEntry {
  type : string;
  timestamp : Z;
  about : payload;
  severity : string
}.

Inductive audience : Type := Admins | MaintenanceStaff.

(** The text of a notification, kept as the values it is formatted from. *)
Inductive body : Type :=
| UsageText (cpu memory disk : Q)
| SlowCountText (n : nat)
| MaintenanceDueText (name : string) (due : option Z)
| WarrantyText (expiry : option Z)
| StockText (quantity minimum : Z).

(** One call of [_notify_admins] or [_notify_maintenance]. *)
Record notification : Type := mkNote {
  to : audience;
  title : string;
  message : body
}.

(** The alert ids. *)
Definition performance_id : string := "system_performance".
Definition slow_id : string := "slow_operations".
Definition maintenance_id (device_id : Z) : string :=
  "maintenance_" +:+ pretty device_id.
Definition warranty_id (device_id : Z) : string :=
  "warranty_" +:+ pretty device_id.
Definition inventory_id (part_id : Z) : string :=
  "inventory_" +:+ pretty part_id.

Definition high (metrics : Metrics) : bool :=
  Qltb 80 (cpu_usage metrics) || Qltb 80 (memory_usage metrics)
  || Qltb 80 (disk_usage metrics).

(** [_check_performance_alerts]; [now] is [datetime.utcnow()]. *)
Definition check_performance_alerts (metrics : Metrics) (now : Z)
    (active_alerts : gmap string Alert)
    : gmap string Alert * list notification :=
  if high metrics then
    match active_alerts !! performance_id with
    | None =>
        (<[performance_id := {| type := "performance"; timestamp := now;
                                about := Details metrics;
                                severity := "high" |}]> active_alerts,
         [mkNote Admins "High System Resource Usage"
            (UsageText (cpu_usage metrics) (memory_usage metrics)
               (disk_usage metrics))])
    | Some _ => (active_alerts, [])
    end
  else (delete performance_id active_alerts, []).

(** [_handle_slow_operations]. *)
Definition handle_slow_operations (slow_ops : list SlowOperation) (now : Z)
    (active_alerts : gmap string Alert)
    : gmap string Alert * list notification :=
  match slow_ops, active_alerts !! slow_id with
  | _ :: _, None =>
      (<[slow_id := {| type := "performance"; timestamp := now;
                       about := SlowOperations slow_ops;
                       severity := "medium" |}]> active_alerts,
       [mkNote Admins "Slow Operations Detected"
          (SlowCountText (length slow_ops))])
  | _, _ => (active_alerts, [])
  end.

(** [_check_maintenance_alerts]: the [for] loop over the due devices.  The
    clock readings of one call are taken as one instant. *)
Fixpoint check_maintenance_alerts (due_devices : list DeviceService.DeviceRow)
    (now : Z) (active_alerts : gmap string Alert)
    : gmap string Alert * list notification :=
  match due_devices with
  | [] => (active_alerts, [])
  | device :: rest =>
      let alert_id := maintenance_id (DeviceService.row_id device) in
      let '(active_alerts, sent) :=
        match active_alerts !! alert_id with
        | None =>
            (<[alert_id := {| type := "maintenance"; timestamp := now;
                              about := DeviceId (DeviceService.row_id device);
                              severity := "medium" |}]> active_alerts,
             [mkNote MaintenanceStaff
                ("Maintenance Due for " +:+ DeviceService.row_name device)
                (MaintenanceDueText (DeviceService.row_name device)
                   (DeviceService.next_maintenance_due device))])
        | Some _ => (active_alerts, [])
        end in
      let '(active_alerts, more) :=
        check_maintenance_alerts rest now active_alerts in
      (active_alerts, sent ++ more)
  end.

(** [_check_warranty_alerts]. *)
Fixpoint check_warranty_alerts (warranty_devices : list DeviceService.DeviceRow)
    (now : Z) (active_alerts : gmap string Alert)
    : gmap string Alert * list notification :=
  match warranty_devices with
  | [] => (active_alerts, [])
  | device :: rest =>
      let alert_id := warranty_id (DeviceService.row_id device) in
      let '(active_alerts, sent) :=
        match active_alerts !! alert_id with
        | None =>
            (<[alert_id := {| type := "warranty"; timestamp := now;
                              about := DeviceId (DeviceService.row_id device);
                              severity := "low" |}]> active_alerts,
             [mkNote MaintenanceStaff
                ("Warranty Expiring for " +:+ DeviceService.row_name device)
                (WarrantyText (DeviceService.warranty_expiry device))])
        | Some _ => (active_alerts, [])
        end in
      let '(active_alerts, more) :=
        check_warranty_alerts rest now active_alerts in
      (active_alerts, sent ++ more)
  end.

(** [_check_inventory_alerts]. *)
Fixpoint check_inventory_alerts (low_stock_parts : list DeviceService.SparePart)
    (now : Z) (active_alerts : gmap string Alert)
    : gmap string Alert * list notification :=
  match low_stock_parts with
  | [] => (active_alerts, [])
  | part :: rest =>
      let alert_id := inventory_id (DeviceService.part_id part) in
      let '(active_alerts, sent) :=
        match active_alerts !! alert_id with
        | None =>
            (<[alert_id := {| type := "inventory"; timestamp := now;
                              about := PartId (DeviceService.part_id part);
                              severity := "medium" |}]> active_alerts,
             [mkNote MaintenanceStaff
                ("Low Stock Alert: " +:+ DeviceService.part_name part)
                (StockText (DeviceService.quantity part)
                   (DeviceService.minimum_quantity part))])
        | Some _ => (active_alerts, [])
        end in
      let '(active_alerts, more) :=
        check_inventory_alerts rest now active_alerts in
      (active_alerts, sent ++ more)
  end.

(** [clear_alert]. *)
Definition clear_alert (alert_id : string) (active_alerts : gmap string Alert)
    : gmap string Alert :=
  delete alert_id active_alerts.

(** What one iteration of [_alert_monitor] reads from outside: the system
    metrics (or the exception of the probe), the slow operations, the device
    and spare-part tables, the clock. *)
Record observation : Type := mkObs {
  perf_metrics : result Metrics;
  slow_ops : list SlowOperation;
  devices : list DeviceService.DeviceRow;
  parts : list DeviceService.SparePart;
  now : Z
}.

(** One iteration of [_alert_monitor]: the table it leaves, the
    notifications it sends, the seconds it sleeps. *)
Definition alert_monitor_iter (obs : observation)
    (active_alerts : gmap string Alert)
    : gmap string Alert * list notification * Z :=
  match perf_metrics obs with
  | Raise _ => (active_alerts, [], 60)
  | Return metrics =>
      let '(alerts, n1) :=
        check_performance_alerts metrics (now obs) active_alerts in
      let '(alerts, n2) :=
        match slow_ops obs with
        | [] => (alerts, [])
        | _ :: _ => handle_slow_operations (slow_ops obs) (now obs) alerts
        end in
      let '(alerts, n3) :=
        check_maintenance_alerts
          (DeviceService.get_devices_due_maintenance (devices obs) (now obs) 7)
          (now obs) alerts in
      let '(alerts, n4) :=
        check_warranty_alerts
          (DeviceService.get_warranty_expiring_devices (devices obs) (now obs) 30)
          (now obs) alerts in
      let '(alerts, n5) :=
        check_inventory_alerts (DeviceService.get_low_stock_parts (parts obs))
          (now obs) alerts in
      (alerts, n1 ++ n2 ++ n3 ++ n4 ++ n5, 300)
  end.

(** The performance check over a sequence of metric readings: the table
    after the last and, for each reading in turn, what was sent. *)
Fixpoint performance_run (polls : list (Metrics * Z))
    (active_alerts : gmap string Alert)
    : gmap string Alert * list (list notification) :=
  match polls with
  | [] => (active_alerts, [])
  | (metrics, now) :: rest =>
      let '(alerts, sent) := check_performance_alerts metrics now active_alerts in
      let '(alerts, more) := performance_run rest alerts in
      (alerts, sent :: more)
  end.

(** What the three [for] loops have in common: for each item in turn, an
    alert id that is not in the table gets its entry and sends its
    notification; an id that is there is passed over. *)
Fixpoint register_alerts (items : list (string * (Alert * notification)))
    (active_alerts : gmap string Alert)
    : gmap string Alert * list notification :=
  match items with
  | [] => (active_alerts, [])
  | (alert_id, (entry, note)) :: rest =>
      let '(active_alerts, sent) :=
        match active_alerts !! alert_id with
        | None => (<[alert_id := entry]> active_alerts, [note])
        | Some _ => (active_alerts, [])
        end in
      let '(active_alerts, more) := register_alerts rest active_alerts in
      (active_alerts, sent ++ more)
  end.

Definition maintenance_item (now : Z) (device : DeviceService.DeviceRow)
    : string * (Alert * notification) :=
  (maintenance_id (DeviceService.row_id device),
   ({| type := "maintenance"; timestamp := now;
       about := DeviceId (DeviceService.row_id device);
       severity := "medium" |},
    mkNote MaintenanceStaff
      ("Maintenance Due for " +:+ DeviceService.row_name device)
      (MaintenanceDueText (DeviceService.row_name device)
         (DeviceService.next_maintenance_due device)))).

Definition warranty_item (now : Z) (device : DeviceService.DeviceRow)
    : string * (Alert * notification) :=
  (warranty_id (DeviceService.row_id device),
   ({| type := "warranty"; timestamp := now;
       about := DeviceId (DeviceService.row_id device);
       severity := "low" |},
    mkNote MaintenanceStaff
      ("Warranty Expiring for " +:+ DeviceService.row_name device)
      (WarrantyText (DeviceService.warranty_expiry device)))).

Definition inventory_item (now : Z) (part : DeviceService.SparePart)
    : string * (Alert * notification) :=
  (inventory_id (DeviceService.part_id part),
   ({| type := "inventory"; timestamp := now;
       about := PartId (DeviceService.part_id part);
       severity := "medium" |},
    mkNote MaintenanceStaff
      ("Low Stock Alert: " +:+ DeviceService.part_name part)
      (StockText (DeviceService.quantity part)
         (DeviceService.minimum_quantity part)))).

(** The [while True] loop of [_alert_monitor] over the observations of its
    iterations: the table after the last and, for each iteration in turn,
    what it sent and how long it slept. *)
Fixpoint alert_monitor (observations : list observation)
    (active_alerts : gmap string Alert)
    : gmap string Alert * list (list notification * Z) :=
  match observations with
  | [] => (active_alerts, [])
  | obs :: rest =>
      let '(alerts, sent, sleep) := alert_monitor_iter obs active_alerts in
      let '(alerts, more) := alert_monitor rest alerts in
      (alerts, (sent, sleep) :: more)
  end.

End AlertService.

(** ** Sample polls for the worked examples *)

Module Sample.

Definition bed_row : DeviceService.DeviceRecord :=
  DeviceService.mkRecord "Bed 1" (Some "HeatingBed").

(** A heating-bed poll at instant [now] that fetches the two temperatures
    and finds the directory row. *)
Definition bed_poll (current target : Q) (now : Z)
    : HeatingBedManager.observation :=
  HeatingBedManager.mkObs
    (FetchStatus (Some (HeatingBedManager.mkParams (Some current) (Some target))))
    (Some bed_row) now now now.

Definition sterilizer_row : DeviceService.DeviceRecord :=
  DeviceService.mkRecord "Autoclave 2" (Some "Sterilizer").

(** A sterilizer poll of an active cycle with the four readings. *)
Definition cycle_poll (current_temp target_temp current_pressure target_pressure : Q)
    (now : Z) : SterilizerManager.observation :=
  SterilizerManager.mkObs
    (FetchStatus
       (Some (SterilizerManager.mkParams true
                (Some (SterilizerManager.mkInfo (Some "c-1")
                         (Some current_temp) (Some target_temp)
                         (Some current_pressure) (Some target_pressure))))))
    (Some sterilizer_row) now.

(** A phototherapy poll of an active session started at [start] and planned
    for [mins] minutes, read at [now]. *)
Definition session_poll (start mins : Z) (current : Q) (now : Z)
    : PhototherapyManager.observation :=
  PhototherapyManager.mkObs
    (FetchStatus
       (Some (PhototherapyManager.mkParams true
                (Some (PhototherapyManager.mkInfo (Some start) (Some mins)
                         (Some 100%Q)))
                (Some current))))
    (Some (DeviceService.mkRecord "Lamp 4" (Some "PhototherapyLight")))
    now now.

End Sample.

(** * Properties *)

Lemma Qltb_true (a b : Q) : Qltb a b = true <-> (a < b)%Q.
Proof.
  unfold Qltb. rewrite negb_true_iff. split.
  - intros H. apply Qnot_le_lt. intros Hle.
    apply Qle_bool_iff in Hle. congruence.
  - intros H. destruct (Qle_bool b a) eqn:E; [|reflexivity].
    apply Qle_bool_iff in E. exfalso. apply (Qlt_not_le _ _ H E).
Qed.

Lemma Qltb_false (a b : Q) : Qltb a b = false <-> (b <= a)%Q.
Proof.
  unfold Qltb. rewrite negb_false_iff. apply Qle_bool_iff.
Qed.

Section HeatingBedProperties.
Import HeatingBed.

(** With the limits of the constructor, the test of [set_temperature] is
    false exactly for the values in the closed range and for NaN. *)
Lemma range_test_false (temp : float) :
  float_ltb temp (Finite 20) || float_ltb (Finite 42) temp = false
  <-> in_safe_range temp = true \/ temp = NaN.
Proof.
  unfold in_safe_range. destruct temp as [q| | |]; simpl.
  - unfold Qltb, Qleb.
    destruct (Qle_bool 20 q), (Qle_bool q 42); simpl; split; try done;
      try (by left); by intros [?|?].
  - split; [done|]. by intros [?|?].
  - split; [done|]. by intros [?|?].
  - split; [by right|done].
Qed.

Lemma set_temperature_test (temp : float) (self : t) :
  limits_as_built self ->
  set_temperature temp self
  = if float_ltb temp (Finite 20) || float_ltb (Finite 42) temp
    then (Raise (OutOfRange self), self)
    else (Return tt, set_target temp self).
Proof.
  intros [Hmin Hmax]. unfold set_temperature, OutOfRange.
  destruct temp as [q| | |]; simpl; try done.
  unfold Qltb. rewrite Hmin, Hmax. done.
Qed.

(** C2. [set_temperature] lets NaN through.  For a heating bed with the
    limits its constructor sets, the call returns exactly when
    [20.0 <= t <= 42.0] holds or [t] is NaN: a value in the closed range is
    stored, and any other value except NaN (a finite one outside the range,
    an infinity) fails with the [OutOfRange] error and leaves the device as
    it was; but NaN, for which [20.0 <= t <= 42.0] is false, passes the test
    [t < min or t > max] and becomes the target temperature. *)
Theorem set_temperature_range_check (temp : float) (self : t) :
  limits_as_built self ->
  (is_return (fst (set_temperature temp self)) = true
     <-> in_safe_range temp = true \/ temp = NaN)
  /\ (in_safe_range temp = true ->
      set_temperature temp self = (Return tt, set_target temp self)
      /\ target_temperature (snd (set_temperature temp self)) = temp)
  /\ (in_safe_range temp = false -> temp <> NaN ->
      set_temperature temp self = (Raise (OutOfRange self), self))
  /\ in_safe_range NaN = false
  /\ set_temperature NaN self = (Return tt, set_target NaN self)
  /\ target_temperature (snd (set_temperature NaN self)) = NaN.
Proof.
  intros Hl. pose proof (range_test_false temp) as Ht.
  rewrite (set_temperature_test temp self Hl),
    (set_temperature_test NaN self Hl).
  destruct (float_ltb temp (Finite 20) || float_ltb (Finite 42) temp) eqn:E.
  - split; [|split; [|split]].
    + split; [done|]. intros H. apply Ht in H. discriminate.
    + intros H. assert (true = false); [|done]. apply Ht. by left.
    + done.
    + done.
  - destruct Ht as [Ht _]. specialize (Ht eq_refl).
    split; [|split; [|split]].
    + done.
    + done.
    + intros Hf Hn. destruct Ht as [Ht|Ht]; [congruence|done].
    + done.
Qed.

Lemma set_temperature_range_check_witness :
  limits_as_built (init "HB-1" "Ward 3" TCP 0)
  /\ in_safe_range NaN = false
  /\ target_temperature
       (snd (set_temperature NaN (init "HB-1" "Ward 3" TCP 0))) = NaN.
Proof.
  split; [by split|].
  destruct (set_temperature_range_check NaN (init "HB-1" "Ward 3" TCP 0))
    as (_ & _ & _ & H1 & _ & H2); [by split|].
  by split.
Defined.

End HeatingBedProperties.

Section PhototherapyLightProperties.
Import PhototherapyLight.

Lemma status_eqb_eq (a b : DeviceStatus) : status_eqb a b = true <-> a = b.
Proof. destruct a, b; simpl; split; intros H; congruence. Qed.

Lemma start_session_not_connected uuid now d i (self : t) :
  status self <> CONNECTED ->
  start_session uuid now d i self = (Raise NotConnected, self).
Proof.
  intros Hs. unfold start_session.
  destruct (status_eqb (status self) CONNECTED) eqn:E; [|reflexivity].
  apply status_eqb_eq in E. contradiction.
Qed.

Lemma start_session_out_of_range uuid now d i (self : t) :
  status self = CONNECTED -> ~ (0 <= i <= 100) ->
  start_session uuid now d i self = (Raise OutOfRange, self).
Proof.
  intros Hs Hi. unfold start_session. rewrite Hs. simpl.
  destruct ((0 <=? i) && (i <=? 100)) eqn:E; [|reflexivity].
  apply andb_true_iff in E as [E1 E2]. lia.
Qed.

Lemma start_session_ok uuid now d i (self : t) :
  status self = CONNECTED -> 0 <= i <= 100 ->
  start_session uuid now d i self
  = (Return uuid,
     set_sessions (<[uuid := mkSession d i now "running"]>
                     (active_sessions self)) self).
Proof.
  intros Hs Hi. unfold start_session. rewrite Hs. simpl.
  assert ((0 <=? i) && (i <=? 100) = true) as ->; [|reflexivity].
  apply andb_true_iff. lia.
Qed.

(** Whatever a call does, the sessions of the light change at most at the
    id the call names. *)
Lemma start_session_sessions uuid now d i (self : t) :
  match fst (start_session uuid now d i self) with
  | Return sid =>
      sid = uuid
      /\ active_sessions (snd (start_session uuid now d i self))
         = <[uuid := mkSession d i now "running"]> (active_sessions self)
  | Raise _ => snd (start_session uuid now d i self) = self
  end.
Proof.
  unfold start_session.
  destruct (negb (status_eqb (status self) CONNECTED)); [reflexivity|].
  destruct (negb ((0 <=? i) && (i <=? 100))); [reflexivity|].
  simpl. by split.
Qed.

(** A call that is not a successful start keeps the key set, and keeps the
    duration and intensity of every session. *)
Lemma exec_keeps_session (c : call) (self : t) sid s :
  active_sessions self !! sid = Some s ->
  sid ∉ uuids [c] ->
  exists s', active_sessions (exec c self) !! sid = Some s'
             /\ duration s' = duration s /\ intensity s' = intensity s.
Proof.
  intros Hs Hfresh. destruct c as [| |uuid now d i|g|g]; simpl in *.
  - by exists s.
  - by exists s.
  - pose proof (start_session_sessions uuid now d i self) as H.
    destruct (fst (start_session uuid now d i self)).
    + destruct H as [_ ->]. exists s. split; [|done].
      rewrite lookup_insert_ne; [done|]. intros ->. apply Hfresh. left.
    + rewrite H. by exists s.
  - unfold get_session. destruct (active_sessions self !! g); by exists s.
  - unfold stop_session.
    destruct (active_sessions self !! g) as [sg|] eqn:Eg; simpl; [|by exists s].
    destruct (decide (g = sid)) as [->|Hne].
    + rewrite lookup_insert_eq. eexists. split; [reflexivity|].
      simpl. rewrite Hs in Eg. by injection Eg as ->.
    + rewrite lookup_insert_ne by done. by exists s.
Qed.

Lemma run_keeps_session (cs : list call) : forall (self dev : t) log sid s,
  run cs self = (dev, log) ->
  active_sessions self !! sid = Some s ->
  sid ∉ uuids cs ->
  exists s', active_sessions dev !! sid = Some s'
             /\ duration s' = duration s /\ intensity s' = intensity s.
Proof.
  induction cs as [|c cs IH]; intros self dev log sid s Hrun Hs Hfresh.
  - simpl in Hrun. injection Hrun as <- <-. by exists s.
  - simpl in Hrun. destruct (run cs (exec c self)) as [dev' log'] eqn:E.
    injection Hrun as <- <-.
    assert (Hc : sid ∉ uuids [c]).
    { intros Hin. apply Hfresh. destruct c; simpl in *;
        try (by inversion Hin).
      apply elem_of_cons in Hin as [->|Hin]; [left|by inversion Hin]. }
    assert (Hcs : sid ∉ uuids cs).
    { intros Hin. apply Hfresh. destruct c; simpl; try done. by right. }
    destruct (exec_keeps_session c self sid s Hs Hc) as (s1 & H1 & Hd & Hi).
    destruct (IH _ _ _ sid s1 E H1 Hcs) as (s2 & H2 & Hd2 & Hi2).
    exists s2. split; [done|]. split; congruence.
Qed.

(** The keys of [active_sessions] after a history are the keys before it
    together with the ids the history returned. *)
Lemma run_keys (cs : list call) : forall (self dev : t) log sid,
  run cs self = (dev, log) ->
  is_Some (active_sessions dev !! sid) ->
  is_Some (active_sessions self !! sid) \/ sid ∈ log.*1.
Proof.
  induction cs as [|c cs IH]; intros self dev log sid Hrun Hsome.
  - simpl in Hrun. injection Hrun as <- <-. by left.
  - simpl in Hrun. destruct (run cs (exec c self)) as [dev' log'] eqn:E.
    injection Hrun as <- <-.
    destruct (IH _ _ _ sid E Hsome) as [Hmid|Hin].
    + destruct c as [| |uuid now d i|g|g]; simpl in *; try by left.
      * pose proof (start_session_sessions uuid now d i self) as H.
        destruct (fst (start_session uuid now d i self)).
        -- destruct H as [-> Heq]. rewrite Heq in Hmid.
           destruct (decide (uuid = sid)) as [->|Hne].
           ++ right. simpl. left.
           ++ rewrite lookup_insert_ne in Hmid by done. by left.
        -- rewrite H in Hmid. by left.
      * unfold get_session in Hmid.
        destruct (active_sessions self !! g); by left.
      * unfold stop_session in Hmid.
        destruct (active_sessions self !! g) as [sg|] eqn:Eg; simpl in Hmid;
          [|by left].
        destruct (decide (g = sid)) as [->|Hne].
        -- left. by rewrite Eg.
        -- rewrite lookup_insert_ne in Hmid by done. by left.
    + right. destruct (started c self); simpl; [by right|done].
Qed.

Lemma run_log_uuids (cs : list call) : forall (self dev : t) log sid,
  run cs self = (dev, log) -> sid ∈ log.*1 -> sid ∈ uuids cs.
Proof.
  induction cs as [|c cs IH]; intros self dev log sid Hrun Hin.
  - simpl in Hrun. injection Hrun as <- <-. by inversion Hin.
  - simpl in Hrun. destruct (run cs (exec c self)) as [dev' log'] eqn:E.
    injection Hrun as <- <-.
    destruct c as [| |uuid now d i|g|g]; simpl in *; try by eapply IH.
    pose proof (start_session_sessions uuid now d i self) as H.
    destruct (fst (start_session uuid now d i self)).
    + destruct H as [-> _]. simpl in Hin.
      apply elem_of_cons in Hin as [->|Hin]; [left|right; by eapply IH].
    + right. by eapply IH.
Qed.

Lemma run_returned (cs : list call) : forall (self dev : t) log sid d i,
  run cs self = (dev, log) ->
  NoDup (uuids cs) ->
  (sid, (d, i)) ∈ log ->
  exists s, active_sessions dev !! sid = Some s
            /\ duration s = d /\ intensity s = i.
Proof.
  induction cs as [|c cs IH]; intros self dev log sid d i Hrun Hnd Hin.
  - simpl in Hrun. injection Hrun as <- <-. by inversion Hin.
  - simpl in Hrun. destruct (run cs (exec c self)) as [dev' log'] eqn:E.
    injection Hrun as <- <-.
    destruct c as [| |uuid now d0 i0|g|g]; simpl in *; try by eapply IH.
    apply NoDup_cons in Hnd as [Hfresh Hnd].
    pose proof (start_session_sessions uuid now d0 i0 self) as H.
    destruct (fst (start_session uuid now d0 i0 self)) as [r|] eqn:Er;
      [|by eapply IH].
    destruct H as [-> Heq].
    apply elem_of_cons in Hin as [Hhd|Hin]; [|by eapply IH].
    injection Hhd as -> -> ->.
    eapply (run_keeps_session cs _ _ _ uuid (mkSession d0 i0 now "running"))
      in E; [exact E| |exact Hfresh].
    rewrite Heq. apply lookup_insert_eq.
Qed.

(** C6. [start_session] fails with [NotConnected] unless the light is
    [CONNECTED]; a connected light fails with [OutOfRange] unless
    [0 <= intensity <= 100], and either failure leaves the light (so its
    session table) as it was; otherwise the call returns the generated id
    and stores under it a record with status ['running'], for which
    [get_session] yields the duration and intensity passed.  Over any
    history of calls on a new light, [get_session] fails with [NotFound]
    for every id no earlier [start_session] returned and, the generated
    ids being distinct, yields for every returned id the duration and
    intensity given to the call that returned it. *)
Theorem start_session_contract :
  (forall uuid now d i (self : t),
      status self <> CONNECTED ->
      start_session uuid now d i self = (Raise NotConnected, self))
  /\ (forall uuid now d i (self : t),
      status self = CONNECTED -> ~ (0 <= i <= 100) ->
      start_session uuid now d i self = (Raise OutOfRange, self))
  /\ (forall uuid now d i (self : t),
      status self = CONNECTED -> 0 <= i <= 100 ->
      exists self',
        start_session uuid now d i self = (Return uuid, self')
        /\ active_sessions self'
           = <[uuid := mkSession d i now "running"]> (active_sessions self)
        /\ get_session uuid self'
           = (Return (mkSession d i now "running"), self'))
  /\ (forall cs name loc ct dev log,
      run cs (init name loc ct) = (dev, log) ->
      (forall sid, sid ∉ log.*1 ->
                   get_session sid dev = (Raise NotFound, dev))
      /\ (NoDup (uuids cs) ->
          forall sid d i, (sid, (d, i)) ∈ log ->
            exists s, get_session sid dev = (Return s, dev)
                      /\ duration s = d /\ intensity s = i)).
Proof.
  split; [exact start_session_not_connected|].
  split; [exact start_session_out_of_range|].
  split.
  - intros uuid now d i self Hs Hi. eexists. split; [|split].
    + by apply start_session_ok.
    + reflexivity.
    + unfold get_session. simpl. by rewrite lookup_insert_eq.
  - intros cs name loc ct dev log Hrun. split.
    + intros sid Hnot. unfold get_session.
      destruct (active_sessions dev !! sid) as [s|] eqn:E; [|reflexivity].
      destruct (run_keys cs _ _ _ sid Hrun) as [[x Hx]|Hin].
      * by rewrite E.
      * simpl in Hx. by rewrite lookup_empty in Hx.
      * contradiction.
    + intros Hnd sid d i Hin.
      destruct (run_returned cs _ _ _ sid d i Hrun Hnd Hin) as (s & Hs & Hd & Hi).
      exists s. unfold get_session. by rewrite Hs.
Qed.

Lemma start_session_contract_witness :
  status (snd (connect (init "TEST-PT-001" "Test Room" TCP))) = CONNECTED
  /\ ~ (0 <= 150 <= 100)
  /\ start_session "u-1" 0 30 150
       (snd (connect (init "TEST-PT-001" "Test Room" TCP)))
     = (Raise OutOfRange, snd (connect (init "TEST-PT-001" "Test Room" TCP)))
  /\ exists s,
       get_session "u-1"
         (fst (run [Initialize; Connect; StartSession "u-1" 0 30 75]
                   (init "TEST-PT-001" "Test Room" TCP)))
       = (Return s,
          fst (run [Initialize; Connect; StartSession "u-1" 0 30 75]
                   (init "TEST-PT-001" "Test Room" TCP)))
       /\ duration s = 30 /\ intensity s = 75.
Proof.
  split; [reflexivity|]. split; [lia|]. split.
  - apply (proj1 (proj2 start_session_contract)); [reflexivity|lia].
  - refine (proj2 (proj2 (proj2 (proj2 start_session_contract))
                     [Initialize; Connect; StartSession "u-1" 0 30 75]
                     "TEST-PT-001" "Test Room" TCP _ _ eq_refl) _
              "u-1" 30 75 _).
    + simpl. apply NoDup_cons. split; [by inversion 1|apply NoDup_nil_2].
    + simpl. left.
Defined.

End PhototherapyLightProperties.

Section SterilizerProperties.
Import Sterilizer.

(** Every preset carries both a temperature and a duration. *)
Lemma preset_complete ct p :
  preset_table !! ct = Some p ->
  exists tv dv, p = mkParams (Some tv) (Some dv).
Proof.
  unfold preset_table. intros H.
  repeat (apply lookup_insert_Some in H as [[_ <-]|[_ H]]; [by eauto|]).
  by rewrite lookup_empty in H.
Qed.

Lemma preset_standard :
  preset_table !! "standard" = Some (mkParams (Some 134%Q) (Some 20)).
Proof. reflexivity. Qed.

Lemma preset_quick :
  preset_table !! "quick" = Some (mkParams (Some 134%Q) (Some 10)).
Proof. reflexivity. Qed.

Lemma preset_delicate :
  preset_table !! "delicate" = Some (mkParams (Some 121%Q) (Some 30)).
Proof. reflexivity. Qed.

(** With a preset for the type, each field is the explicit argument when
    there is one and the preset's value otherwise. *)
Lemma start_cycle_preset uuid now temperature duration ct tv dv (self : t) :
  status self = CONNECTED ->
  cycle_types self !! ct = Some (mkParams (Some tv) (Some dv)) ->
  start_cycle uuid now temperature duration ct self
  = (Return uuid,
     set_cycles
       (<[uuid := mkCycle ct (default tv temperature) (default dv duration)
                          now "running"]> (active_cycles self))
       self).
Proof.
  intros Hs Hp. unfold start_cycle, resolve. rewrite Hs, Hp. simpl.
  destruct temperature, duration; reflexivity.
Qed.

Lemma start_cycle_invalid_iff uuid now temperature duration ct (self : t) :
  status self = CONNECTED ->
  cycle_types self = preset_table ->
  fst (start_cycle uuid now temperature duration ct self) = Raise InvalidCycle
  <-> preset_table !! ct = None /\ temperature = None /\ duration = None.
Proof.
  intros Hs Ht. unfold start_cycle, resolve. rewrite Hs, Ht. simpl.
  destruct (preset_table !! ct) as [p|] eqn:Ep.
  - destruct (preset_complete _ _ Ep) as (tv & dv & ->). simpl.
    destruct temperature, duration; simpl; split; intros H;
      try discriminate H; destruct H as [H _]; discriminate H.
  - simpl. destruct temperature, duration; simpl; split; intros H;
      try discriminate H; try done;
      destruct H as (_ & H1 & H2); discriminate.
Qed.

Lemma start_cycle_success uuid now temperature duration ct (self : t) cid self' :
  start_cycle uuid now temperature duration ct self = (Return cid, self') ->
  cid = uuid
  /\ exists c,
       active_cycles self' = <[uuid := c]> (active_cycles self)
       /\ cycle_status c = "running"
       /\ cycle_type c = ct
       /\ temp (resolve self temperature duration ct) = Some (Sterilizer.temperature c)
       /\ Sterilizer.duration (resolve self temperature duration ct)
          = Some (cycle_duration c).
Proof.
  unfold start_cycle.
  destruct (negb (status_eqb (status self) CONNECTED)); [discriminate|].
  destruct (params_empty _); [discriminate|].
  destruct (temp _) as [tv|]; [|discriminate].
  destruct (Sterilizer.duration _) as [dv|]; [|discriminate].
  intros H. injection H as <- <-. split; [done|].
  eexists. split; [reflexivity|]. by simpl.
Qed.

(** A type that is not in the table, with one explicit argument only: the
    resolved dict is not empty and lacks a key, and the call ends in
    [KeyError]. *)
Lemma start_cycle_partial_parameters uuid now x ct (self : t) :
  status self = CONNECTED ->
  cycle_types self !! ct = None ->
  start_cycle uuid now (Some x) None ct self = (Raise (KeyError "duration"), self).
Proof.
  intros Hs Hp. unfold start_cycle, resolve. by rewrite Hs, Hp.
Qed.

(** C5. For a connected sterilizer with the preset table of its
    constructor: [start_cycle] with a preset type takes each field from the
    explicit argument when given and from the preset (standard 134/20,
    quick 134/10, delicate 121/30) otherwise, so ['standard'] alone gives
    temperature 134 and duration 20, and ['standard'] with
    [temperature=120] gives 120 and 20; the call fails with [InvalidCycle]
    exactly when the type is not in the table and neither argument is
    given; every call that returns stores, under the generated id it
    returns, a record with status ['running'] holding the resolved
    parameters (under a new key when the generated id is new). *)
Theorem start_cycle_contract uuid now (self : t) :
  status self = CONNECTED ->
  cycle_types self = preset_table ->
  (preset_table !! "standard" = Some (mkParams (Some 134%Q) (Some 20))
   /\ preset_table !! "quick" = Some (mkParams (Some 134%Q) (Some 10))
   /\ preset_table !! "delicate" = Some (mkParams (Some 121%Q) (Some 30)))
  /\ (forall ct tv dv temperature duration,
      preset_table !! ct = Some (mkParams (Some tv) (Some dv)) ->
      start_cycle uuid now temperature duration ct self
      = (Return uuid,
         set_cycles
           (<[uuid := mkCycle ct (default tv temperature)
                              (default dv duration) now "running"]>
              (active_cycles self))
           self))
  /\ start_cycle uuid now None None "standard" self
     = (Return uuid,
        set_cycles (<[uuid := mkCycle "standard" 134 20 now "running"]>
                      (active_cycles self)) self)
  /\ start_cycle uuid now (Some 120%Q) None "standard" self
     = (Return uuid,
        set_cycles (<[uuid := mkCycle "standard" 120 20 now "running"]>
                      (active_cycles self)) self)
  /\ (forall temperature duration ct,
      fst (start_cycle uuid now temperature duration ct self)
      = Raise InvalidCycle
      <-> preset_table !! ct = None /\ temperature = None /\ duration = None)
  /\ (forall temperature duration ct cid self',
      start_cycle uuid now temperature duration ct self = (Return cid, self') ->
      cid = uuid
      /\ (exists c,
            active_cycles self' = <[uuid := c]> (active_cycles self)
            /\ active_cycles self' !! cid = Some c
            /\ cycle_status c = "running")
      /\ (active_cycles self !! uuid = None ->
          size (active_cycles self') = S (size (active_cycles self)))).
Proof.
  intros Hs Ht.
  split; [by repeat split|].
  split.
  { intros ct tv dv temperature duration Hp.
    apply start_cycle_preset; [done|by rewrite Ht]. }
  split.
  { apply (start_cycle_preset uuid now None None "standard" 134%Q 20);
      [done|by rewrite Ht]. }
  split.
  { apply (start_cycle_preset uuid now (Some 120%Q) None "standard" 134%Q 20);
      [done|by rewrite Ht]. }
  split.
  { intros. by apply start_cycle_invalid_iff. }
  intros temperature duration ct cid self' H.
  destruct (start_cycle_success _ _ _ _ _ _ _ _ H)
    as [-> [c (Hc & Hrun & _)]].
  split; [done|]. split.
  - exists c. split; [done|]. split; [|done].
    rewrite Hc. apply lookup_insert_eq.
  - intros Hfresh. rewrite Hc. by apply map_size_insert_None.
Qed.

Lemma start_cycle_contract_witness :
  start_cycle "c-1" 0 (Some 120%Q) None "standard"
    (snd (connect (init "TEST-ST-001" "Test Room" TCP)))
  = (Return "c-1",
     set_cycles (<["c-1" := mkCycle "standard" 120 20 0 "running"]> ∅)
                (snd (connect (init "TEST-ST-001" "Test Room" TCP)))).
Proof.
  apply (start_cycle_contract "c-1" 0
           (snd (connect (init "TEST-ST-001" "Test Room" TCP)))
           eq_refl eq_refl).
Defined.

End SterilizerProperties.

Section SurgicalLightProperties.
Import SurgicalLight.

Variable float_of_string : string -> option Q.

Lemma in_percent_range_iff (f : Q) :
  in_percent_range f = true <-> (0 <= f)%Q /\ (f <= 100)%Q.
Proof.
  unfold in_percent_range, Qleb. rewrite andb_true_iff.
  by rewrite !Qle_bool_iff.
Qed.

Lemma supported_lookup name r :
  supported_as_built !! name = Some r ->
  name = "light_intensity" \/ name = "focus_position"
  \/ name = "camera_active".
Proof.
  unfold supported_as_built. intros H.
  apply lookup_insert_Some in H as [[<- _]|[_ H]]; [by left|].
  apply lookup_insert_Some in H as [[<- _]|[_ H]]; [by right; left|].
  apply lookup_insert_Some in H as [[<- _]|[_ H]]; [by right; right|].
  by rewrite lookup_empty in H.
Qed.

Lemma set_parameter_unknown name v (self : t) :
  as_built self ->
  name <> "light_intensity" -> name <> "focus_position" ->
  name <> "camera_active" ->
  set_parameter float_of_string name v self = (Return false, self).
Proof.
  intros Hb H1 H2 H3. unfold set_parameter. rewrite Hb.
  destruct (supported_as_built !! name) as [r|] eqn:E; [|reflexivity].
  apply supported_lookup in E as [?|[?|?]]; contradiction.
Qed.

Lemma set_parameter_light v (self : t) :
  as_built self ->
  set_parameter float_of_string "light_intensity" v self
  = match to_float float_of_string v with
    | Return f => if in_percent_range f
                  then (Return true, set_light_intensity f self)
                  else (Return false, self)
    | Raise e => if handled e then (Return false, self) else (Raise e, self)
    end.
Proof. intros Hb. unfold set_parameter. rewrite Hb. reflexivity. Qed.

Lemma set_parameter_focus v (self : t) :
  as_built self ->
  set_parameter float_of_string "focus_position" v self
  = match to_float float_of_string v with
    | Return f => if in_percent_range f
                  then (Return true, set_focus_position f self)
                  else (Return false, self)
    | Raise e => if handled e then (Return false, self) else (Raise e, self)
    end.
Proof. intros Hb. unfold set_parameter. rewrite Hb. reflexivity. Qed.

Lemma set_parameter_camera v (self : t) :
  as_built self ->
  set_parameter float_of_string "camera_active" v self
  = (Return true, set_camera_active (truthy v) self).
Proof. intros Hb. unfold set_parameter. rewrite Hb. reflexivity. Qed.

Lemma to_float_raises v e :
  to_float float_of_string v = Raise e ->
  e <> OverflowError -> handled e = true.
Proof.
  destruct v as [|b|z|q|s|l]; simpl; try discriminate.
  - intros H. by injection H as <-.
  - destruct (float_int_limit <=? Z.abs z); [|discriminate].
    intros H. injection H as <-. congruence.
  - destruct (float_of_string s); [discriminate|].
    intros H. by injection H as <-.
  - intros H. by injection H as <-.
Qed.

(** C7, as the code has it.  For a surgical light with the parameter table
    of its constructor: an unsupported name returns false and changes
    nothing; for [light_intensity] and [focus_position] the value goes
    through [float()], a result within [0, 100] (bounds included) is stored
    and the call returns true, a result outside returns false, and a
    conversion that fails with [ValueError] or [TypeError] returns false,
    the light unchanged in both cases; for [camera_active] every value is
    accepted: [bool(value)] is stored and the call returns true.  Apart
    from a conversion that raises [OverflowError], the call returns. *)
Theorem set_parameter_contract (self : t) :
  as_built self ->
  (forall name v,
      name <> "light_intensity" -> name <> "focus_position" ->
      name <> "camera_active" ->
      set_parameter float_of_string name v self = (Return false, self))
  /\ (forall v f,
      to_float float_of_string v = Return f ->
      ((0 <= f)%Q /\ (f <= 100)%Q ->
       set_parameter float_of_string "light_intensity" v self
       = (Return true, set_light_intensity f self)
       /\ set_parameter float_of_string "focus_position" v self
          = (Return true, set_focus_position f self))
      /\ (~ ((0 <= f)%Q /\ (f <= 100)%Q) ->
          set_parameter float_of_string "light_intensity" v self
          = (Return false, self)
          /\ set_parameter float_of_string "focus_position" v self
             = (Return false, self)))
  /\ (forall v e,
      to_float float_of_string v = Raise e -> e <> OverflowError ->
      set_parameter float_of_string "light_intensity" v self
      = (Return false, self)
      /\ set_parameter float_of_string "focus_position" v self
         = (Return false, self))
  /\ (forall v,
      set_parameter float_of_string "camera_active" v self
      = (Return true, set_camera_active (truthy v) self))
  /\ (forall name v,
      to_float float_of_string v <> Raise OverflowError ->
      is_return (fst (set_parameter float_of_string name v self)) = true).
Proof.
  intros Hb.
  split; [intros; by apply set_parameter_unknown|].
  split.
  { intros v f Hf. rewrite set_parameter_light, set_parameter_focus by done.
    rewrite Hf. split.
    - intros Hr. apply in_percent_range_iff in Hr. by rewrite Hr.
    - intros Hn. destruct (in_percent_range f) eqn:E; [|done].
      apply in_percent_range_iff in E. contradiction. }
  split.
  { intros v e He Hne.
    rewrite set_parameter_light, set_parameter_focus by done.
    rewrite He. by rewrite (to_float_raises v e He Hne). }
  split; [intros; by apply set_parameter_camera|].
  intros name v Hov.
  destruct (decide (name = "light_intensity")) as [->|H1].
  { rewrite set_parameter_light by done.
    destruct (to_float float_of_string v) as [f|e] eqn:E.
    - by destruct (in_percent_range f).
    - rewrite (to_float_raises v e E); [done|]. intros ->. by apply Hov. }
  destruct (decide (name = "focus_position")) as [->|H2].
  { rewrite set_parameter_focus by done.
    destruct (to_float float_of_string v) as [f|e] eqn:E.
    - by destruct (in_percent_range f).
    - rewrite (to_float_raises v e E); [done|]. intros ->. by apply Hov. }
  destruct (decide (name = "camera_active")) as [->|H3].
  { by rewrite set_parameter_camera. }
  by rewrite set_parameter_unknown.
Qed.

End SurgicalLightProperties.

Lemma set_parameter_contract_witness :
  SurgicalLight.as_built (SurgicalLight.init "SL-1" ETHERNET)
  /\ SurgicalLight.set_parameter (fun _ => None) "light_intensity" (VInt 100)
       (SurgicalLight.init "SL-1" ETHERNET)
     = (Return true,
        SurgicalLight.set_light_intensity 100 (SurgicalLight.init "SL-1" ETHERNET)).
Proof.
  split; [reflexivity|].
  apply (set_parameter_contract (fun _ => None)
           (SurgicalLight.init "SL-1" ETHERNET) eq_refl).
  - reflexivity.
  - split; by vm_compute.
Defined.

(** C7, as stated, fails: the string ['off'] is no boolean, yet
    [set_parameter('camera_active', 'off')] returns true and switches the
    camera on. *)
Lemma set_parameter_camera_accepts_string :
  SurgicalLight.type_matches "camera_active" (VStr "off") = false
  /\ SurgicalLight.set_parameter (fun _ => None) "camera_active" (VStr "off")
       (SurgicalLight.init "SL-1" ETHERNET)
     = (Return true,
        SurgicalLight.set_camera_active true (SurgicalLight.init "SL-1" ETHERNET))
  /\ SurgicalLight.camera_active (SurgicalLight.init "SL-1" ETHERNET) = false.
Proof. by repeat split. Qed.

Section DeviceServiceProperties.
Import DeviceService.

Variable get_by_id : ident -> option DeviceRecord.

(** Called through the class, [create_device] has the record's model for
    [self] and raises before it looks anything up. *)
Lemma create_device_through_class now model device_type args :
  create_device now (receiver_of model) device_type args
  = Raise (AttributeError "_device_types").
Proof. by destruct model. Qed.

(** [connect_device] as written never gets past the factory call. *)
Lemma connect_device_returns_false now device_id connection_type (self : t) :
  connect_device get_by_id now device_id connection_type self
  = (Return false, self).
Proof.
  unfold connect_device.
  destruct (get_by_id device_id) as [device_record|]; [|reflexivity].
  destruct (negb (id_in device_id (active_devices self))); [|reflexivity].
  by rewrite create_device_through_class.
Qed.

(** C4. When the store already holds an entry under [str(device_id)],
    [connect_device] returns false and leaves the service as it was: the
    store entry is the same and no instance was constructed (no effect was
    added); the heating-bed manager's [connect_bed] on such an id returns
    false as well and leaves its monitor tasks as they were. *)
Theorem connect_device_already_present now device_id connection_type (self : t) :
  is_Some (active_devices self !! str device_id) ->
  connect_device get_by_id now device_id connection_type self
  = (Return false, self)
  /\ active_devices
       (snd (connect_device get_by_id now device_id connection_type self))
     !! str device_id
     = active_devices self !! str device_id
  /\ effects (snd (connect_device get_by_id now device_id connection_type self))
     = effects self
  /\ (forall z (mgr : HeatingBedManager.t),
        device_id = IdInt z ->
        HeatingBedManager.device_service mgr = self ->
        HeatingBedManager.connect_bed get_by_id now z mgr = (Return false, mgr)).
Proof.
  intros _. rewrite connect_device_returns_false.
  split; [done|]. split; [done|]. split; [done|].
  intros z mgr -> Hm. unfold HeatingBedManager.connect_bed.
  rewrite connect_device_returns_false. by destruct mgr.
Qed.

Lemma get_device_status_absent device_id (self : t) :
  active_devices self !! str device_id = None ->
  get_device_status device_id self = Return None.
Proof. intros H. unfold get_device_status. by rewrite H. Qed.

(** For an id in the store the call raises, whatever the device is. *)
Lemma get_device_status_present device_id (self : t) dev :
  active_devices self !! str device_id = Some dev ->
  get_device_status device_id self
  = match dev with
    | DevSurgicalLight _ => Raise (AttributeError "last_update")
    | _ => Raise NotImplementedError
    end.
Proof. intros H. unfold get_device_status. rewrite H. by destruct dev. Qed.

End DeviceServiceProperties.

Lemma connect_device_already_present_witness :
  DeviceService.connect_device
    (fun _ => Some (DeviceService.mkRecord "Bed 1" (Some "HeatingBed"))) 0
    (DeviceService.IdInt 5) SERIAL
    (DeviceService.mk
       {[ "5" := DeviceService.DevHeatingBed (HeatingBed.init "5" "Ward 3" SERIAL 0) ]}
       [])
  = (Return false,
     DeviceService.mk
       {[ "5" := DeviceService.DevHeatingBed (HeatingBed.init "5" "Ward 3" SERIAL 0) ]}
       []).
Proof.
  apply (connect_device_already_present
           (fun _ => Some (DeviceService.mkRecord "Bed 1" (Some "HeatingBed")))
           0 (DeviceService.IdInt 5) SERIAL).
  by eexists.
Defined.

(** C8 fails on the code: for a connected heating bed in the store,
    [get_device_status] raises in [get_status], which [HeatingBed] inherits
    from [BaseDevice]; for a connected surgical light it reads the status and
    the parameters and then raises on [device.last_update]; only for an id
    that is not in the store does it return, with nothing. *)
Theorem get_device_status_connected_raises :
  DeviceService.get_device_status (DeviceService.IdInt 5)
    (DeviceService.mk
       {[ "5" := DeviceService.DevHeatingBed
                   (snd (HeatingBed.connect (HeatingBed.init "5" "Ward 3" SERIAL 0))) ]}
       [])
  = Raise NotImplementedError
  /\ DeviceService.get_device_status (DeviceService.IdInt 7)
       (DeviceService.mk
          {[ "7" := DeviceService.DevSurgicalLight
                      (snd (SurgicalLight.connect (SurgicalLight.init "7" ETHERNET))) ]}
          [])
     = Raise (AttributeError "last_update")
  /\ DeviceService.get_device_status (DeviceService.IdInt 7)
       (DeviceService.mk ∅ [])
     = Return None.
Proof. by repeat split. Qed.

Section HeatingBedManagerProperties.
Import HeatingBedManager.

Local Arguments Qltb : simpl never.
Local Arguments Qabs : simpl never.
Local Arguments Qminus : simpl never.
Local Arguments Z.sub : simpl never.
Local Arguments Z.ltb : simpl never.

Lemma handle_temperature_alert_length d c t r stamp :
  length (handle_temperature_alert d c t r stamp)
  = match r with Some _ => 1%nat | None => 0%nat end.
Proof. by destruct r. Qed.

(** An iteration that observes the deviation, on a table that has the
    entry. *)
Lemma iter_deviating_tracked d o (alerts : gmap string AlertEntry) fd sent :
  alerts !! key d = Some (mkEntry fd sent) ->
  deviating o ->
  exists c t,
    monitor_temperature_iter d o alerts
    = if negb sent && (five_minutes <? t_check o - fd)
      then (<[key d := mkEntry fd true]> alerts,
            handle_temperature_alert d c t (row o) (t_stamp o), 30)
      else (alerts, [], 30).
Proof.
  intros Ha (c & t & Hf & Hdev). exists c, t.
  unfold monitor_temperature_iter. rewrite Hf. simpl.
  apply Qltb_true in Hdev. rewrite Hdev, Ha. simpl. rewrite Ha. reflexivity.
Qed.

(** On a table without the entry, the iteration first creates it. *)
Lemma iter_deviating_new d o (alerts : gmap string AlertEntry) :
  alerts !! key d = None ->
  deviating o ->
  monitor_temperature_iter d o alerts
  = monitor_temperature_iter d o
      (<[key d := mkEntry (t_detect o) false]> alerts).
Proof.
  intros Ha (c & t & Hf & Hdev).
  unfold monitor_temperature_iter. rewrite Hf. simpl.
  apply Qltb_true in Hdev. rewrite Hdev, Ha.
  by rewrite !lookup_insert_eq.
Qed.

(** An iteration that observes the deviation gone drops the entry and emits
    nothing. *)
Lemma iter_clear d o (alerts : gmap string AlertEntry) :
  clear o ->
  monitor_temperature_iter d o alerts = (delete (key d) alerts, [], 30).
Proof.
  intros (c & t & Hf & Hc).
  unfold monitor_temperature_iter. rewrite Hf. simpl.
  apply Qltb_false in Hc. by rewrite Hc.
Qed.

(** A run of polls that all observe the deviation, from a table that has
    the entry: the entry keeps its detection time; an alert is emitted only
    by a poll that reads the clock more than five minutes after it, and only
    if none was sent; at most one is emitted; and one is, when no alert was
    sent yet, the directory row is there and some poll reads such a clock. *)
Lemma run_tracked d fd (os : list observation) :
  forall (alerts : gmap string AlertEntry) sent,
    alerts !! key d = Some (mkEntry fd sent) ->
    Forall deviating os ->
    length (monitor_temperature d os alerts).2 = length os
    /\ (exists sent', (monitor_temperature d os alerts).1 !! key d
                      = Some (mkEntry fd sent'))
    /\ (forall k o e,
          os !! k = Some o ->
          (monitor_temperature d os alerts).2 !! k = Some e -> e <> [] ->
          sent = false /\ five_minutes < t_check o - fd)
    /\ (length (concat (monitor_temperature d os alerts).2)
        <= if sent then 0 else 1)%nat
    /\ (sent = false ->
        (forall o, o ∈ os -> is_Some (row o)) ->
        (exists o, o ∈ os /\ five_minutes < t_check o - fd) ->
        length (concat (monitor_temperature d os alerts).2) = 1%nat).
Proof.
  induction os as [|o os IH]; intros alerts sent Ha Hdev.
  - simpl. split; [done|]. split; [by eauto|]. split; [by intros []|].
    split; [destruct sent; lia|].
    intros _ _ (o & Ho & _). by inversion Ho.
  - apply Forall_cons in Hdev as [Ho Hos].
    destruct (iter_deviating_tracked d o alerts fd sent Ha Ho) as (c & t & Hit).
    simpl. rewrite Hit.
    destruct (negb sent && (five_minutes <? t_check o - fd)) eqn:Hfire.
    + apply andb_true_iff in Hfire as [Hs Hp].
      apply negb_true_iff in Hs. subst sent. apply Z.ltb_lt in Hp.
      destruct (IH (<[key d := mkEntry fd true]> alerts) true
                  (lookup_insert_eq _ _ _) Hos)
        as (Hlen & Hent & Hnone & Hle & _).
      destruct (monitor_temperature d os (<[key d := mkEntry fd true]> alerts))
        as [alerts2 rest] eqn:E. simpl in *.
      assert (Hrest : concat rest = []).
      { destruct (concat rest); [done|simpl in Hle; lia]. }
      split; [by rewrite Hlen|]. split; [done|]. split.
      { intros [|k] o' e Hk He Hne; simpl in *.
        - injection Hk as <-. by split.
        - destruct (Hnone k o' e Hk He Hne) as [? _]. discriminate. }
      rewrite Hrest, app_nil_r, handle_temperature_alert_length.
      split; [destruct (row o); lia|].
      intros _ Hrows _. destruct (Hrows o) as [r ->]; [left|done].
    + destruct (IH alerts sent Ha Hos) as (Hlen & Hent & Hnone & Hle & Hone).
      destruct (monitor_temperature d os alerts) as [alerts2 rest] eqn:E.
      simpl in *.
      split; [by rewrite Hlen|]. split; [done|]. split.
      { intros [|k] o' e Hk He Hne; simpl in *.
        - injection He as <-. done.
        - by apply (Hnone k o' e). }
      split; [done|].
      intros Hs Hrows (o' & Hin & Hp). apply Hone; [done| |].
      { intros x Hx. apply Hrows. by right. }
      apply elem_of_cons in Hin as [->|Hin]; [|by eauto].
      subst sent. simpl in Hfire. apply Z.ltb_ge in Hfire. lia.
Qed.

(** The same from a table without the entry: the first poll creates it with
    its own clock reading. *)
Lemma run_new d o0 (os : list observation) (alerts : gmap string AlertEntry) :
  alerts !! key d = None ->
  Forall deviating (o0 :: os) ->
  monitor_temperature d (o0 :: os) alerts
  = monitor_temperature d (o0 :: os)
      (<[key d := mkEntry (t_detect o0) false]> alerts).
Proof.
  intros Ha Hdev. apply Forall_cons in Hdev as [Ho _]. simpl.
  by rewrite (iter_deviating_new d o0 alerts Ha Ho).
Qed.

(** C1, as the code has it.  Take a table without an entry for the bed and a
    run of polls that all observe [|current - target| > 1.0]; call the first
    detection the clock reading of the first poll.  A poll emits an alert
    only if its clock reads more than five minutes after the first detection
    (at five minutes exactly it emits none); the run emits at most one
    alert; it emits exactly one when the bed's directory row is found at
    every poll and some poll reads a clock more than five minutes after the
    first detection.  A following poll that observes the deviation gone
    emits nothing and leaves the table without an entry for the bed, so
    that a recurrence is such a run again, counted from its own first
    detection. *)
Theorem heating_bed_debounce d o0 (os : list observation)
    (alerts : gmap string AlertEntry) :
  alerts !! key d = None ->
  Forall deviating (o0 :: os) ->
  (forall k o e,
      (o0 :: os) !! k = Some o ->
      (monitor_temperature d (o0 :: os) alerts).2 !! k = Some e -> e <> [] ->
      five_minutes < t_check o - t_detect o0)
  /\ (length (concat (monitor_temperature d (o0 :: os) alerts).2) <= 1)%nat
  /\ ((forall o, o ∈ o0 :: os -> is_Some (row o)) ->
      (exists o, o ∈ o0 :: os /\ five_minutes < t_check o - t_detect o0) ->
      length (concat (monitor_temperature d (o0 :: os) alerts).2) = 1%nat)
  /\ (forall oc (os' : list observation),
        clear oc ->
        (monitor_temperature d ((o0 :: os) ++ oc :: os') alerts).2
        = (monitor_temperature d (o0 :: os) alerts).2
          ++ [] :: (monitor_temperature d os'
                      (delete (key d)
                         (monitor_temperature d (o0 :: os) alerts).1)).2
        /\ delete (key d) (monitor_temperature d (o0 :: os) alerts).1 !! key d
           = None).
Proof.
  intros Ha Hdev. rewrite (run_new d o0 os alerts Ha Hdev).
  destruct (run_tracked d (t_detect o0) (o0 :: os)
              (<[key d := mkEntry (t_detect o0) false]> alerts) false
              (lookup_insert_eq _ _ _) Hdev)
    as (Hlen & Hent & Hnone & Hle & Hone).
  split; [intros k o e Hk He Hne; by apply (Hnone k o e)|].
  split; [done|]. split; [by apply Hone|].
  intros oc os' Hc. split; [|apply lookup_delete_eq].
  rewrite <- (run_new d o0 os alerts Ha Hdev).
  generalize (o0 :: os) alerts. clear -Hc.
  induction l as [|x l IH]; intros a.
  - simpl. rewrite (iter_clear d oc a Hc).
    by destruct (monitor_temperature d os' (delete (key d) a)).
  - simpl. destruct (monitor_temperature_iter d x a) as [[a1 e1] s1].
    specialize (IH a1).
    destruct (monitor_temperature d (l ++ oc :: os') a1) as [a2 r2].
    destruct (monitor_temperature d l a1) as [a3 r3]. simpl in *.
    by rewrite IH.
Qed.

End HeatingBedManagerProperties.

Lemma heating_bed_debounce_witness :
  (∅ : gmap string HeatingBedManager.AlertEntry) !! HeatingBedManager.key 1 = None
  /\ Forall HeatingBedManager.deviating
       [Sample.bed_poll 40 37 0; Sample.bed_poll 40 37 (301 * second)]
  /\ length (concat (HeatingBedManager.monitor_temperature 1
                       [Sample.bed_poll 40 37 0;
                        Sample.bed_poll 40 37 (301 * second)] ∅).2) = 1%nat.
Proof.
  assert (Hdev : Forall HeatingBedManager.deviating
                   [Sample.bed_poll 40 37 0; Sample.bed_poll 40 37 (301 * second)]).
  { repeat constructor; exists 40%Q, 37%Q; by split. }
  split; [done|]. split; [exact Hdev|].
  apply (heating_bed_debounce 1 (Sample.bed_poll 40 37 0)
           [Sample.bed_poll 40 37 (301 * second)] ∅ (lookup_empty _) Hdev).
  - intros o Ho. apply elem_of_cons in Ho as [->|Ho]; [by eexists|].
    apply elem_of_cons in Ho as [->|Ho]; [by eexists|]. by inversion Ho.
  - exists (Sample.bed_poll 40 37 (301 * second)). split; [|by vm_compute].
    right. left.
Defined.

(** C1, as stated, fails at the boundary: a deviation of 1.5 degrees observed
    at a first poll and again exactly five minutes later has been sustained
    for at least five minutes, and no alert is emitted. *)
Lemma no_alert_at_exactly_five_minutes :
  Forall HeatingBedManager.deviating
    [Sample.bed_poll 38.5 37 0; Sample.bed_poll 38.5 37 five_minutes]
  /\ five_minutes
     <= HeatingBedManager.t_check (Sample.bed_poll 38.5 37 five_minutes)
        - HeatingBedManager.t_detect (Sample.bed_poll 38.5 37 0)
  /\ concat (HeatingBedManager.monitor_temperature 1
               [Sample.bed_poll 38.5 37 0;
                Sample.bed_poll 38.5 37 five_minutes] ∅).2 = [].
Proof.
  split; [|split; [by vm_compute|by vm_compute]].
  repeat constructor; exists 38.5%Q, 37%Q; by split.
Qed.

Section SterilizerManagerProperties.
Import SterilizerManager.

Local Arguments Qltb : simpl never.
Local Arguments Qabs : simpl never.
Local Arguments Qminus : simpl never.

Lemma truthy_num_true (x : option Q) :
  truthy_num x = true <-> exists q, x = Some q /\ ~ (q == 0)%Q.
Proof.
  destruct x as [q|]; simpl.
  - rewrite negb_true_iff. split.
    + intros H. exists q. split; [done|]. intros Hq.
      apply Qeq_bool_iff in Hq. congruence.
    + intros (q' & [= <-] & Hq). destruct (Qeq_bool q 0) eqn:E; [|done].
      apply Qeq_bool_iff in E. contradiction.
  - split; [discriminate|]. by intros (q & ? & _).
Qed.

Lemma truthy_num_false (x : option Q) :
  truthy_num x = false <-> x = None \/ exists q, x = Some q /\ (q == 0)%Q.
Proof.
  destruct x as [q|]; simpl.
  - rewrite negb_false_iff, Qeq_bool_iff. split.
    + intros H. right. by exists q.
    + intros [?|(q' & [= <-] & Hq)]; done.
  - split; [by left|done].
Qed.

Lemma handle_cycle_alert_row d td pd info r stamp :
  exists a, handle_cycle_alert d td pd info (Some r) stamp = [a].
Proof. by eexists. Qed.

(** An iteration that emits read an active cycle with the four readings
    present and non-zero. *)
Lemma monitor_cycle_iter_emits d o :
  (monitor_cycle_iter d o).1 <> [] ->
  truthy_num (current_temperature (readings o)) = true
  /\ truthy_num (target_temperature (readings o)) = true
  /\ truthy_num (current_pressure (readings o)) = true
  /\ truthy_num (target_pressure (readings o)) = true.
Proof.
  unfold monitor_cycle_iter, readings.
  destruct (fetch o) as [e| |[params|]]; try done.
  destruct (cycle_active params); [|done].
  destruct (truthy_num (current_temperature _)); [|done].
  destruct (truthy_num (target_temperature _)); [|done].
  destruct (truthy_num (current_pressure _)); [|done].
  destruct (truthy_num (target_pressure _)); done.
Qed.

(** An iteration that observes the deviation emits one record when the
    directory row is found. *)
Lemma monitor_cycle_iter_deviating d o :
  deviating o -> is_Some (row o) ->
  length (monitor_cycle_iter d o).1 = 1%nat.
Proof.
  intros (info & tc & tg & pc & pg & Hf & Htc & Htg & Hpc & Hpg
          & Ntc & Ntg & Npc & Npg & Hdev) [r Hr].
  unfold monitor_cycle_iter. rewrite Hf. simpl. rewrite Htc, Htg, Hpc, Hpg.
  assert (forall q, ~ (q == 0)%Q -> truthy_num (Some q) = true) as Ht.
  { intros q Hq. apply truthy_num_true. by exists q. }
  rewrite !Ht by done. simpl.
  assert (Qltb 2 (Qabs (tc - tg)) || Qltb float_0_2 (Qabs (pc - pg)) = true) as ->.
  { apply orb_true_iff. destruct Hdev; [left|right]; by apply Qltb_true. }
  by rewrite Hr.
Qed.

(** C10. In an iteration of the sterilizer loop, if any of current
    temperature, target temperature, current pressure and target pressure is
    missing or equal to zero, no alert is emitted, whatever the other
    readings are; an iteration that emits an alert has read all four present
    and non-zero. *)
Theorem cycle_rule_needs_all_readings d (o : observation) :
  let missing_or_zero (x : option Q) :=
    x = None \/ exists q, x = Some q /\ (q == 0)%Q in
  let present_nonzero (x : option Q) :=
    exists q, x = Some q /\ ~ (q == 0)%Q in
  (missing_or_zero (current_temperature (readings o))
   \/ missing_or_zero (target_temperature (readings o))
   \/ missing_or_zero (current_pressure (readings o))
   \/ missing_or_zero (target_pressure (readings o)) ->
   (monitor_cycle_iter d o).1 = [])
  /\ ((monitor_cycle_iter d o).1 <> [] ->
      present_nonzero (current_temperature (readings o))
      /\ present_nonzero (target_temperature (readings o))
      /\ present_nonzero (current_pressure (readings o))
      /\ present_nonzero (target_pressure (readings o))).
Proof.
  intros missing_or_zero present_nonzero. split.
  - intros H.
    destruct ((monitor_cycle_iter d o).1) as [|a l] eqn:E; [done|].
    destruct (monitor_cycle_iter_emits d o) as (H1 & H2 & H3 & H4).
    { by rewrite E. }
    destruct H as [H|[H|[H|H]]]; apply truthy_num_false in H; congruence.
  - intros H.
    destruct (monitor_cycle_iter_emits d o H) as (H1 & H2 & H3 & H4).
    repeat split; by apply truthy_num_true.
Qed.

End SterilizerManagerProperties.

Lemma cycle_rule_needs_all_readings_witness :
  SterilizerManager.target_pressure
    (SterilizerManager.readings (Sample.cycle_poll 150 134 2.1 0 0))
  = Some 0%Q
  /\ (SterilizerManager.monitor_cycle_iter 3 (Sample.cycle_poll 150 134 2.1 0 0)).1
     = [].
Proof.
  split; [reflexivity|].
  apply (cycle_rule_needs_all_readings 3 (Sample.cycle_poll 150 134 2.1 0 0)).
  right. right. right. right. exists 0%Q. by split.
Defined.

Section MonitorLoopProperties.

Local Arguments Qltb : simpl never.
Local Arguments Qabs : simpl never.
Local Arguments Qminus : simpl never.
Local Arguments Z.sub : simpl never.
Local Arguments Z.mul : simpl never.
Local Arguments Z.leb : simpl never.

(** The heating-bed loop, from any table: polls that all observe the
    deviation emit at most one alert between them. *)
Lemma heating_bed_at_most_one d (os : list HeatingBedManager.observation)
    (alerts : gmap string HeatingBedManager.AlertEntry) :
  Forall HeatingBedManager.deviating os ->
  (length (concat (HeatingBedManager.monitor_temperature d os alerts).2) <= 1)%nat.
Proof.
  intros Hdev.
  destruct (alerts !! HeatingBedManager.key d) as [[fd sent]|] eqn:Ha.
  - destruct (run_tracked d fd os alerts sent Ha Hdev) as (_ & _ & _ & Hle & _).
    destruct sent; lia.
  - destruct os as [|o0 os]; [simpl; lia|].
    rewrite (run_new d o0 os alerts Ha Hdev).
    by destruct (run_tracked d (HeatingBedManager.t_detect o0) (o0 :: os)
                   (<[HeatingBedManager.key d :=
                        HeatingBedManager.mkEntry (HeatingBedManager.t_detect o0)
                          false]> alerts)
                   false (lookup_insert_eq _ _ _) Hdev)
      as (_ & _ & _ & Hle & _).
Qed.

(** The phototherapy loop keeps nothing between polls: an iteration that
    observes the intensity off target emits the alert, each time. *)
Lemma monitor_session_iter_deviating d (o : PhototherapyManager.observation) :
  PhototherapyManager.deviating o -> is_Some (PhototherapyManager.row o) ->
  (1 <= length (PhototherapyManager.monitor_session_iter d o).1)%nat.
Proof.
  intros (info & start & mins & current & Hf & Hs & Hm & Hdev) [r Hr].
  unfold PhototherapyManager.monitor_session_iter. rewrite Hf. simpl.
  rewrite Hs, Hm. simpl. apply Qltb_true in Hdev. rewrite Hdev, Hr.
  rewrite length_app. simpl. lia.
Qed.

(** The surgical-light loop hands nothing to an alert sink. *)
Lemma monitor_light_iter_no_record d (o : SurgicalLightManager.observation) :
  (SurgicalLightManager.monitor_light_iter d o).1.1 = [].
Proof.
  unfold SurgicalLightManager.monitor_light_iter.
  destruct (SurgicalLightManager.fetch o) as [e| |[[[q|]]|]]; try done.
  simpl. by destruct (Qltb q 10).
Qed.

Lemma monitor_light_iter_prints d (o : SurgicalLightManager.observation) q :
  SurgicalLightManager.fetch o
  = FetchStatus (Some (SurgicalLightManager.mkParams (Some q))) ->
  (q < 10)%Q ->
  (SurgicalLightManager.monitor_light_iter d o).1.2
  = [SurgicalLightManager.mkPrinted d "low_intensity" q].
Proof.
  intros Hf Hq. unfold SurgicalLightManager.monitor_light_iter.
  rewrite Hf. simpl. apply Qltb_true in Hq. by rewrite Hq.
Qed.

(** C3, as the code has it.  Only the heating-bed loop keeps a record of the
    alert it sent: over polls that all observe the deviation it emits at
    most one alert record.  The sterilizer loop and the phototherapy loop
    keep no state between polls: every poll that observes the condition
    (with the directory row found) emits an alert record again, exactly one
    for the sterilizer and at least one for the phototherapy light.  The
    surgical-light loop emits no alert record at all; every poll that reads
    an intensity below 10 prints one line. *)
Theorem one_alert_per_onset_heating_bed_only d :
  (forall (os : list HeatingBedManager.observation) alerts,
      Forall HeatingBedManager.deviating os ->
      (length (concat (HeatingBedManager.monitor_temperature d os alerts).2)
       <= 1)%nat)
  /\ (forall os : list SterilizerManager.observation,
      Forall SterilizerManager.deviating os ->
      Forall (fun o => is_Some (SterilizerManager.row o)) os ->
      Forall (fun e => length e = 1%nat) (SterilizerManager.monitor_cycle d os))
  /\ (forall os : list PhototherapyManager.observation,
      Forall PhototherapyManager.deviating os ->
      Forall (fun o => is_Some (PhototherapyManager.row o)) os ->
      Forall (fun e => (1 <= length e)%nat)
             (PhototherapyManager.monitor_session d os))
  /\ (forall os : list SurgicalLightManager.observation,
      concat (SurgicalLightManager.monitor_light d os).1 = []
      /\ (Forall (fun o => exists q,
                    SurgicalLightManager.fetch o
                    = FetchStatus (Some (SurgicalLightManager.mkParams (Some q)))
                    /\ (q < 10)%Q) os ->
          Forall (fun p => length p = 1%nat)
                 (SurgicalLightManager.monitor_light d os).2)).
Proof.
  split; [intros; by apply heating_bed_at_most_one|].
  split.
  { intros os Hdev Hrow. unfold SterilizerManager.monitor_cycle.
    induction os as [|o os IH]; [constructor|].
    apply Forall_cons in Hdev as [Ho Hos].
    apply Forall_cons in Hrow as [Hr Hrs].
    simpl. constructor; [by apply monitor_cycle_iter_deviating|by apply IH]. }
  split.
  { intros os Hdev Hrow. unfold PhototherapyManager.monitor_session.
    induction os as [|o os IH]; [constructor|].
    apply Forall_cons in Hdev as [Ho Hos].
    apply Forall_cons in Hrow as [Hr Hrs].
    simpl. constructor; [by apply monitor_session_iter_deviating|by apply IH]. }
  intros os. unfold SurgicalLightManager.monitor_light. simpl. split.
  - induction os as [|o os IH]; [done|].
    simpl. by rewrite monitor_light_iter_no_record, IH.
  - intros Hlow. induction os as [|o os IH]; [constructor|].
    apply Forall_cons in Hlow as [(q & Hf & Hq) Hos].
    simpl. constructor; [|by apply IH].
    by rewrite (monitor_light_iter_prints d o q Hf Hq).
Qed.

End MonitorLoopProperties.

Lemma sample_cycle_poll_deviating now :
  SterilizerManager.deviating (Sample.cycle_poll 140 134 2.1 2.1 now).
Proof.
  exists (SterilizerManager.mkInfo (Some "c-1") (Some 140%Q) (Some 134%Q)
            (Some 2.1%Q) (Some 2.1%Q)), 140%Q, 134%Q, 2.1%Q, 2.1%Q.
  repeat split; try done. by left.
Qed.

Lemma one_alert_per_onset_heating_bed_only_witness :
  Forall SterilizerManager.deviating
    [Sample.cycle_poll 140 134 2.1 2.1 0;
     Sample.cycle_poll 140 134 2.1 2.1 (10 * second)]
  /\ Forall (fun e => length e = 1%nat)
       (SterilizerManager.monitor_cycle 3
          [Sample.cycle_poll 140 134 2.1 2.1 0;
           Sample.cycle_poll 140 134 2.1 2.1 (10 * second)]).
Proof.
  assert (Hdev : Forall SterilizerManager.deviating
                   [Sample.cycle_poll 140 134 2.1 2.1 0;
                    Sample.cycle_poll 140 134 2.1 2.1 (10 * second)]).
  { repeat constructor; apply sample_cycle_poll_deviating. }
  split; [exact Hdev|].
  apply (one_alert_per_onset_heating_bed_only 3); [exact Hdev|].
  repeat constructor; by eexists.
Defined.

(** C3, as stated, fails for the sterilizer: a temperature six degrees off
    target, observed at two consecutive polls, is one onset and gives two
    alert records. *)
Lemma sterilizer_alert_at_every_poll :
  Forall SterilizerManager.deviating
    [Sample.cycle_poll 140 134 2.1 2.1 0;
     Sample.cycle_poll 140 134 2.1 2.1 (10 * second)]
  /\ length (concat (SterilizerManager.monitor_cycle 3
                       [Sample.cycle_poll 140 134 2.1 2.1 0;
                        Sample.cycle_poll 140 134 2.1 2.1 (10 * second)]))
     = 2%nat.
Proof.
  split; [|by vm_compute].
  repeat constructor; apply sample_cycle_poll_deviating.
Qed.

Section AlertTableProperties.
Import HeatingBedManager.

Local Arguments Qltb : simpl never.
Local Arguments Qabs : simpl never.
Local Arguments Qminus : simpl never.
Local Arguments Z.sub : simpl never.
Local Arguments Z.ltb : simpl never.

(** An iteration for one bed leaves every other key of the table alone. *)
Lemma iter_other_key d o (alerts : gmap string AlertEntry) k :
  k <> key d ->
  (monitor_temperature_iter d o alerts).1.1 !! k = alerts !! k.
Proof.
  intros Hk. unfold monitor_temperature_iter.
  destruct (fetch o) as [e| |[[[c|] [t|]]|]]; try done. simpl.
  destruct (Qltb 1 (Qabs (c - t))); [|simpl; by rewrite lookup_delete_ne].
  destruct (alerts !! key d) as [a|] eqn:Ha.
  - rewrite Ha. destruct (negb (alert_sent a) && _); simpl; [|done].
    by rewrite lookup_insert_ne.
  - rewrite lookup_insert_eq. simpl.
    destruct (five_minutes <? t_check o - t_detect o); simpl;
      by rewrite ?lookup_insert_ne.
Qed.

(** An iteration gives the table an entry it did not have only when it
    observes the deviation, and the entry carries the iteration's own
    detection time. *)
Lemma iter_creates d o (alerts : gmap string AlertEntry) e :
  alerts !! key d = None ->
  (monitor_temperature_iter d o alerts).1.1 !! key d = Some e ->
  deviating o /\ first_detected e = t_detect o.
Proof.
  intros Ha. unfold monitor_temperature_iter.
  destruct (fetch o) as [x| |[[[c|] [t|]]|]] eqn:Hf; simpl;
    try (rewrite Ha; discriminate).
  destruct (Qltb 1 (Qabs (c - t))) eqn:Hdev;
    [|simpl; rewrite lookup_delete_eq; discriminate].
  rewrite Ha, lookup_insert_eq. simpl.
  intros He. split.
  - exists c, t. split; [done|]. by apply Qltb_true.
  - destruct (five_minutes <? t_check o - t_detect o); simpl in He;
      rewrite lookup_insert_eq in He; by injection He as <-.
Qed.

Lemma step_tracked_only_monitored ev (m : t) :
  tracked_only_monitored m -> tracked_only_monitored (step ev m).
Proof.
  intros Hinv k e. destruct ev as [d|d o|d]; simpl.
  - unfold start_temperature_monitoring. case_bool_decide; simpl.
    + apply Hinv.
    + intros Hx. destruct (Hinv k e Hx) as [Hk Hd].
      split; [by apply elem_of_union_r|done].
  - case_bool_decide as Hd; simpl; [|apply Hinv].
    destruct (decide (k = key d)) as [->|Hne].
    + intros _. split; [done|by exists d].
    + rewrite iter_other_key by done. apply Hinv.
  - unfold stop_monitoring. case_bool_decide as Hd; simpl; [|apply Hinv].
    destruct (decide (k = key d)) as [->|Hne].
    + by rewrite lookup_delete_eq.
    + rewrite lookup_delete_ne by done. intros Hx.
      destruct (Hinv k e Hx) as [Hk Hy]. split; [|done].
      apply elem_of_difference. split; [done|]. by rewrite elem_of_singleton.
Qed.

Lemma run_tracked_only_monitored evs : forall m : t,
  tracked_only_monitored m -> tracked_only_monitored (run evs m).
Proof.
  unfold run. induction evs as [|ev evs IH]; intros m Hm; [done|].
  simpl. apply IH. by apply step_tracked_only_monitored.
Qed.

Lemma init_tracked_only_monitored : tracked_only_monitored init.
Proof. intros k e H. simpl in H. by rewrite lookup_empty in H. Qed.

(** In a list of pairs with distinct first components, at most one pair has
    a given first component. *)
Lemma at_most_one_with_key {V} (l : list (string * V)) (k : string) :
  NoDup l.*1 ->
  (length (filter (fun kv => kv.1 = k) l) <= 1)%nat.
Proof.
  induction l as [|[k' v] l IH]; intros Hnd; [simpl; lia|].
  simpl in Hnd. apply NoDup_cons in Hnd as [Hfresh Hnd].
  rewrite filter_cons. simpl. case_decide as Hk; [|by apply IH].
  subst k'. simpl.
  assert (filter (fun kv : string * V => kv.1 = k) l = []) as ->; [|simpl; lia].
  destruct (filter (fun kv : string * V => kv.1 = k) l) as [|[k2 v2] r] eqn:E;
    [done|].
  assert (Hin : (k2, v2) ∈ filter (fun kv : string * V => kv.1 = k) l).
  { rewrite E. left. }
  apply list_elem_of_filter in Hin as [Heq Hin]. simpl in Heq. subst k2.
  exfalso. apply Hfresh. apply list_elem_of_fmap. by exists (k, v2).
Qed.

(** An iteration that observes the deviation leaves an entry for the bed:
    the one that was there, with its detection time, or a new one stamped
    with the iteration's own. *)
Lemma iter_deviating_entry d o (alerts : gmap string AlertEntry) :
  deviating o ->
  exists e,
    (monitor_temperature_iter d o alerts).1.1 !! key d = Some e
    /\ first_detected e
       = match alerts !! key d with
         | Some e0 => first_detected e0
         | None => t_detect o
         end.
Proof.
  intros Hdev.
  assert (Htracked : forall (al : gmap string AlertEntry) fd sent,
            al !! key d = Some (mkEntry fd sent) ->
            exists e, (monitor_temperature_iter d o al).1.1 !! key d = Some e
                      /\ first_detected e = fd).
  { intros al fd sent Hal.
    destruct (iter_deviating_tracked d o al fd sent Hal Hdev) as (c & t & ->).
    destruct (negb sent && _); simpl.
    - rewrite lookup_insert_eq. by eexists.
    - rewrite Hal. by eexists. }
  destruct (alerts !! key d) as [[fd sent]|] eqn:Ha.
  - by apply (Htracked alerts fd sent).
  - rewrite (iter_deviating_new d o alerts Ha Hdev).
    apply (Htracked _ (t_detect o) false). apply lookup_insert_eq.
Qed.

(** C9. At every state the heating-bed manager reaches from its initial
    state by starting monitor tasks, running iterations of existing tasks
    and stopping monitoring: the alert table holds at most one entry for
    each bed, every entry belongs to a bed with a monitor task, and an
    iteration for one bed touches no other bed's entry; an iteration of a
    monitored bed that observes the deviation leaves an entry for the bed,
    a new one stamped with that iteration's detection time when there was
    none (the first detection) and otherwise the one that was there with
    its detection time; a step creates an entry only in that way; an
    iteration that observes the deviation gone leaves no entry for the bed;
    and after [stop_monitoring] the bed has neither entry nor task. *)
Theorem alert_table_invariant (evs : list event) :
  let m := run evs init in
  (forall d,
      (length (filter (fun kv => kv.1 = key d)
                      (map_to_list (temperature_alerts m))) <= 1)%nat)
  /\ (forall k e, temperature_alerts m !! k = Some e ->
                  k ∈ monitoring_tasks m /\ exists d, k = key d)
  /\ (forall d d' o, d <> d' ->
        temperature_alerts (step (Poll d o) m) !! key d'
        = temperature_alerts m !! key d')
  /\ (forall d o, key d ∈ monitoring_tasks m -> deviating o ->
        exists e,
          temperature_alerts (step (Poll d o) m) !! key d = Some e
          /\ first_detected e
             = match temperature_alerts m !! key d with
               | Some e0 => first_detected e0
               | None => t_detect o
               end)
  /\ (forall ev k e,
        temperature_alerts m !! k = None ->
        temperature_alerts (step ev m) !! k = Some e ->
        exists d o, ev = Poll d o /\ k = key d /\ deviating o
                    /\ first_detected e = t_detect o)
  /\ (forall d o, key d ∈ monitoring_tasks m -> clear o ->
        temperature_alerts (step (Poll d o) m) !! key d = None)
  /\ (forall d,
        temperature_alerts (step (Stop d) m) !! key d = None
        /\ key d ∉ monitoring_tasks (step (Stop d) m)).
Proof.
  intros m.
  assert (Hinv : tracked_only_monitored m).
  { apply run_tracked_only_monitored, init_tracked_only_monitored. }
  split.
  { intros d. apply at_most_one_with_key, NoDup_fst_map_to_list. }
  split; [exact Hinv|].
  split.
  { intros d d' o Hne. simpl. case_bool_decide; [|done]. simpl.
    apply iter_other_key. unfold key. intros Heq.
    apply Hne. symmetry. by apply (inj pretty). }
  split.
  { intros d o Hd Hdev. simpl. rewrite bool_decide_eq_true_2 by done. simpl.
    by apply iter_deviating_entry. }
  split.
  { intros ev k e Hnone Hsome. destruct ev as [d|d o|d]; simpl in Hsome.
    - unfold start_temperature_monitoring in Hsome.
      case_bool_decide; simpl in Hsome; congruence.
    - case_bool_decide; simpl in Hsome; [|congruence].
      destruct (decide (k = key d)) as [->|Hne].
      + destruct (iter_creates d o _ e Hnone Hsome) as [Hdev Hfd].
        by exists d, o.
      + rewrite iter_other_key in Hsome by done. congruence.
    - unfold stop_monitoring in Hsome.
      case_bool_decide; simpl in Hsome; [|congruence].
      destruct (decide (k = key d)) as [->|Hne].
      + by rewrite lookup_delete_eq in Hsome.
      + rewrite lookup_delete_ne in Hsome by done. congruence. }
  split.
  { intros d o Hd Hc. simpl. rewrite bool_decide_eq_true_2 by done. simpl.
    rewrite (iter_clear d o _ Hc). simpl. apply lookup_delete_eq. }
  intros d. simpl. unfold stop_monitoring. case_bool_decide as Hd; simpl.
  - split; [apply lookup_delete_eq|].
    rewrite elem_of_difference, elem_of_singleton. by intros [_ Hn].
  - split; [|done].
    destruct (temperature_alerts m !! key d) as [e|] eqn:E; [|done].
    by destruct (Hinv _ _ E).
Qed.

End AlertTableProperties.

Lemma alert_table_invariant_witness :
  HeatingBedManager.key 1
    ∈ HeatingBedManager.monitoring_tasks
        (HeatingBedManager.run [HeatingBedManager.Start 1]
           HeatingBedManager.init)
  /\ HeatingBedManager.deviating (Sample.bed_poll 40 37 0)
  /\ (exists e,
        HeatingBedManager.temperature_alerts
          (HeatingBedManager.step
             (HeatingBedManager.Poll 1 (Sample.bed_poll 40 37 0))
             (HeatingBedManager.run [HeatingBedManager.Start 1]
                HeatingBedManager.init))
        !! HeatingBedManager.key 1 = Some e
        /\ HeatingBedManager.first_detected e
           = HeatingBedManager.t_detect (Sample.bed_poll 40 37 0))
  /\ HeatingBedManager.clear (Sample.bed_poll 37 37 (30 * second))
  /\ HeatingBedManager.temperature_alerts
       (HeatingBedManager.step
          (HeatingBedManager.Poll 1 (Sample.bed_poll 37 37 (30 * second)))
          (HeatingBedManager.run
             [HeatingBedManager.Start 1;
              HeatingBedManager.Poll 1 (Sample.bed_poll 40 37 0)]
             HeatingBedManager.init))
     !! HeatingBedManager.key 1 = None.
Proof.
  assert (Htask : HeatingBedManager.key 1
            ∈ HeatingBedManager.monitoring_tasks
                (HeatingBedManager.run [HeatingBedManager.Start 1]
                   HeatingBedManager.init)).
  { by vm_compute. }
  assert (Htask2 : HeatingBedManager.key 1
            ∈ HeatingBedManager.monitoring_tasks
                (HeatingBedManager.run
                   [HeatingBedManager.Start 1;
                    HeatingBedManager.Poll 1 (Sample.bed_poll 40 37 0)]
                   HeatingBedManager.init)).
  { by vm_compute. }
  assert (Hdev : HeatingBedManager.deviating (Sample.bed_poll 40 37 0)).
  { exists 40%Q, 37%Q. by split. }
  assert (Hclear : HeatingBedManager.clear (Sample.bed_poll 37 37 (30 * second))).
  { exists 37%Q, 37%Q. by split. }
  split; [exact Htask|]. split; [exact Hdev|].
  split.
  - destruct (alert_table_invariant [HeatingBedManager.Start 1])
      as (_ & _ & _ & Hmakes & _).
    exact (Hmakes 1 (Sample.bed_poll 40 37 0) Htask Hdev).
  - split; [exact Hclear|].
    destruct (alert_table_invariant
                [HeatingBedManager.Start 1;
                 HeatingBedManager.Poll 1 (Sample.bed_poll 40 37 0)])
      as (_ & _ & _ & _ & _ & Hgone & _).
    exact (Hgone 1 (Sample.bed_poll 37 37 (30 * second)) Htask2 Hclear).
Defined.

(** * Further properties of the device classes *)

Section HeatingBedHistories.
Import HeatingBed.

Local Arguments Qltb : simpl never.

Lemma within_limits_intro (self : t) :
  min_temp self = 20%Q -> max_temp self = 42%Q -> is_heating self = false ->
  target_temperature self = NaN
  \/ finite_between 20 42 (target_temperature self) ->
  finite_between 19.9 37 (current_temperature self) ->
  within_limits self.
Proof. intros. by repeat split. Qed.

Lemma exec_within_limits (c : call) (self : t) :
  within_limits self -> within_limits (exec c self).
Proof.
  intros Hs. pose proof Hs as ([Hmin Hmax] & Hh & Ht & Hcur).
  destruct c as [| | |temp| |]; simpl.
  - by apply within_limits_intro.
  - by apply within_limits_intro.
  - unfold get_temperature.
    by destruct (negb (status_eqb (status self) CONNECTED)).
  - unfold set_temperature. rewrite Hmin, Hmax.
    destruct temp as [q| | |]; simpl; try done.
    + destruct (Qltb q 20) eqn:E1; simpl; [done|].
      destruct (Qltb 42 q) eqn:E2; simpl; [done|].
      apply Qltb_false in E1, E2.
      apply within_limits_intro; simpl; try done. right. by exists q.
    + apply within_limits_intro; simpl; try done. by left.
  - apply within_limits_intro; simpl; try done.
    + right. exists 37%Q. repeat split; [lra|lra].
    + exists 37%Q. repeat split; [lra|lra].
  - unfold monitor_loop.
    destruct (negb (status_eqb (status self) ERROR)); [|done].
    rewrite Hh. simpl. destruct Hcur as (cur & Hc & Hc1 & Hc2).
    destruct Ht as [Ht|(q & Ht & Hq1 & Hq2)]; rewrite Ht, Hc; simpl.
    + apply within_limits_intro; simpl; try done; [by left|by exists cur].
    + destruct (Qltb q cur) eqn:E; simpl.
      * apply Qltb_true in E. apply within_limits_intro; simpl; try done.
        -- right. by exists q.
        -- exists (cur + - 0.1)%Q. repeat split; [lra|lra].
      * apply within_limits_intro; simpl; try done;
          [right; by exists q|by exists cur].
Qed.

Lemma init_within_limits name loc ct now : within_limits (init name loc ct now).
Proof.
  apply within_limits_intro; simpl; try done.
  - right. exists 37%Q. repeat split; [lra|lra].
  - exists 37%Q. repeat split; [lra|lra].
Qed.

Lemma run_within_limits (cs : list call) : forall self,
  within_limits self -> within_limits (run cs self).
Proof.
  unfold run. induction cs as [|c cs IH]; intros self Hs; [done|].
  simpl. apply IH. by apply exec_within_limits.
Qed.

(** A call other than [set_temperature(nan)] keeps a target that is within
    the limits within them. *)
Lemma exec_target_in_range (c : call) (self : t) :
  c <> SetTemperature NaN ->
  limits_as_built self ->
  finite_between 20 42 (target_temperature self) ->
  finite_between 20 42 (target_temperature (exec c self)).
Proof.
  intros Hc [Hmin Hmax] Ht. destruct c as [| | |temp| |]; simpl; try done.
  - unfold get_temperature.
    by destruct (negb (status_eqb (status self) CONNECTED)).
  - unfold set_temperature. rewrite Hmin, Hmax.
    destruct temp as [q| | |]; simpl; try done.
    destruct (Qltb q 20) eqn:E1; simpl; [done|].
    destruct (Qltb 42 q) eqn:E2; simpl; [done|].
    apply Qltb_false in E1, E2. by exists q.
  - exists 37%Q. repeat split; [lra|lra].
  - unfold monitor_loop.
    destruct (negb (status_eqb (status self) ERROR)); [|done].
    by repeat case_match.
Qed.

Lemma run_target_in_range (cs : list call) : forall self,
  SetTemperature NaN ∉ cs ->
  within_limits self ->
  finite_between 20 42 (target_temperature self) ->
  finite_between 20 42 (target_temperature (run cs self)).
Proof.
  unfold run. induction cs as [|c cs IH]; intros self Hn Hs Ht; [done|].
  apply not_elem_of_cons in Hn as [Hc Hn]. simpl.
  apply IH; [done|by apply exec_within_limits|].
  apply exec_target_in_range; [done|by destruct Hs|done].
Qed.

(** X1. Whatever calls are made on a bed after its construction
    ([initialize], [connect], [get_temperature], [set_temperature] with any
    value, [reset], [_monitor_loop]), the safety limits stay 20 and 42, the
    heater flag stays off, the simulated temperature stays between 19.9 and
    37 (so a temperature that [get_temperature] returns is in that band),
    and the target temperature is within the limits or NaN: it is within
    them when no [set_temperature(nan)] was among the calls, and it is NaN
    right after one. *)
Theorem heating_bed_stays_within_limits (cs : list call) name loc ct now :
  within_limits (run cs (init name loc ct now))
  /\ (SetTemperature NaN ∉ cs ->
      finite_between 20 42
        (target_temperature (run cs (init name loc ct now))))
  /\ target_temperature
       (run (cs ++ [SetTemperature NaN]) (init name loc ct now)) = NaN
  /\ (forall v,
        fst (get_temperature (run cs (init name loc ct now))) = Return v ->
        finite_between 19.9 37 v).
Proof.
  assert (H : within_limits (run cs (init name loc ct now))).
  { apply run_within_limits, init_within_limits. }
  split; [exact H|]. split; [|split].
  - intros Hn. apply run_target_in_range; [done|apply init_within_limits|].
    exists 37%Q. repeat split; [lra|lra].
  - unfold run. rewrite foldl_app. simpl. unfold set_temperature.
    fold (run cs (init name loc ct now)). by simpl.
  - intros v. unfold get_temperature.
    destruct (negb (status_eqb (status _) CONNECTED)); [discriminate|].
    simpl. intros [= <-]. by destruct H as (_ & _ & _ & ?).
Qed.

(** X2. Reading needs a connection and writing does not: after [reset] (or
    [initialize]) [get_temperature] raises until [connect] is called, and
    after [reset] then [connect] it returns 37; whether [set_temperature]
    succeeds does not depend on the status of the bed. *)
Theorem heating_bed_read_needs_connection (self : t) :
  fst (get_temperature (snd (reset self)))
  = Raise (RuntimeError (Msg "Device not connected"))
  /\ fst (get_temperature (snd (initialize self)))
     = Raise (RuntimeError (Msg "Device not connected"))
  /\ fst (get_temperature (snd (connect (snd (reset self)))))
     = Return (Finite 37)
  /\ (forall v, fst (get_temperature self) = Return v ->
                status self = CONNECTED /\ v = current_temperature self)
  /\ (forall temp s,
        fst (set_temperature temp (set_status s self))
        = fst (set_temperature temp self)
        /\ target_temperature (snd (set_temperature temp (set_status s self)))
           = target_temperature (snd (set_temperature temp self))).
Proof.
  split; [done|]. split; [done|]. split; [done|]. split.
  - intros v. unfold get_temperature.
    destruct (status self); simpl; try discriminate. by intros [= <-].
  - intros temp s. unfold set_temperature.
    change (min_temp (set_status s self)) with (min_temp self).
    change (max_temp (set_status s self)) with (max_temp self).
    by destruct (float_ltb temp (Finite (min_temp self))
                 || float_ltb (Finite (max_temp self)) temp).
Qed.

End HeatingBedHistories.

Section PhototherapyLightHistories.
Import PhototherapyLight.

(** A call other than a [start_session] that generates the same id keeps a
    completed session completed, with its duration, intensity and start. *)
Lemma exec_keeps_completed (c : call) (self : t) sid s :
  active_sessions self !! sid = Some s ->
  session_status s = "completed" ->
  sid ∉ uuids [c] ->
  exists s', active_sessions (exec c self) !! sid = Some s'
             /\ session_status s' = "completed"
             /\ duration s' = duration s /\ intensity s' = intensity s
             /\ start_time s' = start_time s.
Proof.
  intros Hs Hc Hfresh. destruct c as [| |uuid now d i|g|g]; simpl in *.
  - by exists s.
  - by exists s.
  - pose proof (start_session_sessions uuid now d i self) as H.
    destruct (fst (start_session uuid now d i self)).
    + destruct H as [_ ->]. exists s. split; [|done].
      rewrite lookup_insert_ne; [done|]. intros ->. apply Hfresh. left.
    + rewrite H. by exists s.
  - unfold get_session. destruct (active_sessions self !! g); by exists s.
  - unfold stop_session.
    destruct (active_sessions self !! g) as [sg|] eqn:Eg; simpl; [|by exists s].
    destruct (decide (g = sid)) as [->|Hne].
    + rewrite lookup_insert_eq. eexists. split; [reflexivity|].
      simpl. rewrite Hs in Eg. by injection Eg as ->.
    + rewrite lookup_insert_ne by done. by exists s.
Qed.

Lemma run_keeps_completed (cs : list call) : forall (self : t) sid s,
  active_sessions self !! sid = Some s ->
  session_status s = "completed" ->
  sid ∉ uuids cs ->
  exists s', active_sessions (run cs self).1 !! sid = Some s'
             /\ session_status s' = "completed"
             /\ duration s' = duration s /\ intensity s' = intensity s
             /\ start_time s' = start_time s.
Proof.
  induction cs as [|c cs IH]; intros self sid s Hs Hc Hfresh.
  - by exists s.
  - simpl. destruct (run cs (exec c self)) as [dev' log'] eqn:E. simpl.
    assert (Hc1 : sid ∉ uuids [c]).
    { intros Hin. apply Hfresh. destruct c; simpl in *;
        try (by inversion Hin).
      apply elem_of_cons in Hin as [->|Hin]; [left|by inversion Hin]. }
    assert (Hcs : sid ∉ uuids cs).
    { intros Hin. apply Hfresh. destruct c; simpl; try done. by right. }
    destruct (exec_keeps_completed c self sid s Hs Hc Hc1)
      as (s1 & H1 & Hst & Hd & Hi & Ht).
    destruct (IH (exec c self) sid s1 H1 Hst Hcs)
      as (s2 & H2 & Hst2 & Hd2 & Hi2 & Ht2).
    rewrite E in H2. simpl in H2.
    exists s2. repeat split; congruence.
Qed.

(** X3. [stop_session] on a known id returns, and from then on the session
    stays ['completed'] with the duration, intensity and start time it had,
    whatever calls follow (as long as [uuid4] does not produce that id
    again); a second [stop_session] changes nothing; on an unknown id it
    fails with [NotFound] and changes nothing. *)
Theorem stop_session_is_final (self : t) sid s (cs : list call) :
  active_sessions self !! sid = Some s ->
  sid ∉ uuids cs ->
  fst (stop_session sid self) = Return tt
  /\ (exists s',
        active_sessions (run cs (snd (stop_session sid self))).1 !! sid = Some s'
        /\ session_status s' = "completed"
        /\ duration s' = duration s /\ intensity s' = intensity s
        /\ start_time s' = start_time s)
  /\ stop_session sid (snd (stop_session sid self))
     = (Return tt, snd (stop_session sid self))
  /\ (forall other, active_sessions self !! other = None ->
                    stop_session other self = (Raise NotFound, self)).
Proof.
  intros Hs Hfresh.
  assert (Hstop : forall (d : t) x,
            active_sessions d !! sid = Some x ->
            stop_session sid d
            = (Return tt,
               set_sessions
                 (<[sid := mkSession (duration x) (intensity x) (start_time x)
                                     "completed"]> (active_sessions d)) d)).
  { intros d x Hx. unfold stop_session. by rewrite Hx. }
  rewrite (Hstop self s Hs). simpl.
  split; [done|]. split; [|split].
  - eapply (run_keeps_completed cs _ sid
              (mkSession (duration s) (intensity s) (start_time s) "completed"));
      [|done|done].
    simpl. apply lookup_insert_eq.
  - erewrite Hstop; [|simpl; apply lookup_insert_eq].
    unfold set_sessions. simpl. by rewrite insert_insert_eq.
  - intros other Ho. unfold stop_session. by rewrite Ho.
Qed.

Lemma stop_session_is_final_witness :
  exists s',
    active_sessions
      (run [StartSession "u-2" 5 20 50; GetSession "u-1"]
           (snd (stop_session "u-1"
                   (run [Connect; StartSession "u-1" 0 30 75]
                        (init "PT-1" "Room 2" TCP)).1))).1
    !! "u-1" = Some s'
    /\ session_status s' = "completed"
    /\ duration s' = 30 /\ intensity s' = 75 /\ start_time s' = 0.
Proof.
  apply (stop_session_is_final
           (run [Connect; StartSession "u-1" 0 30 75] (init "PT-1" "Room 2" TCP)).1
           "u-1" (mkSession 30 75 0 "running")
           [StartSession "u-2" 5 20 50; GetSession "u-1"]).
  - by vm_compute.
  - simpl. intros H. apply elem_of_cons in H as [H|H]; [discriminate|].
    by inversion H.
Defined.

(** A history adds one entry to the session table for each start that
    succeeds, when the generated ids are new. *)
Lemma run_size (cs : list call) : forall (self : t),
  NoDup (uuids cs) ->
  (forall u, u ∈ uuids cs -> active_sessions self !! u = None) ->
  size (active_sessions (run cs self).1)
  = (size (active_sessions self) + length (run cs self).2)%nat.
Proof.
  induction cs as [|c cs IH]; intros self Hnd Hnew; [simpl; lia|].
  simpl. destruct (run cs (exec c self)) as [dev' log'] eqn:E. simpl.
  assert (Hstep : forall n,
            NoDup (uuids cs) ->
            (forall u, u ∈ uuids cs -> active_sessions (exec c self) !! u = None) ->
            size (active_sessions (exec c self)) = n ->
            size (active_sessions dev') = (n + length log')%nat).
  { intros n Hnd' Hnew' <-. specialize (IH (exec c self) Hnd' Hnew').
    by rewrite E in IH. }
  destruct c as [| |uuid now d i|g|g]; simpl in *.
  - rewrite (Hstep _ Hnd Hnew eq_refl). lia.
  - rewrite (Hstep _ Hnd Hnew eq_refl). lia.
  - apply NoDup_cons in Hnd as [Hfresh Hnd].
    pose proof (start_session_sessions uuid now d i self) as H.
    destruct (fst (start_session uuid now d i self)) as [r|] eqn:Er.
    + destruct H as [-> Heq].
      assert (Hu : active_sessions self !! uuid = None) by (apply Hnew; left).
      rewrite (Hstep (S (size (active_sessions self))) Hnd).
      * simpl. lia.
      * intros u Hin. rewrite Heq, lookup_insert_ne; [apply Hnew; by right|].
        intros ->. contradiction.
      * rewrite Heq. by apply map_size_insert_None.
    + rewrite H in Hstep.
      rewrite (Hstep (size (active_sessions self)) Hnd); [lia| |done].
      intros u Hin. apply Hnew. by right.
  - unfold get_session in Hstep.
    destruct (active_sessions self !! g); simpl in Hstep;
      rewrite (Hstep _ Hnd Hnew eq_refl); lia.
  - unfold stop_session in Hstep.
    destruct (active_sessions self !! g) as [sg|] eqn:Eg; simpl in Hstep.
    + rewrite (Hstep (size (active_sessions self)) Hnd); [lia| |].
      * intros u Hin. rewrite lookup_insert_ne; [by apply Hnew|].
        intros ->. rewrite (Hnew u Hin) in Eg. discriminate.
      * by rewrite map_size_insert_Some.
    + rewrite (Hstep _ Hnd Hnew eq_refl). lia.
Qed.

(** X4. Sessions accumulate: over any history of calls on a new light in
    which [uuid4] produces distinct ids, the session table has exactly one
    entry per successful [start_session]; no call removes or replaces a
    session, and a start is never refused because other sessions exist. *)
Theorem sessions_accumulate (cs : list call) name loc ct :
  NoDup (uuids cs) ->
  size (active_sessions (run cs (init name loc ct)).1)
  = length (run cs (init name loc ct)).2
  /\ (forall uuid now d i,
        status (run cs (init name loc ct)).1 = CONNECTED -> 0 <= i <= 100 ->
        fst (start_session uuid now d i (run cs (init name loc ct)).1)
        = Return uuid).
Proof.
  intros Hnd. split.
  - rewrite run_size; [simpl; by rewrite map_size_empty|done|].
    intros u _. simpl. apply lookup_empty.
  - intros uuid now d i Hs Hi. by rewrite start_session_ok.
Qed.

Lemma sessions_accumulate_witness :
  size (active_sessions
          (run [Connect; StartSession "a" 0 30 75; StartSession "b" 1 10 150;
                StartSession "c" 2 45 100; StopSession "a"]
               (init "PT-1" "Room 2" TCP)).1)
  = length (run [Connect; StartSession "a" 0 30 75; StartSession "b" 1 10 150;
                 StartSession "c" 2 45 100; StopSession "a"]
                (init "PT-1" "Room 2" TCP)).2.
Proof.
  apply (sessions_accumulate
           [Connect; StartSession "a" 0 30 75; StartSession "b" 1 10 150;
            StartSession "c" 2 45 100; StopSession "a"] "PT-1" "Room 2" TCP).
  apply (bool_decide_unpack _). by vm_compute.
Defined.

End PhototherapyLightHistories.

Section SterilizerHistories.
Import Sterilizer.

(** What a call can do to the cycle table: nothing, or write a ['running']
    record under the generated id, or turn one record into ['aborted']. *)
Lemma exec_cycles (c : call) (self : t) cid :
  active_cycles (exec c self) !! cid = active_cycles self !! cid
  \/ (exists x, active_cycles (exec c self) !! cid = Some x
                /\ cycle_status x = "running" /\ cid ∈ uuids [c])
  \/ (exists x y, active_cycles self !! cid = Some x
                  /\ active_cycles (exec c self) !! cid = Some y
                  /\ cycle_status y = "aborted"
                  /\ temperature y = temperature x
                  /\ cycle_duration y = cycle_duration x).
Proof.
  destruct c as [| |uuid now temperature duration ct|g|g]; simpl.
  - by left.
  - by left.
  - destruct (start_cycle uuid now temperature duration ct self) as [r self'] eqn:E.
    destruct r as [rid|e].
    + destruct (start_cycle_success _ _ _ _ _ _ _ _ E) as [-> (x & Hx & Hrun & _)].
      simpl. rewrite Hx. destruct (decide (uuid = cid)) as [->|Hne].
      * right. left. exists x. rewrite lookup_insert_eq. repeat split; [done|left].
      * left. by rewrite lookup_insert_ne.
    + left. revert E. unfold start_cycle.
      repeat (case_match; try discriminate); by intros [= _ <-].
  - left. unfold get_cycle_status. by destruct (active_cycles self !! g).
  - unfold abort_cycle. destruct (active_cycles self !! g) as [x|] eqn:Eg; simpl;
      [|by left].
    destruct (decide (g = cid)) as [->|Hne].
    + right. right. exists x. eexists. rewrite lookup_insert_eq. by repeat split.
    + left. by rewrite lookup_insert_ne.
Qed.

Lemma run_statuses (cs : list call) : forall (self : t),
  (forall cid x, active_cycles self !! cid = Some x ->
                 cycle_status x = "running" \/ cycle_status x = "aborted") ->
  forall cid x, active_cycles (run cs self) !! cid = Some x ->
                cycle_status x = "running" \/ cycle_status x = "aborted".
Proof.
  unfold run. induction cs as [|c cs IH]; intros self Hs; [exact Hs|].
  simpl. apply IH. intros cid x Hx.
  destruct (exec_cycles c self cid) as [Heq|[(y & Hy & Hr & _)|(y & z & _ & Hz & Ha & _)]].
  - rewrite Heq in Hx. by eapply Hs.
  - rewrite Hx in Hy. injection Hy as ->. by left.
  - rewrite Hx in Hz. injection Hz as ->. by right.
Qed.

Lemma run_keeps_aborted (cs : list call) : forall (self : t) cid x,
  active_cycles self !! cid = Some x ->
  cycle_status x = "aborted" ->
  cid ∉ uuids cs ->
  exists y, active_cycles (run cs self) !! cid = Some y
            /\ cycle_status y = "aborted"
            /\ temperature y = temperature x
            /\ cycle_duration y = cycle_duration x.
Proof.
  unfold run. induction cs as [|c cs IH]; intros self cid x Hx Ha Hfresh.
  - by exists x.
  - simpl.
    assert (Hc : (cid ∉ uuids [c]) /\ (cid ∉ uuids cs)).
    { split; intros Hin; apply Hfresh; destruct c; simpl in *;
        try done; try (by inversion Hin); try (by right).
      apply elem_of_cons in Hin as [->|Hin]; [left|by inversion Hin]. }
    destruct Hc as [Hc Hcs].
    destruct (exec_cycles c self cid)
      as [Heq|[(y & _ & _ & Hin)|(y & z & Hy & Hz & Hza & Ht & Hd)]].
    + rewrite <- Heq in Hx. by apply (IH _ cid x).
    + contradiction.
    + rewrite Hx in Hy. injection Hy as <-.
      destruct (IH _ cid z Hz Hza Hcs) as (w & Hw & Hwa & Hwt & Hwd).
      exists w. repeat split; congruence.
Qed.

(** X5. The life of a sterilization cycle.  A cycle that [start_cycle]
    returned reports ['running']; [abort_cycle] on a known id returns, and
    from then on [get_cycle_status] reports ['aborted'] whatever calls
    follow (as long as [uuid4] does not produce that id again); on an
    unknown id both calls fail with the invalid-id [ValueError] and change
    nothing; and over any history on a new sterilizer the only statuses
    [get_cycle_status] ever returns are ['running'] and ['aborted']. *)
Theorem cycle_status_lifecycle :
  (forall uuid now temperature duration ct (self : t) cid self',
      start_cycle uuid now temperature duration ct self = (Return cid, self') ->
      fst (get_cycle_status cid self') = Return "running")
  /\ (forall (self : t) cid x (cs : list call),
        active_cycles self !! cid = Some x -> cid ∉ uuids cs ->
        fst (abort_cycle cid self) = Return tt
        /\ fst (get_cycle_status cid (run cs (snd (abort_cycle cid self))))
           = Return "aborted")
  /\ (forall (self : t) cid,
        active_cycles self !! cid = None ->
        abort_cycle cid self = (Raise NotFound, self)
        /\ get_cycle_status cid self = (Raise NotFound, self))
  /\ (forall (cs : list call) name loc ct cid st,
        fst (get_cycle_status cid (run cs (init name loc ct))) = Return st ->
        st = "running" \/ st = "aborted").
Proof.
  split; [|split; [|split]].
  - intros uuid now temperature duration ct self cid self' H.
    destruct (start_cycle_success _ _ _ _ _ _ _ _ H) as [-> (x & Hx & Hrun & _)].
    unfold get_cycle_status. rewrite Hx, lookup_insert_eq. simpl. by rewrite Hrun.
  - intros self cid x cs Hx Hfresh. unfold abort_cycle. rewrite Hx. simpl.
    split; [done|].
    destruct (run_keeps_aborted cs
                (set_cycles
                   (<[cid := mkCycle (cycle_type x) (temperature x)
                                (cycle_duration x) (start_time x) "aborted"]>
                      (active_cycles self)) self)
                cid (mkCycle (cycle_type x) (temperature x)
                       (cycle_duration x) (start_time x) "aborted"))
      as (y & Hy & Hya & _); [simpl; apply lookup_insert_eq|done|done|].
    unfold get_cycle_status. rewrite Hy. simpl. by rewrite Hya.
  - intros self cid Hx. unfold abort_cycle, get_cycle_status. by rewrite Hx.
  - intros cs name loc ct cid st. unfold get_cycle_status.
    destruct (active_cycles (run cs (init name loc ct)) !! cid) as [x|] eqn:E;
      [|discriminate].
    simpl. intros [= <-]. eapply (run_statuses cs (init name loc ct)); [|exact E].
    intros c y Hy. simpl in Hy. by rewrite lookup_empty in Hy.
Qed.

End SterilizerHistories.

Section SurgicalLightHistories.
Import SurgicalLight.

Variable float_of_string : string -> option Q.

Lemma set_parameter_within_percent name v (self : t) :
  within_percent self ->
  within_percent (snd (set_parameter float_of_string name v self)).
Proof.
  intros (Hb & Hl1 & Hl2 & Hf1 & Hf2).
  destruct (decide (name = "light_intensity")) as [->|H1].
  { rewrite set_parameter_light by done.
    destruct (to_float float_of_string v) as [f|e].
    - destruct (in_percent_range f) eqn:E; [|by repeat split].
      apply in_percent_range_iff in E as [? ?]. by repeat split.
    - destruct (handled e); by repeat split. }
  destruct (decide (name = "focus_position")) as [->|H2].
  { rewrite set_parameter_focus by done.
    destruct (to_float float_of_string v) as [f|e].
    - destruct (in_percent_range f) eqn:E; [|by repeat split].
      apply in_percent_range_iff in E as [? ?]. by repeat split.
    - destruct (handled e); by repeat split. }
  destruct (decide (name = "camera_active")) as [->|H3].
  { rewrite set_parameter_camera by done. by repeat split. }
  rewrite set_parameter_unknown by done. by repeat split.
Qed.

(** X6. Whatever calls are made on a surgical light after its construction
    ([connect], [disconnect], [get_status], [get_parameters],
    [set_parameter] with any name and value), its parameter table stays the
    one of the constructor and the stored light intensity and focus position
    stay within 0 and 100. *)
Theorem surgical_light_stays_within_percent (cs : list call) name ct :
  within_percent (run float_of_string cs (init name ct)).
Proof.
  unfold run.
  assert (H0 : within_percent (init name ct)).
  { repeat split; simpl; lra. }
  revert H0. generalize (init name ct).
  induction cs as [|c cs IH]; intros self Hs; [done|].
  simpl. apply IH. destruct c as [| | | |p v]; simpl.
  - destruct Hs as (? & ? & ? & ? & ?). by repeat split.
  - destruct Hs as (? & ? & ? & ? & ?). by repeat split.
  - done.
  - done.
  - by apply set_parameter_within_percent.
Qed.

(** X7. Writing then reading a parameter.  For a light with the
    constructor's parameter table: a [set_parameter] that returns true makes
    [get_parameters] show, under that name, the converted value
    ([float(value)] for the two percentages, [bool(value)] for the camera);
    a call that returns false or raises leaves the light as it was; and in
    every case the other two parameters read as before. *)
Theorem set_then_get_parameters name v (self : t) :
  as_built self ->
  forall m m',
    fst (get_parameters self) = Return m ->
    fst (get_parameters (snd (set_parameter float_of_string name v self)))
    = Return m' ->
    (forall k, k <> name -> m' !! k = m !! k)
    /\ (fst (set_parameter float_of_string name v self) <> Return true ->
        snd (set_parameter float_of_string name v self) = self)
    /\ (fst (set_parameter float_of_string name v self) = Return true ->
        (name = "camera_active" /\ m' !! name = Some (VBool (truthy v)))
        \/ ((name = "light_intensity" \/ name = "focus_position")
            /\ exists f, to_float float_of_string v = Return f
                         /\ (0 <= f)%Q /\ (f <= 100)%Q
                         /\ m' !! name = Some (VFloat f))).
Proof.
  intros Hb m m'. unfold get_parameters. simpl. intros [= <-] [= <-].
  destruct (decide (name = "light_intensity")) as [->|H1].
  { rewrite set_parameter_light by done.
    destruct (to_float float_of_string v) as [f|e].
    - destruct (in_percent_range f) eqn:E; simpl.
      + apply in_percent_range_iff in E as [? ?]. split; [|split].
        * intros k Hk. by rewrite !(lookup_insert_ne _ "light_intensity").
        * done.
        * intros _. right. split; [by left|]. exists f.
          by rewrite lookup_insert_eq.
      + by repeat split.
    - destruct (handled e); simpl; by repeat split. }
  destruct (decide (name = "focus_position")) as [->|H2].
  { rewrite set_parameter_focus by done.
    destruct (to_float float_of_string v) as [f|e].
    - destruct (in_percent_range f) eqn:E; simpl.
      + apply in_percent_range_iff in E as [? ?]. split; [|split].
        * intros k Hk.
          destruct (decide (k = "light_intensity")) as [->|Hk1];
            [by rewrite !lookup_insert_eq|].
          rewrite !(lookup_insert_ne _ "light_intensity") by done.
          by rewrite !(lookup_insert_ne _ "focus_position").
        * done.
        * intros _. right. split; [by right|]. exists f.
          rewrite lookup_insert_ne by done. by rewrite lookup_insert_eq.
      + by repeat split.
    - destruct (handled e); simpl; by repeat split. }
  destruct (decide (name = "camera_active")) as [->|H3].
  { rewrite set_parameter_camera by done. simpl. split; [|split].
    - intros k Hk.
      destruct (decide (k = "light_intensity")) as [->|Hk1];
        [by rewrite !lookup_insert_eq|].
      rewrite !(lookup_insert_ne _ "light_intensity") by done.
      destruct (decide (k = "focus_position")) as [->|Hk2];
        [by rewrite !lookup_insert_eq|].
      rewrite !(lookup_insert_ne _ "focus_position") by done.
      by rewrite !(lookup_insert_ne _ "camera_active").
    - done.
    - intros _. left. split; [done|].
      rewrite !lookup_insert_ne by done. by rewrite lookup_insert_eq. }
  rewrite set_parameter_unknown by done. by repeat split.
Qed.

End SurgicalLightHistories.

Lemma set_then_get_parameters_witness :
  SurgicalLight.as_built (SurgicalLight.init "SL-1" ETHERNET)
  /\ exists m',
       fst (SurgicalLight.get_parameters
              (snd (SurgicalLight.set_parameter (fun _ => None) "focus_position"
                      (VInt 40) (SurgicalLight.init "SL-1" ETHERNET))))
       = Return m'
       /\ m' !! "light_intensity" = Some (VFloat 0).
Proof.
  split; [reflexivity|]. eexists. split; [reflexivity|].
  refine (eq_trans
            (proj1 (set_then_get_parameters (fun _ => None) "focus_position"
                      (VInt 40) (SurgicalLight.init "SL-1" ETHERNET) eq_refl
                      _ _ eq_refl eq_refl)
               "light_intensity" _) _).
  - discriminate.
  - reflexivity.
Defined.

(** * Further properties of the service and of the managers *)

Section ServiceOperations.
Import DeviceService.

Variable get_by_id : ident -> option DeviceRecord.
Variable float_of_string : string -> option Q.

(** X8. The factory as a registry: after [register(type, cls)] a
    [create_device] for that type is the constructor call of [cls] (the
    latest registration wins) and every other type is looked up as before; a
    type that was never registered fails with the unknown-type [ValueError]
    whatever the arguments; and the module-level [device_factory] builds a
    surgical light for ['SurgicalLight'] and knows no other type. *)
Theorem factory_register_then_create now (device_types : gmap string device_class)
    device_type cls args :
  create_device now (snd (register device_type cls (RcvFactory device_types)))
    device_type args
  = construct now cls args
  /\ (forall other, other <> device_type ->
        create_device now
          (snd (register device_type cls (RcvFactory device_types))) other args
        = create_device now (RcvFactory device_types) other args)
  /\ (forall other, device_types !! other = None ->
        create_device now (RcvFactory device_types) other args
        = Raise (ValueError (MsgUnknownDeviceType other)))
  /\ (forall i c,
        create_device now device_factory "SurgicalLight"
          [ArgStr i; ArgConnection c]
        = Return (DevSurgicalLight (SurgicalLight.init i c)))
  /\ (forall other, other <> "SurgicalLight" ->
        create_device now device_factory other args
        = Raise (ValueError (MsgUnknownDeviceType other))).
Proof.
  split; [|split; [|split; [|split]]].
  - simpl. by rewrite lookup_insert_eq.
  - intros other Hne. simpl. by rewrite lookup_insert_ne.
  - intros other Hnone. simpl. by rewrite Hnone.
  - intros i c. reflexivity.
  - intros other Hne. unfold device_factory. simpl.
    rewrite lookup_insert_ne by done. by rewrite lookup_empty.
Qed.

(** Writing back the instance the store already holds changes nothing. *)
Lemma set_devices_same (self : t) k d :
  active_devices self !! k = Some d ->
  set_devices (<[k := d]> (active_devices self)) self = self.
Proof.
  intros H. destruct self as [m e]. unfold set_devices. simpl in *.
  by rewrite insert_id.
Qed.

(** X9. [disconnect_device] never disconnects: for an id that is not in the
    store it returns false; for one that is, it raises on
    [device.stop_monitoring], before the device is asked to disconnect; in
    both cases the service (store and recorded effects) is as before. *)
Theorem disconnect_device_never_disconnects device_id (self : t) :
  snd (disconnect_device get_by_id device_id self) = self
  /\ (active_devices self !! str device_id = None ->
      fst (disconnect_device get_by_id device_id self) = Return false)
  /\ (is_Some (active_devices self !! str device_id) ->
      fst (disconnect_device get_by_id device_id self)
      = Raise (AttributeError "stop_monitoring")).
Proof.
  unfold disconnect_device. simpl.
  destruct (active_devices self !! str device_id) as [d|] eqn:E.
  - split; [done|]. split; [discriminate|done].
  - split; [done|]. split; [done|]. by intros [? ?].
Qed.

(** A name that is none of the three parameters of a surgical light is
    refused by it, whatever its parameter table holds. *)
Lemma set_parameter_other_name name v (x : SurgicalLight.t) :
  name <> "light_intensity" -> name <> "focus_position" ->
  name <> "camera_active" ->
  SurgicalLight.set_parameter float_of_string name v x = (Return false, x).
Proof.
  intros H1 H2 H3. unfold SurgicalLight.set_parameter.
  destruct (SurgicalLight.supported_parameters x !! name) as [[lo hi]|];
    [|reflexivity].
  apply String.eqb_neq in H1, H2, H3. by rewrite H1, H2, H3.
Qed.

(** X10. [set_device_parameter]: for an id that is not in the store it
    returns false and changes nothing; for a heating bed, a phototherapy
    light or a sterilizer in the store it raises [NotImplementedError] (they
    inherit [BaseDevice.set_parameter]) and changes nothing; for a surgical
    light in the store it gives what the light's [set_parameter] gives, the
    store then holds the light as that call left it, and no other entry of
    the store and no recorded effect changes. *)
Theorem set_device_parameter_dispatch device_id parameter v (self : t) :
  (active_devices self !! str device_id = None ->
   set_device_parameter float_of_string device_id parameter v self
   = (Return false, self))
  /\ (forall d,
        active_devices self !! str device_id = Some d ->
        (forall x, d <> DevSurgicalLight x) ->
        set_device_parameter float_of_string device_id parameter v self
        = (Raise NotImplementedError, self))
  /\ (forall x,
        active_devices self !! str device_id = Some (DevSurgicalLight x) ->
        fst (set_device_parameter float_of_string device_id parameter v self)
        = fst (SurgicalLight.set_parameter float_of_string parameter v x)
        /\ active_devices
             (snd (set_device_parameter float_of_string device_id parameter v self))
           = <[str device_id :=
                 DevSurgicalLight
                   (snd (SurgicalLight.set_parameter float_of_string parameter v x))]>
               (active_devices self)
        /\ effects
             (snd (set_device_parameter float_of_string device_id parameter v self))
           = effects self).
Proof.
  unfold set_device_parameter. simpl. split; [|split].
  - intros H. by rewrite H.
  - intros d Hd Hns. rewrite Hd.
    destruct d as [h|p|s|x]; simpl; try by rewrite set_devices_same.
    by destruct (Hns x).
  - intros x Hx. rewrite Hx. simpl.
    by destruct (SurgicalLight.set_parameter float_of_string parameter v x).
Qed.

(** A write under a name no surgical light has changes nothing and does not
    return true, whatever the store holds. *)
Lemma set_device_parameter_foreign_name device_id name v (self : t) :
  name <> "light_intensity" -> name <> "focus_position" ->
  name <> "camera_active" ->
  snd (set_device_parameter float_of_string device_id name v self) = self
  /\ (fst (set_device_parameter float_of_string device_id name v self)
      = Return false
      \/ fst (set_device_parameter float_of_string device_id name v self)
         = Raise NotImplementedError).
Proof.
  intros H1 H2 H3. unfold set_device_parameter. simpl.
  destruct (active_devices self !! str device_id) as [d|] eqn:E;
    [|by split; [|left]].
  destruct d as [h|p|s|x]; simpl;
    try (rewrite set_devices_same by done; by split; [|right]).
  rewrite set_parameter_other_name by done.
  rewrite set_devices_same by done. by split; [|left].
Qed.

(** X11. The managers' writes for beds and sterilizers reach no device:
    [HeatingBedManager.set_target_temperature] and
    [SterilizerManager.lock_door] return false or raise
    [NotImplementedError] and change nothing, whatever the store holds and
    whatever the value; [SterilizerManager.set_cycle_parameters] changes
    nothing either and returns true exactly when neither a temperature nor a
    pressure is given, also for a device that is not connected. *)
Theorem manager_writes_reach_no_device :
  (forall d temp (mgr : HeatingBedManager.t),
      snd (HeatingBedManager.set_target_temperature float_of_string d temp mgr)
      = mgr
      /\ fst (HeatingBedManager.set_target_temperature float_of_string d temp mgr)
         <> Return true)
  /\ (forall d lock (svc : t),
        snd (SterilizerManager.lock_door float_of_string d lock svc) = svc
        /\ fst (SterilizerManager.lock_door float_of_string d lock svc)
           <> Return true)
  /\ (forall d temperature pressure (svc : t),
        snd (SterilizerManager.set_cycle_parameters float_of_string d
               temperature pressure svc) = svc
        /\ (fst (SterilizerManager.set_cycle_parameters float_of_string d
                   temperature pressure svc) = Return true
            <-> temperature = None /\ pressure = None)).
Proof.
  split; [|split].
  - intros d temp mgr. unfold HeatingBedManager.set_target_temperature.
    destruct (set_device_parameter_foreign_name (IdInt d) "target_temperature"
                (VFloat temp) (HeatingBedManager.device_service mgr))
      as [Hs Hr]; try done.
    destruct (set_device_parameter _ _ _ _ _) as [r svc]. simpl in *. subst svc.
    split; [by destruct mgr|]. destruct Hr as [-> | ->]; discriminate.
  - intros d lock svc. unfold SterilizerManager.lock_door.
    destruct (set_device_parameter_foreign_name (IdInt d) "door_lock"
                (VBool lock) svc) as [Hs Hr]; try done.
    split; [done|]. destruct Hr as [-> | ->]; discriminate.
  - intros d temperature pressure svc.
    unfold SterilizerManager.set_cycle_parameters.
    assert (Ht : forall x,
              snd (set_device_parameter float_of_string (IdInt d)
                     "target_temperature" (VFloat x) svc) = svc
              /\ (fst (set_device_parameter float_of_string (IdInt d)
                         "target_temperature" (VFloat x) svc) = Return false
                  \/ fst (set_device_parameter float_of_string (IdInt d)
                            "target_temperature" (VFloat x) svc)
                     = Raise NotImplementedError)).
    { intros x. by apply set_device_parameter_foreign_name. }
    assert (Hp : forall x,
              snd (set_device_parameter float_of_string (IdInt d)
                     "target_pressure" (VFloat x) svc) = svc
              /\ (fst (set_device_parameter float_of_string (IdInt d)
                         "target_pressure" (VFloat x) svc) = Return false
                  \/ fst (set_device_parameter float_of_string (IdInt d)
                            "target_pressure" (VFloat x) svc)
                     = Raise NotImplementedError)).
    { intros x. by apply set_device_parameter_foreign_name. }
    destruct temperature as [x|].
    + destruct (Ht x) as [Hs Hr].
      destruct (set_device_parameter float_of_string (IdInt d)
                  "target_temperature" (VFloat x) svc) as [r svc1].
      simpl in *. subst svc1. destruct Hr as [-> | ->]; simpl.
      * destruct pressure as [p|].
        -- destruct (Hp p) as [Hs' Hr'].
           destruct (set_device_parameter float_of_string (IdInt d)
                       "target_pressure" (VFloat p) svc) as [r' svc2].
           simpl in *. subst svc2.
           destruct Hr' as [-> | ->]; simpl; split; try done;
             split; try discriminate; by intros [? _].
        -- simpl. split; [done|]. split; [discriminate|by intros [? _]].
      * split; [done|]. split; [discriminate|by intros [? _]].
    + simpl. destruct pressure as [p|].
      * destruct (Hp p) as [Hs' Hr'].
        destruct (set_device_parameter float_of_string (IdInt d)
                    "target_pressure" (VFloat p) svc) as [r' svc2].
        simpl in *. subst svc2.
        destruct Hr' as [-> | ->]; simpl; split; try done;
          split; try discriminate; by intros [_ ?].
      * by split.
Qed.

(** X12. The bed manager's [reset_alarm], [check_safety_status] and
    [get_temperature_history] never reach a bed: for an id that is not in
    the store they return false, the empty dict and the empty list; for an
    id that is in the store they end in the exception of
    [get_device_status]; [reset_alarm] never returns true. *)
Theorem bed_facade_reaches_no_bed d hours (mgr : HeatingBedManager.t) :
  (active_devices (HeatingBedManager.device_service mgr) !! pretty d = None ->
   HeatingBedManager.reset_alarm d mgr = Return false
   /\ HeatingBedManager.check_safety_status d mgr = Return ∅
   /\ HeatingBedManager.get_temperature_history d hours mgr = Return [])
  /\ (forall dev,
        active_devices (HeatingBedManager.device_service mgr) !! pretty d
        = Some dev ->
        exists e,
          get_device_status (IdInt d) (HeatingBedManager.device_service mgr)
          = Raise e
          /\ HeatingBedManager.reset_alarm d mgr = Raise e
          /\ HeatingBedManager.check_safety_status d mgr = Raise e
          /\ HeatingBedManager.get_temperature_history d hours mgr = Raise e)
  /\ HeatingBedManager.reset_alarm d mgr <> Return true.
Proof.
  unfold HeatingBedManager.reset_alarm, HeatingBedManager.check_safety_status,
    HeatingBedManager.get_temperature_history.
  split; [|split].
  - intros H. by rewrite (get_device_status_absent (IdInt d) _ H).
  - intros dev H. rewrite (get_device_status_present (IdInt d) _ dev H).
    destruct dev; by eexists.
  - destruct (active_devices (HeatingBedManager.device_service mgr) !! pretty d)
      as [dev|] eqn:E.
    + rewrite (get_device_status_present (IdInt d) _ dev E). by destruct dev.
    + by rewrite (get_device_status_absent (IdInt d) _ E).
Qed.

(** One call of the manager's API on the initial manager changes nothing
    and reports no success. *)
Lemma api_exec_init (c : HeatingBedManager.api_call) :
  HeatingBedManager.api_exec get_by_id float_of_string c HeatingBedManager.init
  = (HeatingBedManager.refused c, HeatingBedManager.init).
Proof.
  destruct c as [d now|d|d|d temp]; simpl.
  - unfold HeatingBedManager.connect_bed.
    by rewrite connect_device_returns_false.
  - reflexivity.
  - reflexivity.
  - reflexivity.
Qed.

(** X13. Through [connect_bed], [disconnect_bed], [stop_monitoring] and
    [set_target_temperature] a new manager never changes: whatever history
    of these calls is made, no device enters the store, no monitor task is
    started and no alert entry is made, and every [connect_bed],
    [disconnect_bed] and [set_target_temperature] returns false. *)
Theorem bed_api_changes_nothing (cs : list HeatingBedManager.api_call) :
  HeatingBedManager.api_run get_by_id float_of_string cs HeatingBedManager.init
  = (HeatingBedManager.init, map HeatingBedManager.refused cs).
Proof.
  induction cs as [|c cs IH]; [done|].
  simpl HeatingBedManager.api_run. rewrite api_exec_init, IH. reflexivity.
Qed.

End ServiceOperations.


Section MonitorTaskProperties.
Import MonitorTasks.

Lemma start_monitoring_consistent d (self : t) :
  consistent self -> consistent (start_monitoring d self).
Proof.
  intros (Hreg & Hinj & Hrun & Hcan).
  unfold start_monitoring. case_bool_decide as Hd; [done|].
  assert (Hnone : monitoring_tasks self !! pretty d = None).
  { destruct (monitoring_tasks self !! pretty d) eqn:E; [|done].
    exfalso. apply Hd. by eexists. }
  split; [|split; [|split]]; simpl.
  - intros k task Hk. apply lookup_insert_Some in Hk as [[<- <-]|[Hne Hk]].
    + split; [|by exists d]. split; simpl; [lia|].
      intros Hc. apply Hcan in Hc. lia.
    + destruct (Hreg _ _ Hk) as [[Hl Hc] Hd']. split; [|done].
      split; simpl; [lia|done].
  - intros k1 k2 task H1 H2.
    apply lookup_insert_Some in H1 as [[<- <-]|[Hne1 H1]];
      apply lookup_insert_Some in H2 as [[<- Heq]|[Hne2 H2]]; try done.
    + destruct (Hreg _ _ H2) as [[Hl _] _]. lia.
    + subst task. destruct (Hreg _ _ H1) as [[Hl _] _]. lia.
    + by eapply Hinj.
  - intros task [Hl Hc]. simpl in *.
    destruct (decide (task = created self)) as [->|Hne].
    + exists (pretty d). apply lookup_insert_eq.
    + destruct (Hrun task) as [k Hk]; [split; [lia|done]|].
      exists k. rewrite lookup_insert_ne; [done|]. intros <-.
      rewrite Hnone in Hk. discriminate.
  - intros task Hc. apply Hcan in Hc. lia.
Qed.

Lemma stop_monitoring_consistent d (self : t) :
  consistent self -> consistent (stop_monitoring d self).
Proof.
  intros (Hreg & Hinj & Hrun & Hcan).
  unfold stop_monitoring.
  destruct (monitoring_tasks self !! pretty d) as [task0|] eqn:E; [|done].
  split; [|split; [|split]]; simpl.
  - intros k task Hk. apply lookup_delete_Some in Hk as [Hne Hk].
    destruct (Hreg _ _ Hk) as [[Hl Hc] Hd']. split; [|done].
    split; simpl; [done|]. intros Hin.
    apply elem_of_union in Hin as [Hin|Hin]; [|done].
    apply elem_of_singleton in Hin. subst task.
    apply Hne. by apply (Hinj _ _ task0).
  - intros k1 k2 task H1 H2.
    apply lookup_delete_Some in H1 as [_ H1].
    apply lookup_delete_Some in H2 as [_ H2]. by eapply Hinj.
  - intros task [Hl Hc]. simpl in *.
    destruct (Hrun task) as [k Hk].
    { split; [done|]. intros Hin. apply Hc. by apply elem_of_union_r. }
    exists k. rewrite lookup_delete_ne; [done|]. intros <-.
    rewrite E in Hk. injection Hk as ->. apply Hc.
    apply elem_of_union_l. by apply elem_of_singleton.
  - intros task Hin. apply elem_of_union in Hin as [Hin|Hin]; [|by apply Hcan].
    apply elem_of_singleton in Hin. subst task.
    by destruct (Hreg _ _ E) as [[Hl _] _].
Qed.

Lemma run_consistent (evs : list event) : forall self : t,
  consistent self -> consistent (run evs self).
Proof.
  unfold run. induction evs as [|ev evs IH]; intros self Hs; [done|].
  simpl. apply IH. destruct ev.
  - by apply start_monitoring_consistent.
  - by apply stop_monitoring_consistent.
Qed.

(** X14. Monitor tasks and the task table agree, whatever sequence of
    starts and stops a manager goes through: every task that was created and
    not cancelled is the registered task of exactly one device, and every
    registered task is such a task, so no device has two monitor loops and
    no loop runs unregistered; starting a device that has a task creates
    none, stopping a device that has no task does nothing, and stopping
    twice is stopping once. *)
Theorem monitor_tasks_consistent (evs : list event) :
  let m := run evs init in
  (forall task,
      running m task <-> exists d : Z, monitoring_tasks m !! pretty d = Some task)
  /\ (forall (d1 d2 : Z) task,
        monitoring_tasks m !! pretty d1 = Some task ->
        monitoring_tasks m !! pretty d2 = Some task -> d1 = d2)
  /\ (forall d : Z, is_Some (monitoring_tasks m !! pretty d) ->
                    start_monitoring d m = m)
  /\ (forall d : Z, monitoring_tasks m !! pretty d = None ->
                    stop_monitoring d m = m)
  /\ (forall d, stop_monitoring d (stop_monitoring d m) = stop_monitoring d m)
  /\ (forall d : Z, monitoring_tasks (stop_monitoring d m) !! pretty d = None
                /\ created (stop_monitoring d m) = created m).
Proof.
  intros m.
  assert (Hinv : consistent m).
  { apply run_consistent. split; [|split; [|split]]; simpl.
    - intros k task H. by rewrite lookup_empty in H.
    - intros k1 k2 task H. by rewrite lookup_empty in H.
    - intros task [Hl _]. simpl in Hl. lia.
    - intros task H. by apply not_elem_of_empty in H. }
  destruct Hinv as (Hreg & Hinj & Hrun & Hcan).
  split; [|split; [|split; [|split; [|split]]]].
  - intros task. split.
    + intros Hr. destruct (Hrun task Hr) as [k Hk].
      destruct (Hreg _ _ Hk) as [_ [d ->]]. by exists d.
    + intros [d Hd]. by destruct (Hreg _ _ Hd).
  - intros d1 d2 task H1 H2. apply (inj pretty). by eapply Hinj.
  - intros d Hd. unfold start_monitoring. by rewrite bool_decide_eq_true_2.
  - intros d Hd. unfold stop_monitoring. by rewrite Hd.
  - intros d. unfold stop_monitoring at 2 3.
    destruct (monitoring_tasks m !! pretty d) as [task|] eqn:E.
    + unfold stop_monitoring. simpl. by rewrite lookup_delete_eq.
    + unfold stop_monitoring. by rewrite E.
  - intros d. unfold stop_monitoring.
    destruct (monitoring_tasks m !! pretty d) as [task|] eqn:E; simpl; [|done].
    by rewrite lookup_delete_eq.
Qed.

End MonitorTaskProperties.

(** * Further properties of the monitor loops *)

Section HeatingBedLoopProperties.
Import HeatingBedManager.

Local Arguments Qltb : simpl never.
Local Arguments Qabs : simpl never.
Local Arguments Qminus : simpl never.
Local Arguments Z.sub : simpl never.
Local Arguments Z.ltb : simpl never.

Lemma iter_blind d o (alerts : gmap string AlertEntry) :
  blind o = true ->
  monitor_temperature_iter d o alerts
  = (alerts, [], if raised o then 60 else 30).
Proof.
  unfold blind, raised, monitor_temperature_iter.
  destruct (fetch o) as [e| |[[[c|] [t|]]|]]; simpl; done.
Qed.

(** X15. A poll that cannot compare the temperatures changes nothing: it
    leaves the alert table as it is, emits nothing, and does not restart
    the five-minute count; so a run of polls ends in the same table and
    emits the same alerts as the run without those polls. *)
Theorem blind_polls_change_nothing d (os : list observation)
    (alerts : gmap string AlertEntry) :
  (forall o, blind o = true ->
             monitor_temperature_iter d o alerts
             = (alerts, [], if raised o then 60 else 30))
  /\ (monitor_temperature d (filter (fun o => blind o = false) os) alerts).1
     = (monitor_temperature d os alerts).1
  /\ concat (monitor_temperature d (filter (fun o => blind o = false) os) alerts).2
     = concat (monitor_temperature d os alerts).2.
Proof.
  split; [intros o Ho; by apply iter_blind|].
  revert alerts. induction os as [|o os IH]; intros alerts; [done|].
  rewrite filter_cons. destruct (blind o) eqn:Hb.
  - rewrite decide_False by done.
    simpl. rewrite (iter_blind d o alerts Hb).
    destruct (IH alerts) as [IH1 IH2].
    destruct (monitor_temperature d os alerts) as [a2 r2]. simpl in *.
    by rewrite IH1, IH2.
  - rewrite decide_True by done. simpl.
    destruct (monitor_temperature_iter d o alerts) as [[a1 e1] s1].
    destruct (IH a1) as [IH1 IH2].
    destruct (monitor_temperature d (filter _ os) a1) as [a2 r2].
    destruct (monitor_temperature d os a1) as [a3 r3]. simpl in *.
    by rewrite IH1, IH2.
Qed.

Lemma monitor_temperature_app d (l1 l2 : list observation) :
  forall alerts : gmap string AlertEntry,
    monitor_temperature d (l1 ++ l2) alerts
    = ((monitor_temperature d l2 (monitor_temperature d l1 alerts).1).1,
       (monitor_temperature d l1 alerts).2
       ++ (monitor_temperature d l2 (monitor_temperature d l1 alerts).1).2).
Proof.
  induction l1 as [|o l1 IH]; intros alerts.
  - simpl. by destruct (monitor_temperature d l2 alerts).
  - simpl. destruct (monitor_temperature_iter d o alerts) as [[a1 e1] s1].
    rewrite (IH a1).
    destruct (monitor_temperature d l1 a1) as [a2 r2]. simpl.
    by destruct (monitor_temperature d l2 a2).
Qed.

(** Polls within the window, on a table whose entry has not fired, change
    nothing and emit nothing. *)
Lemma run_within_window d fd (os : list observation) :
  forall alerts : gmap string AlertEntry,
    alerts !! key d = Some (mkEntry fd false) ->
    Forall deviating os ->
    Forall (fun p => t_check p - fd <= five_minutes) os ->
    (monitor_temperature d os alerts).1 = alerts
    /\ concat (monitor_temperature d os alerts).2 = [].
Proof.
  induction os as [|o os IH]; intros alerts Ha Hdev Hin; [done|].
  apply Forall_cons in Hdev as [Ho Hos]. apply Forall_cons in Hin as [Hi His].
  destruct (iter_deviating_tracked d o alerts fd false Ha Ho) as (c & t & Hit).
  simpl. rewrite Hit. simpl.
  assert ((five_minutes <? t_check o - fd) = false) as -> by (apply Z.ltb_ge; lia).
  destruct (IH alerts Ha Hos His) as [IH1 IH2].
  destruct (monitor_temperature d os alerts) as [a2 r2]. simpl in *.
  by rewrite IH1, IH2.
Qed.

(** X16. An alert can be lost: when the poll that first reads a clock more
    than five minutes after the detection finds no directory row for the
    bed, the entry is marked as sent all the same, and the run emits no
    alert at all, however long the deviation lasts and whatever the
    directory holds at later polls. *)
Theorem alert_lost_without_directory_row d fd
    (before : list observation) o (after : list observation)
    (alerts : gmap string AlertEntry) :
  alerts !! key d = Some (mkEntry fd false) ->
  Forall deviating (before ++ o :: after) ->
  Forall (fun p => t_check p - fd <= five_minutes) before ->
  five_minutes < t_check o - fd ->
  row o = None ->
  concat (monitor_temperature d (before ++ o :: after) alerts).2 = []
  /\ (monitor_temperature d (before ++ o :: after) alerts).1 !! key d
     = Some (mkEntry fd true).
Proof.
  intros Ha Hdev Hin Hpast Hrow.
  apply Forall_app in Hdev as [Hb Hoa]. apply Forall_cons in Hoa as [Ho Hafter].
  rewrite monitor_temperature_app.
  destruct (run_within_window d fd before alerts Ha Hb Hin) as [H1 H2].
  simpl fst. simpl snd. rewrite H1, concat_app, H2. simpl.
  destruct (iter_deviating_tracked d o alerts fd false Ha Ho) as (c & t & Hit).
  rewrite Hit. simpl.
  assert ((five_minutes <? t_check o - fd) = true) as -> by (by apply Z.ltb_lt).
  rewrite Hrow.
  destruct (run_tracked d fd after (<[key d := mkEntry fd true]> alerts) true
              (lookup_insert_eq _ _ _) Hafter)
    as (_ & [sent' Hent] & Hnone & Hle & _).
  destruct (monitor_temperature d after (<[key d := mkEntry fd true]> alerts))
    as [a2 r2] eqn:E. simpl in *.
  split.
  - destruct (concat r2); [done|simpl in Hle; lia].
  - rewrite Hent. f_equal. f_equal.
    destruct sent'; [done|].
    (* the entry stays sent: an iteration only ever sets the flag *)
    exfalso. clear -E Hafter Hent.
    revert a2 r2 E Hent.
    generalize (lookup_insert_eq alerts (key d) (mkEntry fd true)).
    generalize (<[key d := mkEntry fd true]> alerts).
    induction after as [|x l IH]; intros a Ha a2 r2 E Hent.
    + simpl in E. injection E as <- <-. rewrite Ha in Hent. discriminate.
    + apply Forall_cons in Hafter as [Hx Hl].
      destruct (iter_deviating_tracked d x a fd true Ha Hx) as (c & t & Hit).
      simpl in E. rewrite Hit in E. simpl in E.
      destruct (monitor_temperature d l a) as [a3 r3] eqn:E3.
      injection E as <- <-. by apply (IH Hl a Ha a3 r3).
Qed.

End HeatingBedLoopProperties.

Lemma alert_lost_without_directory_row_witness :
  concat (HeatingBedManager.monitor_temperature 1
            ([Sample.bed_poll 40 37 (60 * second)]
             ++ HeatingBedManager.mkObs
                  (FetchStatus (Some (HeatingBedManager.mkParams (Some 40%Q) (Some 37%Q))))
                  None (301 * second) (301 * second) (301 * second)
             :: [Sample.bed_poll 40 37 (400 * second)])
            (<[HeatingBedManager.key 1 := HeatingBedManager.mkEntry 0 false]> ∅)).2
  = [].
Proof.
  apply (alert_lost_without_directory_row 1 0
           [Sample.bed_poll 40 37 (60 * second)]
           (HeatingBedManager.mkObs
              (FetchStatus (Some (HeatingBedManager.mkParams (Some 40%Q) (Some 37%Q))))
              None (301 * second) (301 * second) (301 * second))
           [Sample.bed_poll 40 37 (400 * second)]
           (<[HeatingBedManager.key 1 := HeatingBedManager.mkEntry 0 false]> ∅)).
  - apply lookup_insert_eq.
  - repeat constructor; exists 40%Q, 37%Q; by split.
  - repeat constructor. by vm_compute.
  - by vm_compute.
  - reflexivity.
Defined.

Section AlertContentProperties.

Local Arguments Qltb : simpl never.
Local Arguments Qabs : simpl never.
Local Arguments Qminus : simpl never.
Local Arguments Z.sub : simpl never.
Local Arguments Z.mul : simpl never.
Local Arguments Z.ltb : simpl never.
Local Arguments Z.leb : simpl never.

(** X17. What a heating-bed alert says: an alert the loop emits is of kind
    ['temperature_deviation'] for the polled bed, was emitted at a poll that
    found the directory row and read two temperatures more than one degree
    apart, carries those two temperatures and their distance, and is
    ['high'] when the distance is above two degrees and ['medium'] when it
    is between one and two. *)
Theorem temperature_alert_content d (o : HeatingBedManager.observation)
    (alerts : gmap string HeatingBedManager.AlertEntry) a :
  a ∈ (HeatingBedManager.monitor_temperature_iter d o alerts).1.2 ->
  exists c t r,
    HeatingBedManager.fetch o
    = FetchStatus (Some (HeatingBedManager.mkParams (Some c) (Some t)))
    /\ HeatingBedManager.row o = Some r
    /\ (1 < Qabs (c - t))%Q
    /\ alert_kind a = "temperature_deviation" /\ alert_device_id a = d
    /\ alert_detail "current_temperature" a = Some (DNum c)
    /\ alert_detail "target_temperature" a = Some (DNum t)
    /\ alert_detail "deviation" a = Some (DNum (Qabs (c - t)))
    /\ ((2 < Qabs (c - t))%Q -> alert_detail "severity" a = Some (DStr "high"))
    /\ ((Qabs (c - t) <= 2)%Q -> alert_detail "severity" a = Some (DStr "medium")).
Proof.
  unfold HeatingBedManager.monitor_temperature_iter.
  destruct (HeatingBedManager.fetch o) as [e| |[[[c|] [t|]]|]] eqn:Hf; simpl;
    try (intros H; by inversion H).
  destruct (Qltb 1 (Qabs (c - t))) eqn:Hdev; [|intros H; by inversion H].
  match goal with |- context [match ?m !! ?k with Some _ => _ | None => (_, _, 60) end] =>
    destruct (m !! k) as [al|] end; [|intros H; by inversion H].
  destruct (negb (HeatingBedManager.alert_sent al) && _);
    [|intros H; by inversion H].
  simpl. unfold HeatingBedManager.handle_temperature_alert.
  destruct (HeatingBedManager.row o) as [r|]; [|intros H; by inversion H].
  unfold record_device_alert. intros H. apply list_elem_of_singleton in H.
  subst a. exists c, t, r. apply Qltb_true in Hdev.
  repeat split; try done.
  - intros H2. apply Qltb_true in H2. unfold alert_detail. simpl. by rewrite H2.
  - intros H2. apply Qltb_false in H2. unfold alert_detail. simpl. by rewrite H2.
Qed.


End AlertContentProperties.

Lemma temperature_alert_content_witness :
  exists a c t r,
    a ∈ (HeatingBedManager.monitor_temperature_iter 1
           (Sample.bed_poll 40 37 (301 * second))
           (<[HeatingBedManager.key 1 := HeatingBedManager.mkEntry 0 false]> ∅)).1.2
    /\ HeatingBedManager.fetch (Sample.bed_poll 40 37 (301 * second))
       = FetchStatus (Some (HeatingBedManager.mkParams (Some c) (Some t)))
    /\ HeatingBedManager.row (Sample.bed_poll 40 37 (301 * second)) = Some r
    /\ (1 < Qabs (c - t))%Q
    /\ alert_kind a = "temperature_deviation".
Proof.
  eexists.
  assert (H : forall a,
            a ∈ (HeatingBedManager.monitor_temperature_iter 1
                   (Sample.bed_poll 40 37 (301 * second))
                   (<[HeatingBedManager.key 1 := HeatingBedManager.mkEntry 0 false]> ∅)).1.2 ->
            exists c t r,
              a ∈ (HeatingBedManager.monitor_temperature_iter 1
                     (Sample.bed_poll 40 37 (301 * second))
                     (<[HeatingBedManager.key 1 := HeatingBedManager.mkEntry 0 false]> ∅)).1.2
              /\ HeatingBedManager.fetch (Sample.bed_poll 40 37 (301 * second))
                 = FetchStatus (Some (HeatingBedManager.mkParams (Some c) (Some t)))
              /\ HeatingBedManager.row (Sample.bed_poll 40 37 (301 * second)) = Some r
              /\ (1 < Qabs (c - t))%Q
              /\ alert_kind a = "temperature_deviation").
  { intros a Ha.
    destruct (temperature_alert_content 1 _ _ a Ha)
      as (c & t & r & Hf & Hr & Hd & Hk & _).
    by exists c, t, r. }
  apply H. vm_compute. left.
Defined.

Section SterilizerLoopProperties.
Import SterilizerManager.

Local Arguments Qltb : simpl never.
Local Arguments Qabs : simpl never.
Local Arguments Qminus : simpl never.


End SterilizerLoopProperties.

Section PhototherapyLoopProperties.
Import PhototherapyManager.

Local Arguments Qltb : simpl never.
Local Arguments Qabs : simpl never.
Local Arguments Qminus : simpl never.
Local Arguments Qdiv : simpl never.
Local Arguments inject_Z : simpl never.
Local Arguments Z.sub : simpl never.
Local Arguments Z.mul : simpl never.
Local Arguments Z.leb : simpl never.

(** The ['session_ending'] alerts of an iteration: there is one exactly when
    an active session with a start and a planned duration has fifteen
    minutes or less left on the poll's clock and the directory row is
    found. *)
Lemma session_ending_iff d (o : observation) a :
  a ∈ (monitor_session_iter d o).1 /\ alert_kind a = "session_ending"
  <-> exists info cur start mins r,
        fetch o = FetchStatus (Some (mkParams true info cur))
        /\ start_time (default no_info info) = Some start
        /\ planned_duration_minutes (default no_info info) = Some mins
        /\ mins * minute - (t_now o - start) <= session_alert_threshold
        /\ row o = Some r
        /\ a = mkAlert d "session_ending"
                 [("device_id", DInt d);
                  ("device_name", DStr (DeviceService.name r));
                  ("alert_type", DStr "session_ending");
                  ("value",
                   DNum (inject_Z (mins * minute - (t_now o - start))
                         / inject_Z minute));
                  ("timestamp", DInt (t_stamp o));
                  ("minutes_remaining",
                   DNum (inject_Z (mins * minute - (t_now o - start))
                         / inject_Z minute));
                  ("severity", DStr "low")].
Proof.
  unfold monitor_session_iter. split.
  - intros [Hin Hk].
    destruct (fetch o) as [e| |[[active info cur]|]] eqn:Hf; simpl in Hin;
      try (by inversion Hin).
    destruct active; [|by inversion Hin]. simpl in Hin.
    destruct (start_time (default no_info info)) as [start|] eqn:Es;
      [|by inversion Hin].
    destruct (planned_duration_minutes (default no_info info)) as [mins|] eqn:Em;
      [|by inversion Hin].
    simpl in Hin. apply elem_of_app in Hin as [Hin|Hin].
    + destruct (mins * minute - (t_now o - start) <=? session_alert_threshold)
        eqn:El; [|by inversion Hin].
      apply Z.leb_le in El. unfold handle_session_alert in Hin.
      destruct (row o) as [r|] eqn:Er; [|by inversion Hin].
      unfold record_device_alert in Hin. apply list_elem_of_singleton in Hin.
      exists info, cur, start, mins, r. by repeat split.
    + exfalso. destruct cur as [c|]; [|by inversion Hin].
      destruct (Qltb 5 _); [|by inversion Hin].
      unfold handle_session_alert in Hin.
      destruct (row o) as [r|]; [|by inversion Hin].
      unfold record_device_alert in Hin. apply list_elem_of_singleton in Hin.
      subst a. discriminate.
  - intros (info & cur & start & mins & r & Hf & Es & Em & Hl & Hr & ->).
    split; [|done]. rewrite Hf. simpl. rewrite Es, Em. simpl.
    apply elem_of_app. left.
    apply Z.leb_le in Hl. rewrite Hl. unfold handle_session_alert.
    rewrite Hr. unfold record_device_alert. simpl. left.
Qed.

(** X20. The end-of-session alert repeats: once a poll has emitted
    ['session_ending'] for a session, every later poll of that session (same
    fetched status, a clock that has not gone back, the directory row found)
    emits it again, also after the planned end, when the minutes it reports
    as remaining are negative; a session planned for fifteen minutes or less
    alerts from its first poll. *)
Theorem session_ending_repeats d (o1 o2 : observation) a1 :
  a1 ∈ (monitor_session_iter d o1).1 ->
  alert_kind a1 = "session_ending" ->
  fetch o2 = fetch o1 ->
  t_now o1 <= t_now o2 ->
  is_Some (row o2) ->
  exists a2 start mins,
    a2 ∈ (monitor_session_iter d o2).1
    /\ alert_kind a2 = "session_ending"
    /\ alert_detail "severity" a2 = Some (DStr "low")
    /\ alert_detail "minutes_remaining" a2
       = Some (DNum (inject_Z (mins * minute - (t_now o2 - start))
                     / inject_Z minute))
    /\ (mins * minute <= t_now o2 - start ->
        (inject_Z (mins * minute - (t_now o2 - start)) / inject_Z minute <= 0)%Q)
    /\ (forall o : observation,
          fetch o = fetch o1 -> is_Some (row o) ->
          mins <= 15 -> start <= t_now o ->
          exists a, a ∈ (monitor_session_iter d o).1
                    /\ alert_kind a = "session_ending").
Proof.
  intros Hin Hk Hf Hnow [r2 Hr2].
  destruct (proj1 (session_ending_iff d o1 a1) (conj Hin Hk))
    as (info & cur & start & mins & r & Hf1 & Es & Em & Hl & Hr & ->).
  set (a2 := mkAlert d "session_ending"
               [("device_id", DInt d);
                ("device_name", DStr (DeviceService.name r2));
                ("alert_type", DStr "session_ending");
                ("value",
                 DNum (inject_Z (mins * minute - (t_now o2 - start))
                       / inject_Z minute));
                ("timestamp", DInt (t_stamp o2));
                ("minutes_remaining",
                 DNum (inject_Z (mins * minute - (t_now o2 - start))
                       / inject_Z minute));
                ("severity", DStr "low")]).
  exists a2, start, mins.
  assert (Hl2 : mins * minute - (t_now o2 - start) <= session_alert_threshold)
    by lia.
  destruct (proj2 (session_ending_iff d o2 a2)) as [Hin2 Hk2].
  { exists info, cur, start, mins, r2.
    split; [by rewrite Hf|]. split; [done|]. split; [done|].
    split; [exact Hl2|]. split; [done|reflexivity]. }
  split; [exact Hin2|]. split; [exact Hk2|]. split; [done|]. split; [done|].
  split.
  - intros Hover. unfold Qdiv.
    assert (H0 : (inject_Z (mins * minute - (t_now o2 - start)) <= 0)%Q).
    { rewrite <- (Zle_Qle _ 0). lia. }
    assert (Hm : (0 <= / inject_Z minute)%Q) by (by vm_compute).
    apply Qle_trans with (0 * / inject_Z minute)%Q;
      [by apply Qmult_le_compat_r|].
    rewrite Qmult_0_l. apply Qle_refl.
  - intros o Hfo [ro Hro] Hshort Hstart.
    eexists.
    apply (proj2 (session_ending_iff d o
                    (mkAlert d "session_ending"
                       [("device_id", DInt d);
                        ("device_name", DStr (DeviceService.name ro));
                        ("alert_type", DStr "session_ending");
                        ("value",
                         DNum (inject_Z (mins * minute - (t_now o - start))
                               / inject_Z minute));
                        ("timestamp", DInt (t_stamp o));
                        ("minutes_remaining",
                         DNum (inject_Z (mins * minute - (t_now o - start))
                               / inject_Z minute));
                        ("severity", DStr "low")]))).
    exists info, cur, start, mins, ro.
    split; [by rewrite Hfo|]. split; [done|]. split; [done|].
    split; [|by split].
    unfold session_alert_threshold, minute, second in *. lia.
Qed.

End PhototherapyLoopProperties.

Lemma session_ending_repeats_witness :
  exists a2,
    a2 ∈ (PhototherapyManager.monitor_session_iter 2
            (Sample.session_poll 0 30 100 (40 * minute))).1
    /\ alert_kind a2 = "session_ending".
Proof.
  assert (H1 : exists a1,
             a1 ∈ (PhototherapyManager.monitor_session_iter 2
                     (Sample.session_poll 0 30 100 (20 * minute))).1
             /\ alert_kind a1 = "session_ending").
  { eexists. split; [vm_compute; left|reflexivity]. }
  destruct H1 as (a1 & Hin & Hk).
  destruct (session_ending_repeats 2
              (Sample.session_poll 0 30 100 (20 * minute))
              (Sample.session_poll 0 30 100 (40 * minute)) a1 Hin Hk)
    as (a2 & start & mins & Hin2 & Hk2 & _).
  - reflexivity.
  - by vm_compute.
  - by eexists.
  - by exists a2.
Defined.

(** * Properties of the alert service *)

Section AlertServiceProperties.
Import AlertService.

Local Arguments Qltb : simpl never.

Lemma check_performance_entry m now (t : gmap string Alert) :
  is_Some ((check_performance_alerts m now t).1 !! performance_id)
  <-> high m = true.
Proof.
  unfold check_performance_alerts. destruct (high m); simpl.
  - split; [done|]. intros _.
    destruct (t !! performance_id) as [a|] eqn:E; simpl.
    + by rewrite E.
    + by rewrite lookup_insert_eq.
  - rewrite lookup_delete_eq. split; [by intros [? ?]|done].
Qed.

Lemma check_performance_other m now (t : gmap string Alert) k :
  k <> performance_id ->
  (check_performance_alerts m now t).1 !! k = t !! k.
Proof.
  intros Hk. unfold check_performance_alerts. destruct (high m); simpl.
  - destruct (t !! performance_id); simpl; [done|]. by rewrite lookup_insert_ne.
  - by rewrite lookup_delete_ne.
Qed.

Lemma check_performance_sent m now (t : gmap string Alert) :
  ((check_performance_alerts m now t).2 <> []
   <-> high m = true /\ t !! performance_id = None)
  /\ (length (check_performance_alerts m now t).2 <= 1)%nat.
Proof.
  unfold check_performance_alerts. destruct (high m); simpl.
  - destruct (t !! performance_id); simpl; split; try lia; split; try done.
    by intros [_ ?].
  - split; [|lia]. split; [done|by intros [? _]].
Qed.

(** While the usage stays high the entry is the one made at the onset. *)
Lemma check_performance_keeps m now (t : gmap string Alert) a :
  t !! performance_id = Some a -> high m = true ->
  check_performance_alerts m now t = (t, []).
Proof.
  intros Ha Hh. unfold check_performance_alerts. by rewrite Hh, Ha.
Qed.

Lemma performance_run_last (polls : list (Metrics * Z)) :
  forall (table : gmap string Alert) m now,
    last polls = Some (m, now) ->
    (is_Some ((performance_run polls table).1 !! performance_id)
     <-> high m = true).
Proof.
  induction polls as [|[m0 n0] rest IH]; intros table m now Hl; [done|].
  destruct rest as [|p rest'].
  - simpl in Hl. injection Hl as <- <-. simpl.
    pose proof (check_performance_entry m0 n0 table) as Hent.
    by destruct (check_performance_alerts m0 n0 table).
  - change (last ((m0, n0) :: p :: rest')) with (last (p :: rest')) in Hl.
    change (performance_run ((m0, n0) :: p :: rest') table)
      with (let '(alerts, sent) := check_performance_alerts m0 n0 table in
            let '(alerts, more) := performance_run (p :: rest') alerts in
            (alerts, sent :: more)).
    destruct (check_performance_alerts m0 n0 table) as [t1 sent].
    specialize (IH t1 m now Hl).
    by destruct (performance_run (p :: rest') t1).
Qed.

(** X21. The performance alert is sent once per onset.  Over any sequence
    of metric readings, a reading sends the admin notification exactly when
    it is high (CPU, memory or disk above 80; 80 itself is not) and the
    reading before it was not (for the first reading: and the table had no
    performance alert); it sends at most one; after the sequence the table
    holds the performance alert exactly when the last reading was high; and
    no other alert of the table is touched. *)
Theorem performance_alert_once_per_onset (polls : list (Metrics * Z)) :
  forall table : gmap string Alert,
    (forall k m now e,
        polls !! k = Some (m, now) ->
        (performance_run polls table).2 !! k = Some e ->
        (e <> [] <->
         high m = true
         /\ match k with
            | O => table !! performance_id = None
            | S j => exists m' n', polls !! j = Some (m', n') /\ high m' = false
            end)
        /\ (length e <= 1)%nat)
    /\ (forall m now, last polls = Some (m, now) ->
          (is_Some ((performance_run polls table).1 !! performance_id)
           <-> high m = true))
    /\ (forall k, k <> performance_id ->
          (performance_run polls table).1 !! k = table !! k)
    /\ length (performance_run polls table).2 = length polls.
Proof.
  induction polls as [|[m0 n0] rest IH]; intros table.
  - simpl. split; [by intros []|]. split; [done|]. by split.
  - split; [|split; [apply performance_run_last|]].
    2:{ simpl.
        pose proof (check_performance_other m0 n0 table) as Hoth.
        destruct (check_performance_alerts m0 n0 table) as [t1 sent].
        destruct (IH t1) as (_ & _ & Hother & Hl).
        destruct (performance_run rest t1) as [t2 more]. simpl in *.
        split; [|by rewrite Hl].
        intros k Hne. rewrite Hother by done. by apply Hoth. }
    simpl.
    pose proof (check_performance_entry m0 n0 table) as Hent.
    pose proof (check_performance_sent m0 n0 table) as [Hsent Hlen].
    pose proof (check_performance_other m0 n0 table) as Hoth.
    destruct (check_performance_alerts m0 n0 table) as [t1 sent]. simpl in *.
    destruct (IH t1) as (Hk & Hlast & Hother & Hl).
    destruct (performance_run rest t1) as [t2 more]. simpl in *.
    intros [|k] m now e Hp He; simpl in *.
    + injection Hp as <- <-. injection He as <-. by split.
    + destruct (Hk k m now e Hp He) as [Hiff Hle]. split; [|done].
      rewrite Hiff. destruct k as [|j]; [|done].
      split.
      * intros [Hh Hnone]. split; [done|]. exists m0, n0. split; [done|].
        destruct (high m0); [|done].
        destruct (proj2 Hent eq_refl) as [a Ha]. congruence.
      * intros [Hh (m' & n' & [= <- <-] & Hf)]. split; [done|].
        destruct (t1 !! performance_id) eqn:E; [|done].
        assert (high m0 = true) by (apply Hent; by eexists). congruence.
Qed.

End AlertServiceProperties.

Section AlertRegistration.
Import AlertService.

Lemma check_maintenance_as_register due now (t : gmap string Alert) :
  check_maintenance_alerts due now t
  = register_alerts (map (maintenance_item now) due) t.
Proof.
  revert t. induction due as [|dev due IH]; intros t; [done|].
  simpl. destruct (t !! maintenance_id (DeviceService.row_id dev));
    by rewrite IH.
Qed.

Lemma check_warranty_as_register due now (t : gmap string Alert) :
  check_warranty_alerts due now t
  = register_alerts (map (warranty_item now) due) t.
Proof.
  revert t. induction due as [|dev due IH]; intros t; [done|].
  simpl. destruct (t !! warranty_id (DeviceService.row_id dev));
    by rewrite IH.
Qed.

Lemma check_inventory_as_register low now (t : gmap string Alert) :
  check_inventory_alerts low now t
  = register_alerts (map (inventory_item now) low) t.
Proof.
  revert t. induction low as [|part low IH]; intros t; [done|].
  simpl. destruct (t !! inventory_id (DeviceService.part_id part));
    by rewrite IH.
Qed.

(** An entry that is in the table stays as it is. *)
Lemma register_keeps items : forall (t : gmap string Alert) k a,
  t !! k = Some a -> (register_alerts items t).1 !! k = Some a.
Proof.
  induction items as [|[id [e n]] items IH]; intros t k a Hk; [done|].
  simpl. destruct (t !! id) as [x|] eqn:E.
  - specialize (IH t k a Hk). by destruct (register_alerts items t).
  - specialize (IH (<[id := e]> t) k a).
    destruct (register_alerts items (<[id := e]> t)). simpl in *.
    apply IH. rewrite lookup_insert_ne; [done|]. intros ->. congruence.
Qed.

(** Every item has an entry afterwards. *)
Lemma register_covers items : forall (t : gmap string Alert) id e n,
  (id, (e, n)) ∈ items -> is_Some ((register_alerts items t).1 !! id).
Proof.
  induction items as [|[id0 [e0 n0]] items IH]; intros t id e n Hin;
    [by inversion Hin|].
  simpl. apply elem_of_cons in Hin as [[= -> -> ->]|Hin].
  - destruct (t !! id0) as [x|] eqn:E.
    + pose proof (register_keeps items t id0 x E) as H.
      destruct (register_alerts items t). simpl in *. by eexists.
    + pose proof (register_keeps items (<[id0 := e0]> t) id0 e0
                    (lookup_insert_eq _ _ _)) as H.
      destruct (register_alerts items (<[id0 := e0]> t)). simpl in *.
      by eexists.
  - destruct (t !! id0) as [x|].
    + specialize (IH t id e n Hin). by destruct (register_alerts items t).
    + specialize (IH (<[id0 := e0]> t) id e n Hin).
      by destruct (register_alerts items (<[id0 := e0]> t)).
Qed.

(** A key that is the id of no item is left as it was. *)
Lemma register_other items : forall (t : gmap string Alert) k,
  k ∉ items.*1 -> (register_alerts items t).1 !! k = t !! k.
Proof.
  induction items as [|[id [e n]] items IH]; intros t k Hk; [done|].
  simpl in Hk. apply not_elem_of_cons in Hk as [Hne Hk].
  simpl. destruct (t !! id) as [x|] eqn:E.
  - specialize (IH t k Hk). by destruct (register_alerts items t).
  - specialize (IH (<[id := e]> t) k Hk).
    destruct (register_alerts items (<[id := e]> t)). simpl in *.
    by rewrite IH, lookup_insert_ne.
Qed.

(** One notification per entry made. *)
Lemma register_size items : forall t : gmap string Alert,
  size (register_alerts items t).1
  = (size t + length (register_alerts items t).2)%nat.
Proof.
  induction items as [|[id [e n]] items IH]; intros t; [simpl; lia|].
  simpl. destruct (t !! id) as [x|] eqn:E.
  - specialize (IH t). by destruct (register_alerts items t).
  - specialize (IH (<[id := e]> t)).
    destruct (register_alerts items (<[id := e]> t)). simpl in *.
    rewrite IH, map_size_insert_None by done. lia.
Qed.

(** When every item has its entry, nothing is sent and nothing changes. *)
Lemma register_again items : forall t : gmap string Alert,
  (forall id, id ∈ items.*1 -> is_Some (t !! id)) ->
  register_alerts items t = (t, []).
Proof.
  induction items as [|[id [e n]] items IH]; intros t Hall; [done|].
  simpl. destruct (Hall id) as [x Hx]; [left|]. rewrite Hx.
  rewrite IH; [done|]. intros k Hk. apply Hall. by right.
Qed.

(** A notification is sent for an item whose id was not in the table. *)
Lemma register_sent items : forall (t : gmap string Alert) n,
  n ∈ (register_alerts items t).2 ->
  exists id e, (id, (e, n)) ∈ items /\ t !! id = None.
Proof.
  induction items as [|[id0 [e0 n0]] items IH]; intros t n Hin;
    [by inversion Hin|].
  simpl in Hin. destruct (t !! id0) as [x|] eqn:E.
  - specialize (IH t n). destruct (register_alerts items t). simpl in *.
    destruct (IH Hin) as (id & e & Hi & Hn). exists id, e. split; [by right|done].
  - specialize (IH (<[id0 := e0]> t) n).
    destruct (register_alerts items (<[id0 := e0]> t)). simpl in *.
    apply elem_of_cons in Hin as [->|Hin].
    + exists id0, e0. split; [left|done].
    + destruct (IH Hin) as (id & e & Hi & Hn). exists id, e.
      split; [by right|].
      destruct (decide (id0 = id)) as [->|Hne];
        [by rewrite lookup_insert_eq in Hn|].
      by rewrite lookup_insert_ne in Hn.
Qed.

(** The alert ids of different kinds are different strings, and the id of a
    kind determines the device (or part). *)
Lemma alert_ids_separate (a b : Z) :
  maintenance_id a <> warranty_id b
  /\ maintenance_id a <> inventory_id b
  /\ warranty_id a <> inventory_id b
  /\ maintenance_id a <> performance_id /\ maintenance_id a <> slow_id
  /\ warranty_id a <> performance_id /\ warranty_id a <> slow_id
  /\ inventory_id a <> performance_id /\ inventory_id a <> slow_id
  /\ performance_id <> slow_id
  /\ (maintenance_id a = maintenance_id b -> a = b)
  /\ (warranty_id a = warranty_id b -> a = b)
  /\ (inventory_id a = inventory_id b -> a = b).
Proof.
  unfold maintenance_id, warranty_id, inventory_id, performance_id, slow_id.
  repeat split; try discriminate; simpl; intros [= H]; by apply (inj pretty).
Qed.

(** When one id of the items is missing from the table and every other is
    there, the pass makes that one entry and sends that one notification. *)
Lemma register_one items : forall (t : gmap string Alert) id,
  id ∈ items.*1 -> t !! id = None ->
  (forall k, k ∈ items.*1 -> k <> id -> is_Some (t !! k)) ->
  exists e n, (id, (e, n)) ∈ items
    /\ register_alerts items t = (<[id := e]> t, [n]).
Proof.
  induction items as [|[id0 [e0 n0]] items IH]; intros t id Hin Hnone Hrest;
    [by inversion Hin|].
  destruct (decide (id0 = id)) as [->|Hne].
  - exists e0, n0. split; [left|]. simpl. rewrite Hnone.
    rewrite register_again; [done|]. intros k Hk.
    destruct (decide (k = id)) as [->|Hk'].
    + rewrite lookup_insert_eq. by eexists.
    + rewrite lookup_insert_ne by done. apply Hrest; [by right|done].
  - simpl in Hin. apply elem_of_cons in Hin as [Heq|Hin]; [congruence|].
    destruct (IH t id Hin Hnone) as (e & n & Hi & Heq).
    { intros k Hk. apply Hrest. by right. }
    exists e, n. split; [by right|]. simpl.
    destruct (Hrest id0) as [x Hx]; [left|done|]. by rewrite Hx, Heq.
Qed.

Lemma maintenance_covers due now (table : gmap string Alert) dev :
  dev ∈ due ->
  is_Some ((check_maintenance_alerts due now table).1
           !! maintenance_id (DeviceService.row_id dev)).
Proof.
  intros Hin. rewrite check_maintenance_as_register.
  apply (register_covers _ table _
           (fst (snd (maintenance_item now dev)))
           (snd (snd (maintenance_item now dev)))).
  apply list_elem_of_fmap. by exists dev.
Qed.

(** X22. Maintenance alerts are sent once per device and never withdrawn.
    After [_check_maintenance_alerts] every device of the list has its
    alert; an alert that was in the table (of any kind) is still there,
    unchanged; exactly one notification is sent per entry made, each to the
    maintenance staff, titled with the device's name, for a device that had
    no alert; and running the check again on the same list, at any later
    time, sends nothing and changes nothing: the alert stays, and stays
    silent, for as long as it is not cleared. *)
Theorem maintenance_alert_once_per_device
    (due : list DeviceService.DeviceRow) now (table : gmap string Alert) :
  (forall dev, dev ∈ due ->
     is_Some ((check_maintenance_alerts due now table).1
              !! maintenance_id (DeviceService.row_id dev)))
  /\ (forall k a, table !! k = Some a ->
        (check_maintenance_alerts due now table).1 !! k = Some a)
  /\ size (check_maintenance_alerts due now table).1
     = (size table + length (check_maintenance_alerts due now table).2)%nat
  /\ (forall n, n ∈ (check_maintenance_alerts due now table).2 ->
        to n = MaintenanceStaff
        /\ exists dev, dev ∈ due
             /\ table !! maintenance_id (DeviceService.row_id dev) = None
             /\ title n = "Maintenance Due for " +:+ DeviceService.row_name dev)
  /\ (forall later,
        check_maintenance_alerts due later (check_maintenance_alerts due now table).1
        = ((check_maintenance_alerts due now table).1, [])).
Proof.
  rewrite check_maintenance_as_register.
  split; [|split; [|split; [|split]]].
  - intros dev Hin.
    apply (register_covers _ table _
             (fst (snd (maintenance_item now dev)))
             (snd (snd (maintenance_item now dev)))).
    apply list_elem_of_fmap. by exists dev.
  - intros k a. apply register_keeps.
  - apply register_size.
  - intros n Hin. destruct (register_sent _ _ _ Hin) as (id & e & Hi & Hn).
    apply list_elem_of_fmap in Hi as (dev & Heq & Hdev).
    injection Heq as -> -> ->. split; [done|]. by exists dev.
  - intros later. rewrite check_maintenance_as_register.
    apply register_again. intros id Hid.
    apply list_elem_of_fmap in Hid as ([id' [e n]] & -> & Hi).
    apply list_elem_of_fmap in Hi as (dev & Heq & Hdev).
    injection Heq as -> _ _.
    apply (register_covers _ table _
             (fst (snd (maintenance_item now dev)))
             (snd (snd (maintenance_item now dev)))).
    apply list_elem_of_fmap. by exists dev.
Qed.

(** X23. [clear_alert] re-arms an alert: it removes the entry of the given
    id and no other (an id that is not in the table changes nothing), and
    when a maintenance alert is cleared while its device is still on the due
    list, the next check makes the entry anew, stamped with the time of that
    check, sends exactly one notification, and leaves every other entry as
    it was. *)
Theorem clear_alert_rearms (due : list DeviceService.DeviceRow) now later
    (table : gmap string Alert) dev :
  dev ∈ due ->
  let checked := (check_maintenance_alerts due now table).1 in
  let cleared :=
    clear_alert (maintenance_id (DeviceService.row_id dev)) checked in
  cleared !! maintenance_id (DeviceService.row_id dev) = None
  /\ (forall k, k <> maintenance_id (DeviceService.row_id dev) ->
        cleared !! k = checked !! k)
  /\ (forall k (t : gmap string Alert), t !! k = None -> clear_alert k t = t)
  /\ length (check_maintenance_alerts due later cleared).2 = 1%nat
  /\ (exists a,
       (check_maintenance_alerts due later cleared).1
       !! maintenance_id (DeviceService.row_id dev) = Some a
       /\ timestamp a = later)
  /\ (forall k, k <> maintenance_id (DeviceService.row_id dev) ->
        (check_maintenance_alerts due later cleared).1 !! k = checked !! k).
Proof.
  intros Hdev checked cleared. unfold cleared, clear_alert.
  split; [apply lookup_delete_eq|].
  split; [intros k Hk; by apply lookup_delete_ne|].
  split; [intros k t Hk; by apply delete_id|].
  set (id := maintenance_id (DeviceService.row_id dev)).
  destruct (register_one (map (maintenance_item later) due)
              (delete id checked) id) as (e & n & Hi & Heq).
  - apply list_elem_of_fmap. exists (maintenance_item later dev).
    split; [done|]. apply list_elem_of_fmap. by exists dev.
  - apply lookup_delete_eq.
  - intros k Hk Hne. rewrite lookup_delete_ne by done.
    apply list_elem_of_fmap in Hk as ([id' [e n]] & -> & Hi).
    apply list_elem_of_fmap in Hi as (dev' & Heq & Hdev').
    injection Heq as -> _ _. by apply maintenance_covers.
  - rewrite check_maintenance_as_register, Heq. simpl.
    split; [done|]. split.
    + exists e. split; [apply lookup_insert_eq|].
      apply list_elem_of_fmap in Hi as (dev' & Heq' & _).
      by injection Heq' as _ -> _.
    + intros k Hk. rewrite lookup_insert_ne by done.
      by apply lookup_delete_ne.
Qed.

Lemma clear_alert_rearms_witness :
  length (check_maintenance_alerts
            [DeviceService.mkRow 1 "Bed 1" (Some 0) None] 5
            (clear_alert (maintenance_id 1)
               (check_maintenance_alerts
                  [DeviceService.mkRow 1 "Bed 1" (Some 0) None] 0 ∅).1)).2
  = 1%nat.
Proof.
  destruct (clear_alert_rearms
              [DeviceService.mkRow 1 "Bed 1" (Some 0) None] 0 5 ∅
              (DeviceService.mkRow 1 "Bed 1" (Some 0) None))
    as (_ & _ & _ & H & _); [left|exact H].
Defined.

(** The [if slow_ops:] of the loop repeats the test [_handle_slow_operations]
    makes itself. *)
Lemma slow_guard (ops : list SlowOperation) now (t : gmap string Alert) :
  match ops with
  | [] => (t, [])
  | _ :: _ => handle_slow_operations ops now t
  end = handle_slow_operations ops now t.
Proof. by destruct ops. Qed.

Lemma handle_slow_keeps ops now (t : gmap string Alert) k a :
  t !! k = Some a -> (handle_slow_operations ops now t).1 !! k = Some a.
Proof.
  intros Hk. unfold handle_slow_operations.
  destruct ops as [|o ops]; [done|].
  destruct (t !! slow_id) eqn:E; [done|]. simpl.
  rewrite lookup_insert_ne; [done|]. intros <-. congruence.
Qed.

Lemma handle_slow_entry ops now (t : gmap string Alert) :
  ops <> [] -> is_Some ((handle_slow_operations ops now t).1 !! slow_id).
Proof.
  intros Hne. unfold handle_slow_operations.
  destruct ops as [|o ops]; [done|].
  destruct (t !! slow_id) eqn:E; simpl.
  - rewrite E. by eexists.
  - rewrite lookup_insert_eq. by eexists.
Qed.

Lemma handle_slow_latched ops now (t : gmap string Alert) a :
  t !! slow_id = Some a -> handle_slow_operations ops now t = (t, []).
Proof.
  intros Ha. unfold handle_slow_operations. rewrite Ha. by destruct ops.
Qed.

(** The table and the notifications of an iteration whose probe returned,
    check by check. *)
Lemma alert_monitor_iter_returned obs m (t : gmap string Alert) :
  perf_metrics obs = Return m ->
  let c1 := check_performance_alerts m (now obs) t in
  let c2 := handle_slow_operations (slow_ops obs) (now obs) c1.1 in
  let c3 := check_maintenance_alerts
              (DeviceService.get_devices_due_maintenance (devices obs) (now obs) 7)
              (now obs) c2.1 in
  let c4 := check_warranty_alerts
              (DeviceService.get_warranty_expiring_devices (devices obs) (now obs) 30)
              (now obs) c3.1 in
  let c5 := check_inventory_alerts
              (DeviceService.get_low_stock_parts (parts obs)) (now obs) c4.1 in
  alert_monitor_iter obs t
  = (c5.1, c1.2 ++ c2.2 ++ c3.2 ++ c4.2 ++ c5.2, 300).
Proof.
  intros E. unfold alert_monitor_iter. rewrite E.
  destruct (check_performance_alerts m (now obs) t) as [t1 n1]. simpl.
  rewrite slow_guard.
  destruct (handle_slow_operations (slow_ops obs) (now obs) t1) as [t2 n2].
  simpl.
  destruct (check_maintenance_alerts _ (now obs) t2) as [t3 n3]. simpl.
  destruct (check_warranty_alerts _ (now obs) t3) as [t4 n4]. simpl.
  by destruct (check_inventory_alerts _ (now obs) t4) as [t5 n5].
Qed.

Lemma check_maintenance_keeps due now (t : gmap string Alert) k a :
  t !! k = Some a -> (check_maintenance_alerts due now t).1 !! k = Some a.
Proof. rewrite check_maintenance_as_register. apply register_keeps. Qed.

Lemma check_warranty_keeps due now (t : gmap string Alert) k a :
  t !! k = Some a -> (check_warranty_alerts due now t).1 !! k = Some a.
Proof. rewrite check_warranty_as_register. apply register_keeps. Qed.

Lemma check_inventory_keeps low now (t : gmap string Alert) k a :
  t !! k = Some a -> (check_inventory_alerts low now t).1 !! k = Some a.
Proof. rewrite check_inventory_as_register. apply register_keeps. Qed.

Lemma warranty_covers due now (table : gmap string Alert) dev :
  dev ∈ due ->
  is_Some ((check_warranty_alerts due now table).1
           !! warranty_id (DeviceService.row_id dev)).
Proof.
  intros Hin. rewrite check_warranty_as_register.
  apply (register_covers _ table _
           (fst (snd (warranty_item now dev)))
           (snd (snd (warranty_item now dev)))).
  apply list_elem_of_fmap. by exists dev.
Qed.

Lemma inventory_covers low now (table : gmap string Alert) part :
  part ∈ low ->
  is_Some ((check_inventory_alerts low now table).1
           !! inventory_id (DeviceService.part_id part)).
Proof.
  intros Hin. rewrite check_inventory_as_register.
  apply (register_covers _ table _
           (fst (snd (inventory_item now part)))
           (snd (snd (inventory_item now part)))).
  apply list_elem_of_fmap. by exists part.
Qed.

(** An iteration keeps every entry but the performance alert's. *)
Lemma alert_monitor_iter_keeps obs (t : gmap string Alert) k a :
  k <> performance_id -> t !! k = Some a ->
  (alert_monitor_iter obs t).1.1 !! k = Some a.
Proof.
  intros Hk Ha. destruct (perf_metrics obs) as [m|e] eqn:E.
  - rewrite (alert_monitor_iter_returned obs m t E). simpl.
    apply check_inventory_keeps, check_warranty_keeps, check_maintenance_keeps,
      handle_slow_keeps.
    by rewrite check_performance_other.
  - unfold alert_monitor_iter. by rewrite E.
Qed.

(** X24. One iteration of [_alert_monitor].  When the probe of the system
    metrics raises, nothing is checked: the table is left as it was, nothing
    is sent and the loop sleeps 60 seconds.  When it returns, the loop
    sleeps 300 seconds and the table it leaves has the performance alert
    exactly when a usage is above 80, the slow-operations alert when the
    list was not empty, a maintenance alert for every device due within 7
    days (overdue ones included), a warranty alert for every device whose
    warranty expires within 30 days, an inventory alert for every part whose
    quantity is at or below its minimum, and every entry it had before under
    an id other than the performance alert's. *)
Theorem alert_monitor_iter_covers obs (table : gmap string Alert) :
  match perf_metrics obs with
  | Raise _ => alert_monitor_iter obs table = (table, [], 60)
  | Return m =>
      (alert_monitor_iter obs table).2 = 300
      /\ (is_Some ((alert_monitor_iter obs table).1.1 !! performance_id)
          <-> high m = true)
      /\ (slow_ops obs <> [] ->
          is_Some ((alert_monitor_iter obs table).1.1 !! slow_id))
      /\ (forall dev due, dev ∈ devices obs ->
            DeviceService.next_maintenance_due dev = Some due ->
            due <= now obs + 7 * DeviceService.day ->
            is_Some ((alert_monitor_iter obs table).1.1
                     !! maintenance_id (DeviceService.row_id dev)))
      /\ (forall dev expiry, dev ∈ devices obs ->
            DeviceService.warranty_expiry dev = Some expiry ->
            expiry <= now obs + 30 * DeviceService.day ->
            is_Some ((alert_monitor_iter obs table).1.1
                     !! warranty_id (DeviceService.row_id dev)))
      /\ (forall part, part ∈ parts obs ->
            DeviceService.quantity part <= DeviceService.minimum_quantity part ->
            is_Some ((alert_monitor_iter obs table).1.1
                     !! inventory_id (DeviceService.part_id part)))
      /\ (forall k a, k <> performance_id -> table !! k = Some a ->
            (alert_monitor_iter obs table).1.1 !! k = Some a)
  end.
Proof.
  destruct (perf_metrics obs) as [m|e] eqn:E.
  2:{ unfold alert_monitor_iter. by rewrite E. }
  split; [by rewrite (alert_monitor_iter_returned obs m table E)|].
  split; [|split; [|split; [|split; [|split]]]].
  - rewrite (alert_monitor_iter_returned obs m table E). simpl.
    pose proof (alert_ids_separate 0 0) as Hsep.
    rewrite <- (check_performance_entry m (now obs) table).
    set (t1 := (check_performance_alerts m (now obs) table).1).
    rewrite check_inventory_as_register, check_warranty_as_register,
      check_maintenance_as_register.
    rewrite !register_other.
    + unfold handle_slow_operations.
      destruct (slow_ops obs); [done|].
      destruct (t1 !! slow_id); [done|]. simpl.
      rewrite lookup_insert_ne; [done|]. intros H. by destruct Hsep as (_&_&_&_&_&_&_&_&_&Hs&_).
    + intros Hin. apply list_elem_of_fmap in Hin as ([id [e n]] & Hid & Hi).
      apply list_elem_of_fmap in Hi as (dev & Heq & _).
      injection Heq as -> _ _. simpl in Hid.
      by destruct (alert_ids_separate (DeviceService.row_id dev) 0)
        as (_&_&_&Hs&_).
    + intros Hin. apply list_elem_of_fmap in Hin as ([id [e n]] & Hid & Hi).
      apply list_elem_of_fmap in Hi as (dev & Heq & _).
      injection Heq as -> _ _. simpl in Hid.
      by destruct (alert_ids_separate (DeviceService.row_id dev) 0)
        as (_&_&_&_&_&Hs&_).
    + intros Hin. apply list_elem_of_fmap in Hin as ([id [e n]] & Hid & Hi).
      apply list_elem_of_fmap in Hi as (part & Heq & _).
      injection Heq as -> _ _. simpl in Hid.
      by destruct (alert_ids_separate (DeviceService.part_id part) 0)
        as (_&_&_&_&_&_&_&Hs&_).
  - intros Hne. rewrite (alert_monitor_iter_returned obs m table E). simpl.
    destruct (handle_slow_entry (slow_ops obs) (now obs)
                (check_performance_alerts m (now obs) table).1 Hne) as [a Ha].
    exists a.
    by apply check_inventory_keeps, check_warranty_keeps,
      check_maintenance_keeps.
  - intros dev due Hin Hdue Hle.
    rewrite (alert_monitor_iter_returned obs m table E). simpl.
    match goal with
    | |- is_Some ((check_inventory_alerts _ _
                     (check_warranty_alerts _ _ ?c.1).1).1 !! _) =>
        destruct (maintenance_covers
                    (DeviceService.get_devices_due_maintenance
                       (devices obs) (now obs) 7) (now obs)
                    (handle_slow_operations (slow_ops obs) (now obs)
                       (check_performance_alerts m (now obs) table).1).1 dev)
          as [a Ha]
    end.
    { unfold DeviceService.get_devices_due_maintenance.
      apply list_elem_of_filter. split; [|done]. rewrite Hdue.
      by apply Z.leb_le. }
    exists a. by apply check_inventory_keeps, check_warranty_keeps.
  - intros dev expiry Hin Hexp Hle.
    rewrite (alert_monitor_iter_returned obs m table E). simpl.
    match goal with
    | |- is_Some ((check_inventory_alerts _ _
                     (check_warranty_alerts ?l _ ?t).1).1 !! _) =>
        destruct (warranty_covers l (now obs) t dev) as [a Ha]
    end.
    { unfold DeviceService.get_warranty_expiring_devices.
      apply list_elem_of_filter. split; [|done]. rewrite Hexp.
      by apply Z.leb_le. }
    exists a. by apply check_inventory_keeps.
  - intros part Hin Hle.
    rewrite (alert_monitor_iter_returned obs m table E). simpl.
    apply inventory_covers.
    unfold DeviceService.get_low_stock_parts.
    apply list_elem_of_filter. split; [|done]. by apply Z.leb_le.
  - intros k a Hk Ha. by apply alert_monitor_iter_keeps.
Qed.

(** A notification sent by an iteration that found the slow-operations alert
    in the table is not the slow-operations one. *)
Lemma alert_monitor_iter_latched obs (t : gmap string Alert) a :
  t !! slow_id = Some a ->
  forall n, n ∈ (alert_monitor_iter obs t).1.2 ->
    title n <> "Slow Operations Detected".
Proof.
  intros Ha n Hn. destruct (perf_metrics obs) as [m|e] eqn:E.
  2:{ unfold alert_monitor_iter in Hn. rewrite E in Hn. by inversion Hn. }
  rewrite (alert_monitor_iter_returned obs m t E) in Hn. simpl in Hn.
  rewrite (handle_slow_latched _ _ _ a) in Hn.
  2:{ rewrite check_performance_other; [done|].
      by destruct (alert_ids_separate 0 0) as (_&_&_&_&_&_&_&_&_&Hs&_). }
  simpl in Hn.
  rewrite check_inventory_as_register, check_warranty_as_register,
    check_maintenance_as_register in Hn.
  rewrite !elem_of_app in Hn. destruct Hn as [Hn|[Hn|[Hn|Hn]]].
  - unfold check_performance_alerts in Hn. destruct (high m); simpl in Hn.
    + destruct (t !! performance_id); simpl in Hn; [by inversion Hn|].
      apply list_elem_of_singleton in Hn as ->. done.
    + by inversion Hn.
  - apply register_sent in Hn as (id & e & Hi & _).
    apply list_elem_of_fmap in Hi as (dev & Heq & _).
    by injection Heq as _ _ ->.
  - apply register_sent in Hn as (id & e & Hi & _).
    apply list_elem_of_fmap in Hi as (dev & Heq & _).
    by injection Heq as _ _ ->.
  - apply register_sent in Hn as (id & e & Hi & _).
    apply list_elem_of_fmap in Hi as (part & Heq & _).
    by injection Heq as _ _ ->.
Qed.

(** X25. The slow-operations alert is latched.  [_handle_slow_operations]
    makes the entry and nothing in the loop removes it: once it is in the
    table, it is there, unchanged, after any number of iterations, whatever
    they observe (an empty slow-operation list included), and none of them
    sends the slow-operations notification again. *)
Theorem slow_alert_latched (observations : list observation) :
  forall (table : gmap string Alert) a,
    table !! slow_id = Some a ->
    (alert_monitor observations table).1 !! slow_id = Some a
    /\ forall sent sleep n,
         (sent, sleep) ∈ (alert_monitor observations table).2 ->
         n ∈ sent -> title n <> "Slow Operations Detected".
Proof.
  induction observations as [|obs rest IH]; intros table a Ha.
  - split; [done|]. intros sent sleep n Hin. by inversion Hin.
  - simpl.
    pose proof (alert_monitor_iter_latched obs table a Ha) as Hl.
    assert (Hk : (alert_monitor_iter obs table).1.1 !! slow_id = Some a).
    { apply alert_monitor_iter_keeps; [|done].
      intros H. by destruct (alert_ids_separate 0 0) as (_&_&_&_&_&_&_&_&_&Hs&_). }
    destruct (alert_monitor_iter obs table) as [[t1 sent1] sleep1].
    simpl in *. specialize (IH t1 a Hk).
    destruct (alert_monitor rest t1) as [t2 more]. simpl in *.
    destruct IH as [IH1 IH2]. split; [done|].
    intros sent sleep n Hin Hn.
    apply elem_of_cons in Hin as [[= -> ->]|Hin]; [by apply Hl|].
    by apply (IH2 sent sleep n).
Qed.

Lemma slow_alert_latched_witness :
  (alert_monitor
     [mkObs (Return (mkMetrics 10 10 10)) [mkSlow "query" 3] [] [] 600;
      mkObs (Return (mkMetrics 10 10 10)) [] [] [] 900]
     (<[slow_id := mkAlertEntry "performance" 0
                     (SlowOperations [mkSlow "query" 3]) "medium"]> ∅)).1
  !! slow_id
  = Some (mkAlertEntry "performance" 0 (SlowOperations [mkSlow "query" 3])
            "medium").
Proof.
  apply (slow_alert_latched
           [mkObs (Return (mkMetrics 10 10 10)) [mkSlow "query" 3] [] [] 600;
            mkObs (Return (mkMetrics 10 10 10)) [] [] [] 900]
           (<[slow_id := mkAlertEntry "performance" 0
                           (SlowOperations [mkSlow "query" 3]) "medium"]> ∅)).
  apply lookup_insert_eq.
Defined.

(** X26. The due lists have no lower bound and grow with time.  As long as
    the threshold dates can be computed (at most 999999999 days, and a date
    within the range of [datetime]; beyond that the call raises
    [OverflowError]), a device on the maintenance list for a threshold at
    some time is on it for every larger threshold at every later time, as
    long as its row is in the table with that due date: an overdue device
    stays listed.  A device with no due date is never listed, and a part
    whose quantity equals its minimum is listed as low on stock. *)
Theorem due_lists_monotone (devices : list DeviceService.DeviceRow)
    (now later days more_days : Z) dev :
  now <= later -> days <= more_days ->
  is_return (DeviceService.threshold_date now days) = true ->
  is_return (DeviceService.threshold_date later more_days) = true ->
  dev ∈ DeviceService.get_devices_due_maintenance devices now days ->
  dev ∈ DeviceService.get_devices_due_maintenance devices later more_days
  /\ (exists due, DeviceService.next_maintenance_due dev = Some due
                  /\ DeviceService.threshold_date now days
                     = Return (now + days * DeviceService.day)
                  /\ due <= now + days * DeviceService.day)
  /\ (forall parts part, part ∈ parts ->
        DeviceService.quantity part = DeviceService.minimum_quantity part ->
        part ∈ DeviceService.get_low_stock_parts parts)
  /\ (forall n d, DeviceService.timedelta_max_days < d ->
        DeviceService.threshold_date n d = Raise OverflowError).
Proof.
  intros Hnow Hdays Hr1 Hr2 Hin.
  unfold DeviceService.get_devices_due_maintenance in *.
  apply list_elem_of_filter in Hin as [Hdue Hin].
  destruct (DeviceService.next_maintenance_due dev) as [due|] eqn:E; [|done].
  apply Z.leb_le in Hdue.
  assert (Hday : 0 < DeviceService.day) by done.
  split; [|split; [|split]].
  - apply list_elem_of_filter. split; [|done]. rewrite E.
    apply Z.leb_le. nia.
  - exists due. split; [done|]. split; [|done].
    unfold DeviceService.threshold_date in *.
    destruct (DeviceService.timedelta_max_days <? Z.abs days); [done|].
    by destruct (_ || _).
  - intros parts part Hp Hq. unfold DeviceService.get_low_stock_parts.
    apply list_elem_of_filter. split; [|done]. apply Z.leb_le. lia.
  - intros n d Hd. unfold DeviceService.threshold_date.
    assert ((DeviceService.timedelta_max_days <? Z.abs d) = true) as ->; [|done].
    apply Z.ltb_lt. lia.
Qed.

Lemma due_lists_monotone_witness :
  DeviceService.mkRow 1 "Bed 1" (Some (-5)) None
  ∈ DeviceService.get_devices_due_maintenance
      [DeviceService.mkRow 1 "Bed 1" (Some (-5)) None] 10 30.
Proof.
  apply (due_lists_monotone
           [DeviceService.mkRow 1 "Bed 1" (Some (-5)) None] 0 10 7 30
           (DeviceService.mkRow 1 "Bed 1" (Some (-5)) None));
    [lia|lia|reflexivity|reflexivity|].
  unfold DeviceService.get_devices_due_maintenance.
  apply list_elem_of_filter. split; [done|left].
Defined.

End AlertRegistration.
